(** * Document registry and policy snapshots: a shallow embedding

    The development follows three Python modules:
    - [build_doc_registry.py]  (module [Builder]),
    - [get_doc_versions.py]    (module [Extractor]),
    - [example_integration.py] (module [Integration]).

    Python [str] values are modelled as lists of characters, and a character
    is its Unicode code point.  What [str.isspace], [str.lower] and the
    regular-expression class [\d] do to a character is data of the language,
    not of the program: module [Unicode] holds these tables as CPython 3.11
    has them (Unicode 14.0.0).  The escaping done by [json.dump] is written
    out in module [Json].

    Python dictionaries keep insertion order, and two of the properties proved
    here are about that order (what is sorted when the registry is written,
    what survives a traversal in another order), so a dictionary is an
    association list with the update discipline of [dict.__setitem__]. *)

From Stdlib Require Import Ascii String Bool Arith NArith ZArith Lia List.
From Stdlib Require Import Permutation Sorted DecimalString.
Import ListNotations.
Open Scope string_scope.
Open Scope list_scope.
Open Scope nat_scope.

Set Implicit Arguments.

(* ------------------------------------------------------------------ *)
(** ** Character tables *)

Module Unicode.

(** Membership in a table of ranges of code points. *)
Definition in_ranges (table : list (N * N)) (c : N) : bool :=
  existsb (fun r => (fst r <=? c)%N && (c <=? snd r)%N) table.

(** The characters [str.isspace] holds of; they are the characters
    [str.strip()] removes.  Each pair is a range of code points, ends
    included. *)
Definition White_Space : list (N * N) :=
  [
    (0x9, 0xD); (0x1C, 0x20); (0x85, 0x85); (0xA0, 0xA0); (0x1680, 0x1680);
    (0x2000, 0x200A); (0x2028, 0x2029); (0x202F, 0x202F); (0x205F, 0x205F);
    (0x3000, 0x3000)
  ]%N.

(** The characters the class [\d] of [re] matches in a [str] pattern: the
    decimal digits of every script (general category Nd). *)
Definition Decimal_Digit : list (N * N) :=
  [
    (0x30, 0x39); (0x660, 0x669); (0x6F0, 0x6F9); (0x7C0, 0x7C9);
    (0x966, 0x96F); (0x9E6, 0x9EF); (0xA66, 0xA6F); (0xAE6, 0xAEF);
    (0xB66, 0xB6F); (0xBE6, 0xBEF); (0xC66, 0xC6F); (0xCE6, 0xCEF);
    (0xD66, 0xD6F); (0xDE6, 0xDEF); (0xE50, 0xE59); (0xED0, 0xED9);
    (0xF20, 0xF29); (0x1040, 0x1049); (0x1090, 0x1099); (0x17E0, 0x17E9);
    (0x1810, 0x1819); (0x1946, 0x194F); (0x19D0, 0x19D9); (0x1A80, 0x1A89);
    (0x1A90, 0x1A99); (0x1B50, 0x1B59); (0x1BB0, 0x1BB9); (0x1C40, 0x1C49);
    (0x1C50, 0x1C59); (0xA620, 0xA629); (0xA8D0, 0xA8D9); (0xA900, 0xA909);
    (0xA9D0, 0xA9D9); (0xA9F0, 0xA9F9); (0xAA50, 0xAA59); (0xABF0, 0xABF9);
    (0xFF10, 0xFF19); (0x104A0, 0x104A9); (0x10D30, 0x10D39);
    (0x11066, 0x1106F); (0x110F0, 0x110F9); (0x11136, 0x1113F);
    (0x111D0, 0x111D9); (0x112F0, 0x112F9); (0x11450, 0x11459);
    (0x114D0, 0x114D9); (0x11650, 0x11659); (0x116C0, 0x116C9);
    (0x11730, 0x11739); (0x118E0, 0x118E9); (0x11950, 0x11959);
    (0x11C50, 0x11C59); (0x11D50, 0x11D59); (0x11DA0, 0x11DA9);
    (0x16A60, 0x16A69); (0x16AC0, 0x16AC9); (0x16B50, 0x16B59);
    (0x1D7CE, 0x1D7FF); (0x1E140, 0x1E149); (0x1E2F0, 0x1E2F9);
    (0x1E950, 0x1E959); (0x1FBF0, 0x1FBF9)
  ]%N.

(** The characters [str.lower] changes, U+0130 and the capital sigma apart.
    A run (first, last, step, image) maps [first], [first + step], ...,
    up to [last], to [image], [image + step], ... *)
Definition Lowercase_Mapping : list (N * N * N * N) :=
  [
    (0x41, 0x5A, 1, 0x61); (0xC0, 0xD6, 1, 0xE0); (0xD8, 0xDE, 1, 0xF8);
    (0x100, 0x12E, 2, 0x101); (0x132, 0x136, 2, 0x133);
    (0x139, 0x147, 2, 0x13A); (0x14A, 0x176, 2, 0x14B);
    (0x178, 0x178, 1, 0xFF); (0x179, 0x17D, 2, 0x17A);
    (0x181, 0x181, 1, 0x253); (0x182, 0x184, 2, 0x183);
    (0x186, 0x186, 1, 0x254); (0x187, 0x187, 1, 0x188);
    (0x189, 0x18A, 1, 0x256); (0x18B, 0x18B, 1, 0x18C);
    (0x18E, 0x18E, 1, 0x1DD); (0x18F, 0x18F, 1, 0x259);
    (0x190, 0x190, 1, 0x25B); (0x191, 0x191, 1, 0x192);
    (0x193, 0x193, 1, 0x260); (0x194, 0x194, 1, 0x263);
    (0x196, 0x196, 1, 0x269); (0x197, 0x197, 1, 0x268);
    (0x198, 0x198, 1, 0x199); (0x19C, 0x19C, 1, 0x26F);
    (0x19D, 0x19D, 1, 0x272); (0x19F, 0x19F, 1, 0x275);
    (0x1A0, 0x1A4, 2, 0x1A1); (0x1A6, 0x1A6, 1, 0x280);
    (0x1A7, 0x1A7, 1, 0x1A8); (0x1A9, 0x1A9, 1, 0x283);
    (0x1AC, 0x1AC, 1, 0x1AD); (0x1AE, 0x1AE, 1, 0x288);
    (0x1AF, 0x1AF, 1, 0x1B0); (0x1B1, 0x1B2, 1, 0x28A);
    (0x1B3, 0x1B5, 2, 0x1B4); (0x1B7, 0x1B7, 1, 0x292);
    (0x1B8, 0x1B8, 1, 0x1B9); (0x1BC, 0x1BC, 1, 0x1BD);
    (0x1C4, 0x1C4, 1, 0x1C6); (0x1C5, 0x1C5, 1, 0x1C6);
    (0x1C7, 0x1C7, 1, 0x1C9); (0x1C8, 0x1C8, 1, 0x1C9);
    (0x1CA, 0x1CA, 1, 0x1CC); (0x1CB, 0x1DB, 2, 0x1CC);
    (0x1DE, 0x1EE, 2, 0x1DF); (0x1F1, 0x1F1, 1, 0x1F3);
    (0x1F2, 0x1F4, 2, 0x1F3); (0x1F6, 0x1F6, 1, 0x195);
    (0x1F7, 0x1F7, 1, 0x1BF); (0x1F8, 0x21E, 2, 0x1F9);
    (0x220, 0x220, 1, 0x19E); (0x222, 0x232, 2, 0x223);
    (0x23A, 0x23A, 1, 0x2C65); (0x23B, 0x23B, 1, 0x23C);
    (0x23D, 0x23D, 1, 0x19A); (0x23E, 0x23E, 1, 0x2C66);
    (0x241, 0x241, 1, 0x242); (0x243, 0x243, 1, 0x180);
    (0x244, 0x244, 1, 0x289); (0x245, 0x245, 1, 0x28C);
    (0x246, 0x24E, 2, 0x247); (0x370, 0x372, 2, 0x371);
    (0x376, 0x376, 1, 0x377); (0x37F, 0x37F, 1, 0x3F3);
    (0x386, 0x386, 1, 0x3AC); (0x388, 0x38A, 1, 0x3AD);
    (0x38C, 0x38C, 1, 0x3CC); (0x38E, 0x38F, 1, 0x3CD);
    (0x391, 0x3A1, 1, 0x3B1); (0x3A3, 0x3AB, 1, 0x3C3);
    (0x3CF, 0x3CF, 1, 0x3D7); (0x3D8, 0x3EE, 2, 0x3D9);
    (0x3F4, 0x3F4, 1, 0x3B8); (0x3F7, 0x3F7, 1, 0x3F8);
    (0x3F9, 0x3F9, 1, 0x3F2); (0x3FA, 0x3FA, 1, 0x3FB);
    (0x3FD, 0x3FF, 1, 0x37B); (0x400, 0x40F, 1, 0x450);
    (0x410, 0x42F, 1, 0x430); (0x460, 0x480, 2, 0x461);
    (0x48A, 0x4BE, 2, 0x48B); (0x4C0, 0x4C0, 1, 0x4CF);
    (0x4C1, 0x4CD, 2, 0x4C2); (0x4D0, 0x52E, 2, 0x4D1);
    (0x531, 0x556, 1, 0x561); (0x10A0, 0x10C5, 1, 0x2D00);
    (0x10C7, 0x10C7, 1, 0x2D27); (0x10CD, 0x10CD, 1, 0x2D2D);
    (0x13A0, 0x13EF, 1, 0xAB70); (0x13F0, 0x13F5, 1, 0x13F8);
    (0x1C90, 0x1CBA, 1, 0x10D0); (0x1CBD, 0x1CBF, 1, 0x10FD);
    (0x1E00, 0x1E94, 2, 0x1E01); (0x1E9E, 0x1E9E, 1, 0xDF);
    (0x1EA0, 0x1EFE, 2, 0x1EA1); (0x1F08, 0x1F0F, 1, 0x1F00);
    (0x1F18, 0x1F1D, 1, 0x1F10); (0x1F28, 0x1F2F, 1, 0x1F20);
    (0x1F38, 0x1F3F, 1, 0x1F30); (0x1F48, 0x1F4D, 1, 0x1F40);
    (0x1F59, 0x1F5F, 2, 0x1F51); (0x1F68, 0x1F6F, 1, 0x1F60);
    (0x1F88, 0x1F8F, 1, 0x1F80); (0x1F98, 0x1F9F, 1, 0x1F90);
    (0x1FA8, 0x1FAF, 1, 0x1FA0); (0x1FB8, 0x1FB9, 1, 0x1FB0);
    (0x1FBA, 0x1FBB, 1, 0x1F70); (0x1FBC, 0x1FBC, 1, 0x1FB3);
    (0x1FC8, 0x1FCB, 1, 0x1F72); (0x1FCC, 0x1FCC, 1, 0x1FC3);
    (0x1FD8, 0x1FD9, 1, 0x1FD0); (0x1FDA, 0x1FDB, 1, 0x1F76);
    (0x1FE8, 0x1FE9, 1, 0x1FE0); (0x1FEA, 0x1FEB, 1, 0x1F7A);
    (0x1FEC, 0x1FEC, 1, 0x1FE5); (0x1FF8, 0x1FF9, 1, 0x1F78);
    (0x1FFA, 0x1FFB, 1, 0x1F7C); (0x1FFC, 0x1FFC, 1, 0x1FF3);
    (0x2126, 0x2126, 1, 0x3C9); (0x212A, 0x212A, 1, 0x6B);
    (0x212B, 0x212B, 1, 0xE5); (0x2132, 0x2132, 1, 0x214E);
    (0x2160, 0x216F, 1, 0x2170); (0x2183, 0x2183, 1, 0x2184);
    (0x24B6, 0x24CF, 1, 0x24D0); (0x2C00, 0x2C2F, 1, 0x2C30);
    (0x2C60, 0x2C60, 1, 0x2C61); (0x2C62, 0x2C62, 1, 0x26B);
    (0x2C63, 0x2C63, 1, 0x1D7D); (0x2C64, 0x2C64, 1, 0x27D);
    (0x2C67, 0x2C6B, 2, 0x2C68); (0x2C6D, 0x2C6D, 1, 0x251);
    (0x2C6E, 0x2C6E, 1, 0x271); (0x2C6F, 0x2C6F, 1, 0x250);
    (0x2C70, 0x2C70, 1, 0x252); (0x2C72, 0x2C72, 1, 0x2C73);
    (0x2C75, 0x2C75, 1, 0x2C76); (0x2C7E, 0x2C7F, 1, 0x23F);
    (0x2C80, 0x2CE2, 2, 0x2C81); (0x2CEB, 0x2CED, 2, 0x2CEC);
    (0x2CF2, 0x2CF2, 1, 0x2CF3); (0xA640, 0xA66C, 2, 0xA641);
    (0xA680, 0xA69A, 2, 0xA681); (0xA722, 0xA72E, 2, 0xA723);
    (0xA732, 0xA76E, 2, 0xA733); (0xA779, 0xA77B, 2, 0xA77A);
    (0xA77D, 0xA77D, 1, 0x1D79); (0xA77E, 0xA786, 2, 0xA77F);
    (0xA78B, 0xA78B, 1, 0xA78C); (0xA78D, 0xA78D, 1, 0x265);
    (0xA790, 0xA792, 2, 0xA791); (0xA796, 0xA7A8, 2, 0xA797);
    (0xA7AA, 0xA7AA, 1, 0x266); (0xA7AB, 0xA7AB, 1, 0x25C);
    (0xA7AC, 0xA7AC, 1, 0x261); (0xA7AD, 0xA7AD, 1, 0x26C);
    (0xA7AE, 0xA7AE, 1, 0x26A); (0xA7B0, 0xA7B0, 1, 0x29E);
    (0xA7B1, 0xA7B1, 1, 0x287); (0xA7B2, 0xA7B2, 1, 0x29D);
    (0xA7B3, 0xA7B3, 1, 0xAB53); (0xA7B4, 0xA7C2, 2, 0xA7B5);
    (0xA7C4, 0xA7C4, 1, 0xA794); (0xA7C5, 0xA7C5, 1, 0x282);
    (0xA7C6, 0xA7C6, 1, 0x1D8E); (0xA7C7, 0xA7C9, 2, 0xA7C8);
    (0xA7D0, 0xA7D0, 1, 0xA7D1); (0xA7D6, 0xA7D8, 2, 0xA7D7);
    (0xA7F5, 0xA7F5, 1, 0xA7F6); (0xFF21, 0xFF3A, 1, 0xFF41);
    (0x10400, 0x10427, 1, 0x10428); (0x104B0, 0x104D3, 1, 0x104D8);
    (0x10570, 0x1057A, 1, 0x10597); (0x1057C, 0x1058A, 1, 0x105A3);
    (0x1058C, 0x10592, 1, 0x105B3); (0x10594, 0x10595, 1, 0x105BB);
    (0x10C80, 0x10CB2, 1, 0x10CC0); (0x118A0, 0x118BF, 1, 0x118C0);
    (0x16E40, 0x16E5F, 1, 0x16E60); (0x1E900, 0x1E921, 1, 0x1E922)
  ]%N.

(** The characters [str.lower] skips when it looks for the letter next to
    a capital sigma (the case-ignorable characters). *)
Definition Case_Ignorable : list (N * N) :=
  [
    (0x27, 0x27); (0x2E, 0x2E); (0x3A, 0x3A); (0x5E, 0x5E); (0x60, 0x60);
    (0xA8, 0xA8); (0xAD, 0xAD); (0xAF, 0xAF); (0xB4, 0xB4); (0xB7, 0xB8);
    (0x2B0, 0x36F); (0x374, 0x375); (0x37A, 0x37A); (0x384, 0x385);
    (0x387, 0x387); (0x483, 0x489); (0x559, 0x559); (0x55F, 0x55F);
    (0x591, 0x5BD); (0x5BF, 0x5BF); (0x5C1, 0x5C2); (0x5C4, 0x5C5);
    (0x5C7, 0x5C7); (0x5F4, 0x5F4); (0x600, 0x605); (0x610, 0x61A);
    (0x61C, 0x61C); (0x640, 0x640); (0x64B, 0x65F); (0x670, 0x670);
    (0x6D6, 0x6DD); (0x6DF, 0x6E8); (0x6EA, 0x6ED); (0x70F, 0x70F);
    (0x711, 0x711); (0x730, 0x74A); (0x7A6, 0x7B0); (0x7EB, 0x7F5);
    (0x7FA, 0x7FA); (0x7FD, 0x7FD); (0x816, 0x82D); (0x859, 0x85B);
    (0x888, 0x888); (0x890, 0x891); (0x898, 0x89F); (0x8C9, 0x902);
    (0x93A, 0x93A); (0x93C, 0x93C); (0x941, 0x948); (0x94D, 0x94D);
    (0x951, 0x957); (0x962, 0x963); (0x971, 0x971); (0x981, 0x981);
    (0x9BC, 0x9BC); (0x9C1, 0x9C4); (0x9CD, 0x9CD); (0x9E2, 0x9E3);
    (0x9FE, 0x9FE); (0xA01, 0xA02); (0xA3C, 0xA3C); (0xA41, 0xA42);
    (0xA47, 0xA48); (0xA4B, 0xA4D); (0xA51, 0xA51); (0xA70, 0xA71);
    (0xA75, 0xA75); (0xA81, 0xA82); (0xABC, 0xABC); (0xAC1, 0xAC5);
    (0xAC7, 0xAC8); (0xACD, 0xACD); (0xAE2, 0xAE3); (0xAFA, 0xAFF);
    (0xB01, 0xB01); (0xB3C, 0xB3C); (0xB3F, 0xB3F); (0xB41, 0xB44);
    (0xB4D, 0xB4D); (0xB55, 0xB56); (0xB62, 0xB63); (0xB82, 0xB82);
    (0xBC0, 0xBC0); (0xBCD, 0xBCD); (0xC00, 0xC00); (0xC04, 0xC04);
    (0xC3C, 0xC3C); (0xC3E, 0xC40); (0xC46, 0xC48); (0xC4A, 0xC4D);
    (0xC55, 0xC56); (0xC62, 0xC63); (0xC81, 0xC81); (0xCBC, 0xCBC);
    (0xCBF, 0xCBF); (0xCC6, 0xCC6); (0xCCC, 0xCCD); (0xCE2, 0xCE3);
    (0xD00, 0xD01); (0xD3B, 0xD3C); (0xD41, 0xD44); (0xD4D, 0xD4D);
    (0xD62, 0xD63); (0xD81, 0xD81); (0xDCA, 0xDCA); (0xDD2, 0xDD4);
    (0xDD6, 0xDD6); (0xE31, 0xE31); (0xE34, 0xE3A); (0xE46, 0xE4E);
    (0xEB1, 0xEB1); (0xEB4, 0xEBC); (0xEC6, 0xEC6); (0xEC8, 0xECD);
    (0xF18, 0xF19); (0xF35, 0xF35); (0xF37, 0xF37); (0xF39, 0xF39);
    (0xF71, 0xF7E); (0xF80, 0xF84); (0xF86, 0xF87); (0xF8D, 0xF97);
    (0xF99, 0xFBC); (0xFC6, 0xFC6); (0x102D, 0x1030); (0x1032, 0x1037);
    (0x1039, 0x103A); (0x103D, 0x103E); (0x1058, 0x1059); (0x105E, 0x1060);
    (0x1071, 0x1074); (0x1082, 0x1082); (0x1085, 0x1086); (0x108D, 0x108D);
    (0x109D, 0x109D); (0x10FC, 0x10FC); (0x135D, 0x135F); (0x1712, 0x1714);
    (0x1732, 0x1733); (0x1752, 0x1753); (0x1772, 0x1773); (0x17B4, 0x17B5);
    (0x17B7, 0x17BD); (0x17C6, 0x17C6); (0x17C9, 0x17D3); (0x17D7, 0x17D7);
    (0x17DD, 0x17DD); (0x180B, 0x180F); (0x1843, 0x1843); (0x1885, 0x1886);
    (0x18A9, 0x18A9); (0x1920, 0x1922); (0x1927, 0x1928); (0x1932, 0x1932);
    (0x1939, 0x193B); (0x1A17, 0x1A18); (0x1A1B, 0x1A1B); (0x1A56, 0x1A56);
    (0x1A58, 0x1A5E); (0x1A60, 0x1A60); (0x1A62, 0x1A62); (0x1A65, 0x1A6C);
    (0x1A73, 0x1A7C); (0x1A7F, 0x1A7F); (0x1AA7, 0x1AA7); (0x1AB0, 0x1ACE);
    (0x1B00, 0x1B03); (0x1B34, 0x1B34); (0x1B36, 0x1B3A); (0x1B3C, 0x1B3C);
    (0x1B42, 0x1B42); (0x1B6B, 0x1B73); (0x1B80, 0x1B81); (0x1BA2, 0x1BA5);
    (0x1BA8, 0x1BA9); (0x1BAB, 0x1BAD); (0x1BE6, 0x1BE6); (0x1BE8, 0x1BE9);
    (0x1BED, 0x1BED); (0x1BEF, 0x1BF1); (0x1C2C, 0x1C33); (0x1C36, 0x1C37);
    (0x1C78, 0x1C7D); (0x1CD0, 0x1CD2); (0x1CD4, 0x1CE0); (0x1CE2, 0x1CE8);
    (0x1CED, 0x1CED); (0x1CF4, 0x1CF4); (0x1CF8, 0x1CF9); (0x1D2C, 0x1D6A);
    (0x1D78, 0x1D78); (0x1D9B, 0x1DFF); (0x1FBD, 0x1FBD); (0x1FBF, 0x1FC1);
    (0x1FCD, 0x1FCF); (0x1FDD, 0x1FDF); (0x1FED, 0x1FEF); (0x1FFD, 0x1FFE);
    (0x200B, 0x200F); (0x2018, 0x2019); (0x2024, 0x2024); (0x2027, 0x2027);
    (0x202A, 0x202E); (0x2060, 0x2064); (0x2066, 0x206F); (0x2071, 0x2071);
    (0x207F, 0x207F); (0x2090, 0x209C); (0x20D0, 0x20F0); (0x2C7C, 0x2C7D);
    (0x2CEF, 0x2CF1); (0x2D6F, 0x2D6F); (0x2D7F, 0x2D7F); (0x2DE0, 0x2DFF);
    (0x2E2F, 0x2E2F); (0x3005, 0x3005); (0x302A, 0x302D); (0x3031, 0x3035);
    (0x303B, 0x303B); (0x3099, 0x309E); (0x30FC, 0x30FE); (0xA015, 0xA015);
    (0xA4F8, 0xA4FD); (0xA60C, 0xA60C); (0xA66F, 0xA672); (0xA674, 0xA67D);
    (0xA67F, 0xA67F); (0xA69C, 0xA69F); (0xA6F0, 0xA6F1); (0xA700, 0xA721);
    (0xA770, 0xA770); (0xA788, 0xA78A); (0xA7F2, 0xA7F4); (0xA7F8, 0xA7F9);
    (0xA802, 0xA802); (0xA806, 0xA806); (0xA80B, 0xA80B); (0xA825, 0xA826);
    (0xA82C, 0xA82C); (0xA8C4, 0xA8C5); (0xA8E0, 0xA8F1); (0xA8FF, 0xA8FF);
    (0xA926, 0xA92D); (0xA947, 0xA951); (0xA980, 0xA982); (0xA9B3, 0xA9B3);
    (0xA9B6, 0xA9B9); (0xA9BC, 0xA9BD); (0xA9CF, 0xA9CF); (0xA9E5, 0xA9E6);
    (0xAA29, 0xAA2E); (0xAA31, 0xAA32); (0xAA35, 0xAA36); (0xAA43, 0xAA43);
    (0xAA4C, 0xAA4C); (0xAA70, 0xAA70); (0xAA7C, 0xAA7C); (0xAAB0, 0xAAB0);
    (0xAAB2, 0xAAB4); (0xAAB7, 0xAAB8); (0xAABE, 0xAABF); (0xAAC1, 0xAAC1);
    (0xAADD, 0xAADD); (0xAAEC, 0xAAED); (0xAAF3, 0xAAF4); (0xAAF6, 0xAAF6);
    (0xAB5B, 0xAB5F); (0xAB69, 0xAB6B); (0xABE5, 0xABE5); (0xABE8, 0xABE8);
    (0xABED, 0xABED); (0xFB1E, 0xFB1E); (0xFBB2, 0xFBC2); (0xFE00, 0xFE0F);
    (0xFE13, 0xFE13); (0xFE20, 0xFE2F); (0xFE52, 0xFE52); (0xFE55, 0xFE55);
    (0xFEFF, 0xFEFF); (0xFF07, 0xFF07); (0xFF0E, 0xFF0E); (0xFF1A, 0xFF1A);
    (0xFF3E, 0xFF3E); (0xFF40, 0xFF40); (0xFF70, 0xFF70); (0xFF9E, 0xFF9F);
    (0xFFE3, 0xFFE3); (0xFFF9, 0xFFFB); (0x101FD, 0x101FD);
    (0x102E0, 0x102E0); (0x10376, 0x1037A); (0x10780, 0x10785);
    (0x10787, 0x107B0); (0x107B2, 0x107BA); (0x10A01, 0x10A03);
    (0x10A05, 0x10A06); (0x10A0C, 0x10A0F); (0x10A38, 0x10A3A);
    (0x10A3F, 0x10A3F); (0x10AE5, 0x10AE6); (0x10D24, 0x10D27);
    (0x10EAB, 0x10EAC); (0x10F46, 0x10F50); (0x10F82, 0x10F85);
    (0x11001, 0x11001); (0x11038, 0x11046); (0x11070, 0x11070);
    (0x11073, 0x11074); (0x1107F, 0x11081); (0x110B3, 0x110B6);
    (0x110B9, 0x110BA); (0x110BD, 0x110BD); (0x110C2, 0x110C2);
    (0x110CD, 0x110CD); (0x11100, 0x11102); (0x11127, 0x1112B);
    (0x1112D, 0x11134); (0x11173, 0x11173); (0x11180, 0x11181);
    (0x111B6, 0x111BE); (0x111C9, 0x111CC); (0x111CF, 0x111CF);
    (0x1122F, 0x11231); (0x11234, 0x11234); (0x11236, 0x11237);
    (0x1123E, 0x1123E); (0x112DF, 0x112DF); (0x112E3, 0x112EA);
    (0x11300, 0x11301); (0x1133B, 0x1133C); (0x11340, 0x11340);
    (0x11366, 0x1136C); (0x11370, 0x11374); (0x11438, 0x1143F);
    (0x11442, 0x11444); (0x11446, 0x11446); (0x1145E, 0x1145E);
    (0x114B3, 0x114B8); (0x114BA, 0x114BA); (0x114BF, 0x114C0);
    (0x114C2, 0x114C3); (0x115B2, 0x115B5); (0x115BC, 0x115BD);
    (0x115BF, 0x115C0); (0x115DC, 0x115DD); (0x11633, 0x1163A);
    (0x1163D, 0x1163D); (0x1163F, 0x11640); (0x116AB, 0x116AB);
    (0x116AD, 0x116AD); (0x116B0, 0x116B5); (0x116B7, 0x116B7);
    (0x1171D, 0x1171F); (0x11722, 0x11725); (0x11727, 0x1172B);
    (0x1182F, 0x11837); (0x11839, 0x1183A); (0x1193B, 0x1193C);
    (0x1193E, 0x1193E); (0x11943, 0x11943); (0x119D4, 0x119D7);
    (0x119DA, 0x119DB); (0x119E0, 0x119E0); (0x11A01, 0x11A0A);
    (0x11A33, 0x11A38); (0x11A3B, 0x11A3E); (0x11A47, 0x11A47);
    (0x11A51, 0x11A56); (0x11A59, 0x11A5B); (0x11A8A, 0x11A96);
    (0x11A98, 0x11A99); (0x11C30, 0x11C36); (0x11C38, 0x11C3D);
    (0x11C3F, 0x11C3F); (0x11C92, 0x11CA7); (0x11CAA, 0x11CB0);
    (0x11CB2, 0x11CB3); (0x11CB5, 0x11CB6); (0x11D31, 0x11D36);
    (0x11D3A, 0x11D3A); (0x11D3C, 0x11D3D); (0x11D3F, 0x11D45);
    (0x11D47, 0x11D47); (0x11D90, 0x11D91); (0x11D95, 0x11D95);
    (0x11D97, 0x11D97); (0x11EF3, 0x11EF4); (0x13430, 0x13438);
    (0x16AF0, 0x16AF4); (0x16B30, 0x16B36); (0x16B40, 0x16B43);
    (0x16F4F, 0x16F4F); (0x16F8F, 0x16F9F); (0x16FE0, 0x16FE1);
    (0x16FE3, 0x16FE4); (0x1AFF0, 0x1AFF3); (0x1AFF5, 0x1AFFB);
    (0x1AFFD, 0x1AFFE); (0x1BC9D, 0x1BC9E); (0x1BCA0, 0x1BCA3);
    (0x1CF00, 0x1CF2D); (0x1CF30, 0x1CF46); (0x1D167, 0x1D169);
    (0x1D173, 0x1D182); (0x1D185, 0x1D18B); (0x1D1AA, 0x1D1AD);
    (0x1D242, 0x1D244); (0x1DA00, 0x1DA36); (0x1DA3B, 0x1DA6C);
    (0x1DA75, 0x1DA75); (0x1DA84, 0x1DA84); (0x1DA9B, 0x1DA9F);
    (0x1DAA1, 0x1DAAF); (0x1E000, 0x1E006); (0x1E008, 0x1E018);
    (0x1E01B, 0x1E021); (0x1E023, 0x1E024); (0x1E026, 0x1E02A);
    (0x1E130, 0x1E13D); (0x1E2AE, 0x1E2AE); (0x1E2EC, 0x1E2EF);
    (0x1E8D0, 0x1E8D6); (0x1E944, 0x1E94B); (0x1F3FB, 0x1F3FF);
    (0xE0001, 0xE0001); (0xE0020, 0xE007F); (0xE0100, 0xE01EF)
  ]%N.

(** The cased characters among those that are not case-ignorable (the test
    is only ever made on a character that is not case-ignorable). *)
Definition Cased : list (N * N) :=
  [
    (0x41, 0x5A); (0x61, 0x7A); (0xAA, 0xAA); (0xB5, 0xB5); (0xBA, 0xBA);
    (0xC0, 0xD6); (0xD8, 0xF6); (0xF8, 0x1BA); (0x1BC, 0x1BF); (0x1C4, 0x293);
    (0x295, 0x2AF); (0x370, 0x373); (0x376, 0x377); (0x37B, 0x37D);
    (0x37F, 0x37F); (0x386, 0x386); (0x388, 0x38A); (0x38C, 0x38C);
    (0x38E, 0x3A1); (0x3A3, 0x3F5); (0x3F7, 0x481); (0x48A, 0x52F);
    (0x531, 0x556); (0x560, 0x588); (0x10A0, 0x10C5); (0x10C7, 0x10C7);
    (0x10CD, 0x10CD); (0x10D0, 0x10FA); (0x10FD, 0x10FF); (0x13A0, 0x13F5);
    (0x13F8, 0x13FD); (0x1C80, 0x1C88); (0x1C90, 0x1CBA); (0x1CBD, 0x1CBF);
    (0x1D00, 0x1D2B); (0x1D6B, 0x1D77); (0x1D79, 0x1D9A); (0x1E00, 0x1F15);
    (0x1F18, 0x1F1D); (0x1F20, 0x1F45); (0x1F48, 0x1F4D); (0x1F50, 0x1F57);
    (0x1F59, 0x1F59); (0x1F5B, 0x1F5B); (0x1F5D, 0x1F5D); (0x1F5F, 0x1F7D);
    (0x1F80, 0x1FB4); (0x1FB6, 0x1FBC); (0x1FBE, 0x1FBE); (0x1FC2, 0x1FC4);
    (0x1FC6, 0x1FCC); (0x1FD0, 0x1FD3); (0x1FD6, 0x1FDB); (0x1FE0, 0x1FEC);
    (0x1FF2, 0x1FF4); (0x1FF6, 0x1FFC); (0x2102, 0x2102); (0x2107, 0x2107);
    (0x210A, 0x2113); (0x2115, 0x2115); (0x2119, 0x211D); (0x2124, 0x2124);
    (0x2126, 0x2126); (0x2128, 0x2128); (0x212A, 0x212D); (0x212F, 0x2134);
    (0x2139, 0x2139); (0x213C, 0x213F); (0x2145, 0x2149); (0x214E, 0x214E);
    (0x2160, 0x217F); (0x2183, 0x2184); (0x24B6, 0x24E9); (0x2C00, 0x2C7B);
    (0x2C7E, 0x2CE4); (0x2CEB, 0x2CEE); (0x2CF2, 0x2CF3); (0x2D00, 0x2D25);
    (0x2D27, 0x2D27); (0x2D2D, 0x2D2D); (0xA640, 0xA66D); (0xA680, 0xA69B);
    (0xA722, 0xA76F); (0xA771, 0xA787); (0xA78B, 0xA78E); (0xA790, 0xA7CA);
    (0xA7D0, 0xA7D1); (0xA7D3, 0xA7D3); (0xA7D5, 0xA7D9); (0xA7F5, 0xA7F6);
    (0xA7FA, 0xA7FA); (0xAB30, 0xAB5A); (0xAB60, 0xAB68); (0xAB70, 0xABBF);
    (0xFB00, 0xFB06); (0xFB13, 0xFB17); (0xFF21, 0xFF3A); (0xFF41, 0xFF5A);
    (0x10400, 0x1044F); (0x104B0, 0x104D3); (0x104D8, 0x104FB);
    (0x10570, 0x1057A); (0x1057C, 0x1058A); (0x1058C, 0x10592);
    (0x10594, 0x10595); (0x10597, 0x105A1); (0x105A3, 0x105B1);
    (0x105B3, 0x105B9); (0x105BB, 0x105BC); (0x10C80, 0x10CB2);
    (0x10CC0, 0x10CF2); (0x118A0, 0x118DF); (0x16E40, 0x16E7F);
    (0x1D400, 0x1D454); (0x1D456, 0x1D49C); (0x1D49E, 0x1D49F);
    (0x1D4A2, 0x1D4A2); (0x1D4A5, 0x1D4A6); (0x1D4A9, 0x1D4AC);
    (0x1D4AE, 0x1D4B9); (0x1D4BB, 0x1D4BB); (0x1D4BD, 0x1D4C3);
    (0x1D4C5, 0x1D505); (0x1D507, 0x1D50A); (0x1D50D, 0x1D514);
    (0x1D516, 0x1D51C); (0x1D51E, 0x1D539); (0x1D53B, 0x1D53E);
    (0x1D540, 0x1D544); (0x1D546, 0x1D546); (0x1D54A, 0x1D550);
    (0x1D552, 0x1D6A5); (0x1D6A8, 0x1D6C0); (0x1D6C2, 0x1D6DA);
    (0x1D6DC, 0x1D6FA); (0x1D6FC, 0x1D714); (0x1D716, 0x1D734);
    (0x1D736, 0x1D74E); (0x1D750, 0x1D76E); (0x1D770, 0x1D788);
    (0x1D78A, 0x1D7A8); (0x1D7AA, 0x1D7C2); (0x1D7C4, 0x1D7CB);
    (0x1DF00, 0x1DF09); (0x1DF0B, 0x1DF1E); (0x1E900, 0x1E943);
    (0x1F130, 0x1F149); (0x1F150, 0x1F169); (0x1F170, 0x1F189)
  ]%N.

End Unicode.

(* ------------------------------------------------------------------ *)
(** ** Python strings *)

Module PyStr.
Import Unicode.

(** A character: its code point.  The texts read from files are decoded
    from UTF-8, so every code point up to U+10FFFF outside the surrogates
    can occur. *)
Definition char := N.

Definition str := list char.

(** A text written as a literal of this file (ASCII). *)
Definition lit (s : string) : str := map N_of_ascii (list_ascii_of_string s).
Arguments lit : simpl never.

Definition nl : char := 10%N.
Definition dquote : char := 34%N.
Definition squote : char := 39%N.
Definition colon : char := 58%N.
Definition dot : char := 46%N.

Definition str_eq_dec : forall a b : str, {a = b} + {a <> b} :=
  list_eq_dec N.eq_dec.

Definition optstr_eq_dec : forall a b : option str, {a = b} + {a <> b}.
Proof. decide equality; apply str_eq_dec. Defined.

(** [str.isspace] on one character. *)
Definition isspace (c : char) : bool := in_ranges White_Space c.

(** The class [\d] of [re] on [str] patterns. *)
Definition isdigit (c : char) : bool := in_ranges Decimal_Digit c.

(** [str.lower] on one character that is not the capital sigma: U+0130
    becomes two characters, a character of the table its image, any other
    character itself. *)
Definition in_run (r : N * N * N * N) (c : char) : bool :=
  let '(first, last, step, _) := r in
  ((first <=? c) && (c <=? last) && ((c - first) mod step =? 0))%N.

Definition lower_full (c : char) : str :=
  if (c =? 0x130)%N then [0x69; 0x307]%N
  else match find (fun r => in_run r c) Lowercase_Mapping with
       | Some (first, _, _, image) => [(image + (c - first))%N]
       | None => [c]
       end.

(** Whether the first character of [s] that is not case-ignorable is a
    cased one. *)
Fixpoint cased_next (s : str) : bool :=
  match s with
  | [] => false
  | c :: s' =>
      if in_ranges Case_Ignorable c then cased_next s'
      else in_ranges Cased c
  end.

Definition capital_sigma : char := 0x3A3%N.

(** [str.lower].  A capital sigma becomes the final sigma U+03C2 when a
    cased letter comes before it and none after it, case-ignorable
    characters skipped on both sides, and the sigma U+03C3 otherwise.
    [before] holds the characters already read, the last one first. *)
Fixpoint lower_from (before s : str) : str :=
  match s with
  | [] => []
  | c :: s' =>
      (if (c =? capital_sigma)%N
       then [if cased_next before && negb (cased_next s')
             then 0x3C2%N else 0x3C3%N]
       else lower_full c)
      ++ lower_from (c :: before) s'
  end.

Definition lower (s : str) : str := lower_from [] s.

(** [s.lstrip(chars)], [s.rstrip(chars)], [s.strip(chars)], with the set of
    stripped characters given as a predicate. *)
Fixpoint lstrip_by (p : char -> bool) (s : str) : str :=
  match s with
  | [] => []
  | c :: s' => if p c then lstrip_by p s' else s
  end.

Fixpoint rstrip_by (p : char -> bool) (s : str) : str :=
  match s with
  | [] => []
  | c :: s' =>
      match rstrip_by p s' with
      | [] => if p c then [] else [c]
      | r => c :: r
      end
  end.

Definition strip_by (p : char -> bool) (s : str) : str :=
  rstrip_by p (lstrip_by p s).

(** [s.strip()] *)
Definition strip (s : str) : str := strip_by isspace s.

Definition in_chars (chars : str) (c : char) : bool :=
  existsb (N.eqb c) chars.

(** [s.strip(chars)] *)
Definition strip_chars (chars : str) (s : str) : str :=
  strip_by (in_chars chars) s.

(** [s.startswith(p)] and [s.endswith(p)] *)
Fixpoint startswith (p s : str) : bool :=
  match p, s with
  | [], _ => true
  | a :: p', b :: s' => N.eqb a b && startswith p' s'
  | _ :: _, [] => false
  end.

Definition endswith (p s : str) : bool := startswith (rev p) (rev s).

(** [sub in s] *)
Fixpoint contains (sub s : str) : bool :=
  startswith sub s ||
  match s with
  | [] => false
  | _ :: s' => contains sub s'
  end.

(** [s[1:-1]] *)
Definition slice_1_m1 (s : str) : str := removelast (tl s).

(** [s.split(sep, maxsplit)] for a non-empty [sep]; [maxsplit = None] is
    Python's default (no bound).  The text is read left to right; where [sep]
    occurs and a split is still allowed the current piece ends and the
    characters of [sep] are skipped.  The result is never empty and its head
    is the piece being read. *)
Definition can_split (maxsplit : option nat) : bool :=
  match maxsplit with
  | Some 0 => false
  | _ => true
  end.

Definition one_less (maxsplit : option nat) : option nat :=
  option_map Nat.pred maxsplit.

Fixpoint split_go (sep : str) (skip : nat) (maxsplit : option nat) (s : str)
  : list str :=
  match s with
  | [] => [[]]
  | c :: s' =>
      match skip with
      | S k => split_go sep k maxsplit s'
      | O =>
          if can_split maxsplit && startswith sep s
          then [] :: split_go sep (length sep - 1) (one_less maxsplit) s'
          else match split_go sep 0 maxsplit s' with
               | p :: ps => (c :: p) :: ps
               | [] => [[c]]
               end
      end
  end.

Definition split (sep : str) (maxsplit : option nat) (s : str) : list str :=
  split_go sep 0 maxsplit s.

(** [sep.join(parts)] *)
Fixpoint join (sep : str) (parts : list str) : str :=
  match parts with
  | [] => []
  | [p] => p
  | p :: ps => p ++ sep ++ join sep ps
  end.

(** [a <= b] on [str]: lexicographic on code points. *)
Fixpoint str_leb (a b : str) : bool :=
  match a, b with
  | [], _ => true
  | _ :: _, [] => false
  | x :: a', y :: b' =>
      if (x <? y)%N then true
      else if (y <? x)%N then false
      else str_leb a' b'
  end.

(** [str(v)] and the formatting of [v] in an f-string, for a value that is a
    string or [None]. *)
Definition py_str (v : option str) : str :=
  match v with
  | Some s => s
  | None => lit "None"
  end.

(** A text given line by line, the lines joined by the newline character. *)
Definition text (lines : list string) : str := join [nl] (map lit lines).

End PyStr.

(* ------------------------------------------------------------------ *)
(** ** Python dictionaries (insertion ordered) *)

Module PyDict.

Section Dict.
Variables K V : Type.
Variable eq_dec : forall a b : K, {a = b} + {a <> b}.

Definition dict := list (K * V).

(** [d.get(k)]; [Some v] also stands for [d[k]] when [k in d]. *)
Fixpoint get (k : K) (d : dict) : option V :=
  match d with
  | [] => None
  | (k', v) :: d' => if eq_dec k k' then Some v else get k d'
  end.

(** [k in d] *)
Definition mem (k : K) (d : dict) : bool :=
  match get k d with
  | Some _ => true
  | None => false
  end.

(** [d[k] = v]: an existing key keeps its position, a new key goes last. *)
Fixpoint set (k : K) (v : V) (d : dict) : dict :=
  match d with
  | [] => [(k, v)]
  | (k', v') :: d' =>
      if eq_dec k k' then (k', v) :: d' else (k', v') :: set k v d'
  end.

Definition keys (d : dict) : list K := map fst d.

End Dict.

End PyDict.

(* ------------------------------------------------------------------ *)
(** ** JSON documents and [json.dump] *)

Module Json.
Import PyStr.

(** What a JSON file holds.  Object members keep their order. *)
#[warnings="-register-all"]
Inductive json : Type :=
| JNull
| JBool (b : bool)
| JInt (n : Z)
| JStr (s : str)
| JObj (members : list (str * json)).

Definition backslash : char := 92%N.

Definition hex_digit (n : N) : char :=
  if (n <? 10)%N then (48 + n)%N else (87 + n)%N.

(** The escape [\uXXXX] of a number below 65536: four hexadecimal digits,
    in lower case. *)
Definition u_escape (n : N) : str :=
  backslash :: lit "u"
  ++ [hex_digit (n / 4096 mod 16); hex_digit (n / 256 mod 16);
      hex_digit (n / 16 mod 16); hex_digit (n mod 16)]%N.

(** String escaping of [json.dump] with [ensure_ascii=True] (the default):
    every character outside the printable ASCII range is escaped, and a
    character above U+FFFF is written as a pair of surrogates. *)
Definition escape_char (c : char) : str :=
  if (c =? 34)%N then [backslash; dquote]
  else if (c =? 92)%N then [backslash; backslash]
  else if (c =? 10)%N then backslash :: lit "n"
  else if (c =? 13)%N then backslash :: lit "r"
  else if (c =? 9)%N then backslash :: lit "t"
  else if (c =? 8)%N then backslash :: lit "b"
  else if (c =? 12)%N then backslash :: lit "f"
  else if ((32 <=? c) && (c <=? 126))%N then [c]
  else if (c <? 0x10000)%N then u_escape c
  else
    let n := (c - 0x10000)%N in
    u_escape (N.lor 0xD800 (N.land (N.shiftr n 10) 0x3FF))
    ++ u_escape (N.lor 0xDC00 (N.land n 0x3FF)).

Definition quote (s : str) : str :=
  dquote :: flat_map escape_char s ++ [dquote].

Definition newline_indent (level : nat) : str :=
  nl :: repeat 32%N (2 * level).

(** The text written by [json.dump(..., indent=2)] for a document whose
    members are already in the order in which they are written. *)
Fixpoint render (level : nat) (j : json) : str :=
  match j with
  | JNull => lit "null"
  | JBool true => lit "true"
  | JBool false => lit "false"
  | JInt n => lit (NilZero.string_of_int (Z.to_int n))
  | JStr s => quote s
  | JObj [] => lit "{}"
  | JObj members =>
      lit "{" ++ newline_indent (S level)
      ++ join (lit "," ++ newline_indent (S level))
           (map (fun kv : str * json =>
                   let (k, v) := kv in
                   quote k ++ lit ": " ++ render (S level) v) members)
      ++ newline_indent level ++ lit "}"
  end.

(** A dictionary key as [json.dump] writes it: [None] becomes [null]. *)
Definition key_text (k : option str) : str :=
  match k with
  | Some s => s
  | None => lit "null"
  end.

Section Members.
Variable V : Type.

Fixpoint insert_sorted (kv : str * V) (l : list (str * V)) : list (str * V) :=
  match l with
  | [] => [kv]
  | x :: l' =>
      if str_leb (fst kv) (fst x) then kv :: l else x :: insert_sorted kv l'
  end.

(** [sorted(items)] for items whose keys are all strings. *)
Definition sorted_items (l : list (str * V)) : list (str * V) :=
  fold_right insert_sorted [] l.

Fixpoint str_keys (d : list (option str * V)) : option (list (str * V)) :=
  match d with
  | [] => Some []
  | (Some k, v) :: d' => option_map (cons (k, v)) (str_keys d')
  | (None, _) :: _ => None
  end.

(** The members written for a dictionary under [sort_keys=True].  The items
    are sorted on the Python keys before they are turned into text, and
    Python cannot order [None] against a string: with one item nothing is
    compared, with more a key [None] raises [TypeError] ([None] here). *)
Definition members_sorted (d : list (option str * V))
  : option (list (str * V)) :=
  match d with
  | [(k, v)] => Some [(key_text k, v)]
  | _ => option_map sorted_items (str_keys d)
  end.

(** The members written for a dictionary without [sort_keys]. *)
Definition members_unsorted (d : list (option str * V)) : list (str * V) :=
  map (fun kv => (key_text (fst kv), snd kv)) d.

End Members.

Definition of_optstr (v : option str) : json :=
  match v with
  | Some s => JStr s
  | None => JNull
  end.

(** A flat record ([asdict] of a dataclass whose fields are strings or
    [None]), with and without [sort_keys]. *)
Definition of_fields_sorted (fields : list (str * option str)) : json :=
  JObj (map (fun kv => (fst kv, of_optstr (snd kv))) (sorted_items fields)).

Definition of_fields (fields : list (str * option str)) : json :=
  JObj (map (fun kv => (fst kv, of_optstr (snd kv))) fields).

End Json.

(* ------------------------------------------------------------------ *)
(** ** The document tree *)

Module Tree.
Import PyStr.

(** One path matched by [root.rglob("*.md")]. *)
Record File : Type := {
  file_path : str;          (* [str(md_file)], as diagnostics print it *)
  rel_path : str;           (* [str(md_file.relative_to(repo_root))] *)
  read_text : str + str     (* the decoded content, or the text of the
                               exception raised by [read_text] *)
}.

(** The two search roots; [None] when the directory does not exist, else
    the matched paths in the order in which [rglob] yields them. *)
Record Repo : Type := {
  docs : option (list File);
  plans : option (list File)
}.

Definition search_roots (r : Repo) : list (option (list File)) :=
  [docs r; plans r].

Definition root_files (root : option (list File)) : list File :=
  match root with
  | Some fs => fs
  | None => []
  end.

(** All matched paths in traversal order. *)
Definition walk (r : Repo) : list File :=
  flat_map root_files (search_roots r).

End Tree.

(* ------------------------------------------------------------------ *)
(** ** [build_doc_registry.py] *)

Module Builder.
Import PyStr Tree.

(** The parsed front-matter: field name to string or [None]. *)
Definition Metadata := PyDict.dict str (option str).

Definition mem (k : str) (m : Metadata) : bool := PyDict.mem str_eq_dec k m.

(** [metadata[k]] at a place where [k in metadata] has been checked (on an
    absent key Python raises [KeyError]; no call below can reach that). *)
Definition getitem (k : str) (m : Metadata) : option str :=
  match PyDict.get str_eq_dec k m with
  | Some v => v
  | None => None
  end.

(** [metadata.get(k)] *)
Definition get_or_none (k : str) (m : Metadata) : option str :=
  match PyDict.get str_eq_dec k m with
  | Some v => v
  | None => None
  end.

(** The dataclass [DocumentRecord].  The annotations say [str], but every
    field taken from the front-matter holds what the parser stored, which
    is a string or [None]. *)
Record DocumentRecord : Type := {
  doc_key : option str;
  path : str;
  semver : option str;
  status : option str;
  effective_date : option str;
  owner : option str;
  contract_type : option str;
  supersedes_version : option str
}.

(** The state of a [DocRegistryBuilder]. *)
Record State : Type := {
  registry : PyDict.dict (option str) DocumentRecord;
  duplicates : list (option str * str * str);
  errors : list str
}.

(** [DocRegistryBuilder.__init__] *)
Definition init : State :=
  {| registry := []; duplicates := []; errors := [] |}.

Definition add_error (b : State) (e : str) : State :=
  {| registry := registry b;
     duplicates := duplicates b;
     errors := errors b ++ [e] |}.

(** *** [extract_frontmatter] *)

(** "Handle quoted strings" *)
Definition unquote (value : str) : str :=
  if startswith [dquote] value && endswith [dquote] value
  then slice_1_m1 value
  else if startswith [squote] value && endswith [squote] value
  then slice_1_m1 value
  else value.

(** "Handle null values" *)
Definition null_words : list str := [lit "null"; lit "~"; lit ""].

Definition null_or (value : str) : option str :=
  if in_dec str_eq_dec (lower value) null_words then None else Some value.

(** The body of the loop over the lines of the block: the pair stored in
    [metadata], or [None] for a line without a colon. *)
Definition parse_line (line : str) : option (str * option str) :=
  let line := strip line in
  if contains [colon] line then
    match split [colon] (Some 1) line with
    | [key; value] =>
        let key := strip key in
        let value := strip value in
        Some (key, null_or (unquote value))
    | _ => None
    end
  else None.

Definition add_line (metadata : Metadata) (line : str) : Metadata :=
  match parse_line line with
  | Some (key, value) => PyDict.set str_eq_dec key value metadata
  | None => metadata
  end.

(** The part of [extract_frontmatter] after the file has been read. *)
Definition parse_content (content : str) : option Metadata :=
  if negb (startswith (lit "---") content) then None
  else
    let parts := split (lit "---") (Some 2) content in
    if length parts <? 3 then None
    else
      let frontmatter_text := strip (nth 1 parts []) in
      let metadata :=
        fold_left add_line (split [nl] None frontmatter_text) [] in
      match metadata with
      | [] => None
      | _ :: _ => Some metadata
      end.

Definition extract_frontmatter (b : State) (f : File)
  : State * option Metadata :=
  match read_text f with
  | inr e =>
      (add_error b (lit "Cannot read " ++ file_path f ++ lit ": " ++ e), None)
  | inl content => (b, parse_content content)
  end.

(** *** [validate_frontmatter] *)

Definition required_fields : list str :=
  map lit ["doc_key"; "semver"; "status"; "effective_date"; "owner";
           "contract_type"].

(** [re.match(r'^\d+\.\d+\.\d+$', s)].  Digits and the dot are disjoint, so
    the greedy runs of digits never have to give a character back.  [$]
    matches at the end of the text and also before one final newline. *)
Definition digits1 (s : str) : option str :=
  match s with
  | c :: _ => if isdigit c then Some (lstrip_by isdigit s) else None
  | [] => None
  end.

Definition a_dot (s : str) : option str :=
  match s with
  | c :: s' => if N.eqb c dot then Some s' else None
  | [] => None
  end.

Definition at_dollar (s : str) : bool :=
  match s with
  | [] => true
  | [c] => N.eqb c nl
  | _ => false
  end.

Definition semver_match (s : str) : bool :=
  match digits1 s with
  | Some r1 =>
      match a_dot r1 with
      | Some r2 =>
          match digits1 r2 with
          | Some r3 =>
              match a_dot r3 with
              | Some r4 =>
                  match digits1 r4 with
                  | Some r5 => at_dollar r5
                  | None => false
                  end
              | None => false
              end
          | None => false
          end
      | None => false
      end
  | None => false
  end.

Definition valid_statuses : list str :=
  map lit ["active"; "deprecated"; "frozen"].

Definition valid_types : list str :=
  map lit ["policy"; "intent"; "execution_contract"].

(** [v in names] for a value that is a string or [None]. *)
Definition one_of (v : option str) (names : list str) : bool :=
  match v with
  | Some s => if in_dec str_eq_dec s names then true else false
  | None => false
  end.

Definition missing_fields (metadata : Metadata) : list str :=
  filter (fun f => negb (mem f metadata)) required_fields.

Definition msg_missing (f : File) (missing : list str) : str :=
  file_path f ++ lit ": Missing required fields: " ++ join (lit ", ") missing.

Definition msg_semver (f : File) (v : option str) : str :=
  file_path f ++ lit ": Invalid semver format '" ++ py_str v
  ++ lit "' (must be MAJOR.MINOR.PATCH)".

Definition msg_status (f : File) (v : option str) : str :=
  file_path f ++ lit ": Invalid status '" ++ py_str v
  ++ lit "' (must be one of: " ++ join (lit ", ") valid_statuses ++ lit ")".

Definition msg_type (f : File) (v : option str) : str :=
  file_path f ++ lit ": Invalid contract_type '" ++ py_str v
  ++ lit "' (must be one of: " ++ join (lit ", ") valid_types ++ lit ")".

Definition validate_frontmatter (b : State) (metadata : Metadata) (f : File)
  : State * bool :=
  match missing_fields metadata with
  | (_ :: _) as missing => (add_error b (msg_missing f missing), false)
  | [] =>
      if negb (semver_match (py_str (getitem (lit "semver") metadata)))
      then (add_error b (msg_semver f (getitem (lit "semver") metadata)), false)
      else if negb (one_of (getitem (lit "status") metadata) valid_statuses)
      then (add_error b (msg_status f (getitem (lit "status") metadata)), false)
      else if negb (one_of (getitem (lit "contract_type") metadata) valid_types)
      then (add_error b (msg_type f (getitem (lit "contract_type") metadata)),
            false)
      else (b, true)
  end.

(** *** [scan_documents] *)

Definition record_of (metadata : Metadata) (f : File) : DocumentRecord :=
  {| doc_key := getitem (lit "doc_key") metadata;
     path := rel_path f;
     semver := getitem (lit "semver") metadata;
     status := getitem (lit "status") metadata;
     effective_date := getitem (lit "effective_date") metadata;
     owner := getitem (lit "owner") metadata;
     contract_type := getitem (lit "contract_type") metadata;
     supersedes_version := get_or_none (lit "supersedes_version") metadata |}.

(** The body of the loop over the matched files; the state is the builder
    together with [doc_count]. *)
Definition scan_file (st : State * nat) (f : File) : State * nat :=
  let (b, doc_count) := st in
  let (b1, parsed) := extract_frontmatter b f in
  match parsed with
  | None => (b1, doc_count)
  | Some metadata =>
      if negb (mem (lit "doc_key") metadata) then (b1, doc_count)
      else
        let (b2, ok) := validate_frontmatter b1 metadata f in
        if negb ok then (b2, doc_count)
        else
          let key := getitem (lit "doc_key") metadata in
          match PyDict.get optstr_eq_dec key (registry b2) with
          | Some existing =>
              ({| registry := registry b2;
                  duplicates :=
                    duplicates b2 ++ [(key, path existing, rel_path f)];
                  errors := errors b2 |}, doc_count)
          | None =>
              ({| registry :=
                    PyDict.set optstr_eq_dec key (record_of metadata f)
                      (registry b2);
                  duplicates := duplicates b2;
                  errors := errors b2 |}, S doc_count)
          end
  end.

Definition scan_root (st : State * nat) (root : option (list File))
  : State * nat :=
  match root with
  | None => st
  | Some files => fold_left scan_file files st
  end.

Definition scan_documents (b : State) (r : Repo) : State * nat :=
  fold_left scan_root (search_roots r) (b, 0).

(** *** [save_registry] *)

(** [asdict(record)] *)
Definition asdict (rec : DocumentRecord) : list (str * option str) :=
  [ (lit "doc_key", doc_key rec);
    (lit "path", Some (path rec));
    (lit "semver", semver rec);
    (lit "status", status rec);
    (lit "effective_date", effective_date rec);
    (lit "owner", owner rec);
    (lit "contract_type", contract_type rec);
    (lit "supersedes_version", supersedes_version rec) ].

Definition registry_dict (b : State)
  : list (option str * list (str * option str)) :=
  map (fun kv => (fst kv, asdict (snd kv))) (registry b).

(** The text [json.dump(registry_dict, f, indent=2, sort_keys=True)] writes,
    or [None] when it raises. *)
Definition dump_registry (d : list (option str * list (str * option str)))
  : option str :=
  option_map
    (fun members =>
       Json.render 0
         (Json.JObj
            (map (fun kv => (fst kv, Json.of_fields_sorted (snd kv))) members)))
    (Json.members_sorted d).

Definition save_registry (b : State) : option str :=
  dump_registry (registry_dict b).

(** *** [report_status] (the returned flag; the printed report is left out) *)
Definition report_status (b : State) : bool :=
  match duplicates b with
  | _ :: _ => false
  | [] =>
      match errors b with
      | _ :: _ => false
      | [] => true
      end
  end.

(** *** [main] *)

(** What a run of the entry point leaves behind: the exit status of the
    process and what became of the file at [args.output]. *)
Inductive Output : Type :=
| Untouched
| Saved (content : str)
| Broken.

Record Result : Type := {
  exit_status : nat;
  output : Output
}.

(** [main], for a parsed command line.  When [json.dump] raises inside
    [save_registry] the file has already been opened for writing and the
    exception ends the process with status 1. *)
Definition main (check_only : bool) (r : Repo) : Result :=
  let (builder, _) := scan_documents init r in
  let success := report_status builder in
  if success && negb check_only then
    match save_registry builder with
    | Some content =>
        {| exit_status := if success then 0 else 1; output := Saved content |}
    | None => {| exit_status := 1; output := Broken |}
    end
  else {| exit_status := if success then 0 else 1; output := Untouched |}.

End Builder.

(* ------------------------------------------------------------------ *)
(** ** [get_doc_versions.py] *)

Module Extractor.
Import PyStr Tree.

Definition Metadata := PyDict.dict str (option str).

Definition mem (k : str) (m : Metadata) : bool := PyDict.mem str_eq_dec k m.

(** [metadata[k]] where [k in metadata] has been checked, and
    [metadata.get(k)]. *)
Definition getitem (k : str) (m : Metadata) : option str :=
  match PyDict.get str_eq_dec k m with
  | Some v => v
  | None => None
  end.

Definition get_or_none (k : str) (m : Metadata) : option str :=
  match PyDict.get str_eq_dec k m with
  | Some v => v
  | None => None
  end.

(** The dataclass [DocumentVersion]. *)
Record DocumentVersion : Type := {
  doc_key : option str;
  semver : option str;
  status : option str;
  effective_date : option str;
  contract_type : option str;
  path : str
}.

(** The state of a [DocumentVersionExtractor]: [self.versions]. *)
Definition State := PyDict.dict (option str) DocumentVersion.

(** [DocumentVersionExtractor.__init__] *)
Definition init : State := [].

(** *** [extract_frontmatter] *)

Definition null_words : list str := [lit "null"; lit "~"; lit ""].

Definition null_or (value : str) : option str :=
  if in_dec str_eq_dec (lower value) null_words then None else Some value.

(** The two [strip(chars)] calls chained after [value.strip()]: first the
    double quote, then the single quote. *)
Definition unquote (value : str) : str :=
  strip_chars [squote] (strip_chars [dquote] value).

Definition parse_line (line : str) : option (str * option str) :=
  if contains [colon] line then
    match split [colon] (Some 1) line with
    | [key; value] =>
        let key := strip key in
        let value := unquote (strip value) in
        Some (key, null_or value)
    | _ => None
    end
  else None.

Definition add_line (metadata : Metadata) (line : str) : Metadata :=
  match parse_line line with
  | Some (key, value) => PyDict.set str_eq_dec key value metadata
  | None => metadata
  end.

Definition parse_content (content : str) : option Metadata :=
  if negb (startswith (lit "---") content) then None
  else
    let parts := split (lit "---") (Some 2) content in
    if length parts <? 3 then None
    else
      let metadata :=
        fold_left add_line (split [nl] None (strip (nth 1 parts []))) [] in
      match metadata with
      | [] => None
      | _ :: _ => Some metadata
      end.

Definition extract_frontmatter (f : File) : option Metadata :=
  match read_text f with
  | inr _ => None
  | inl content => parse_content content
  end.

(** *** [scan_documents] *)

Definition required : list str :=
  map lit ["doc_key"; "semver"; "status"; "effective_date"; "contract_type"].

(** [status_filter and metadata.get('status') != status_filter]: an absent
    or empty filter lets every document through. *)
Definition filtered_out (status_filter : option str) (metadata : Metadata)
  : bool :=
  match status_filter with
  | None => false
  | Some [] => false
  | Some wanted =>
      if optstr_eq_dec (get_or_none (lit "status") metadata) (Some wanted)
      then false else true
  end.

Definition version_of (metadata : Metadata) (f : File) : DocumentVersion :=
  {| doc_key := getitem (lit "doc_key") metadata;
     semver := getitem (lit "semver") metadata;
     status := getitem (lit "status") metadata;
     effective_date := getitem (lit "effective_date") metadata;
     contract_type := getitem (lit "contract_type") metadata;
     path := rel_path f |}.

(** The body of the loop over the matched files; the state is
    [self.versions] together with [count]. *)
Definition scan_file (status_filter : option str) (st : State * nat) (f : File)
  : State * nat :=
  let (versions, count) := st in
  match extract_frontmatter f with
  | None => st
  | Some metadata =>
      if negb (mem (lit "doc_key") metadata) then st
      else if filtered_out status_filter metadata then st
      else if negb (forallb (fun fld => mem fld metadata) required) then st
      else
        let key := getitem (lit "doc_key") metadata in
        (PyDict.set optstr_eq_dec key (version_of metadata f) versions,
         S count)
  end.

Definition scan_root (status_filter : option str) (st : State * nat)
  (root : option (list File)) : State * nat :=
  match root with
  | None => st
  | Some files => fold_left (scan_file status_filter) files st
  end.

Definition scan_documents (versions : State) (status_filter : option str)
  (r : Repo) : State * nat :=
  fold_left (scan_root status_filter) (search_roots r) (versions, 0).

(** *** The projections *)

(** [asdict(version)] *)
Definition asdict (v : DocumentVersion) : list (str * option str) :=
  [ (lit "doc_key", doc_key v);
    (lit "semver", semver v);
    (lit "status", status v);
    (lit "effective_date", effective_date v);
    (lit "contract_type", contract_type v);
    (lit "path", Some (path v)) ].

Definition to_dict (versions : State)
  : PyDict.dict (option str) (list (str * option str)) :=
  map (fun kv => (fst kv, asdict (snd kv))) versions.

Definition to_simple_dict (versions : State)
  : PyDict.dict (option str) (option str) :=
  map (fun kv => (fst kv, semver (snd kv))) versions.

End Extractor.

(* ------------------------------------------------------------------ *)
(** ** [example_integration.py] *)

Module Integration.
Import PyStr Tree Json.

(** The files of one run directory.  A JSON file is kept as the document
    [json.load] reads from it; the ledger is kept line by line, each line
    one document; a file that does not exist is [None] (an absent ledger is
    the same as an empty one, since it is only ever opened for appending). *)
Record RunDir : Type := {
  policy_snapshot_json : option json;
  ledger_jsonl : list json;
  metadata_json : option json
}.

(** The object [json.load] builds from members in file order (a repeated
    name keeps its first position and its last value). *)
Definition obj (members : list (str * json)) : json :=
  JObj (fold_left (fun acc kv => PyDict.set str_eq_dec (fst kv) (snd kv) acc)
          members []).

(** The dictionary [snapshot] built by [capture_policy_snapshot]. *)
Record Snapshot : Type := {
  run_id : str;
  timestamp : str;
  event : str;
  active_policies : PyDict.dict (option str) (option str);
  policy_count : nat;
  full_details : PyDict.dict (option str) (list (str * option str))
}.

(** [datetime.utcnow().isoformat() + 'Z'], for the clock reading [now]. *)
Definition stamp (now : str) : str := now ++ lit "Z".

(** [json.dump(snapshot, f, indent=2, sort_keys=True)], as read back; [None]
    when the sort of a dictionary's keys raises. *)
Definition snapshot_file (s : Snapshot) : option json :=
  match members_sorted (active_policies s), members_sorted (full_details s) with
  | Some policies, Some details =>
      Some (obj
        [ (lit "active_policies",
           obj (map (fun kv => (fst kv, of_optstr (snd kv))) policies));
          (lit "event", JStr (event s));
          (lit "full_details",
           obj (map (fun kv => (fst kv, of_fields_sorted (snd kv))) details));
          (lit "policy_count", JInt (Z.of_nat (policy_count s)));
          (lit "run_id", JStr (run_id s));
          (lit "timestamp", JStr (timestamp s)) ])
  | _, _ => None
  end.

(** [json.dumps(snapshot)], the ledger line of the snapshot, as read back. *)
Definition snapshot_event (s : Snapshot) : json :=
  obj
    [ (lit "run_id", JStr (run_id s));
      (lit "timestamp", JStr (timestamp s));
      (lit "event", JStr (event s));
      (lit "active_policies",
       obj (map (fun kv => (fst kv, of_optstr (snd kv)))
              (members_unsorted (active_policies s))));
      (lit "policy_count", JInt (Z.of_nat (policy_count s)));
      (lit "full_details",
       obj (map (fun kv => (fst kv, of_fields (snd kv)))
              (members_unsorted (full_details s)))) ].

(** [capture_policy_snapshot]: the run directory afterwards and the returned
    snapshot; [None] when writing the snapshot file raises. *)
Definition capture_policy_snapshot (rid : str) (now : str) (r : Repo)
  (d : RunDir) : option (RunDir * Snapshot) :=
  let (extractor, count) :=
    Extractor.scan_documents Extractor.init (Some (lit "active")) r in
  let snapshot :=
    {| run_id := rid;
       timestamp := stamp now;
       event := lit "policy_snapshot";
       active_policies := Extractor.to_simple_dict extractor;
       policy_count := count;
       full_details := Extractor.to_dict extractor |} in
  match snapshot_file snapshot with
  | Some doc =>
      Some ({| policy_snapshot_json := Some doc;
               ledger_jsonl := ledger_jsonl d;
               metadata_json := metadata_json d |}, snapshot)
  | None => None
  end.

(** [append_to_ledger] *)
Definition append_to_ledger (d : RunDir) (event : json) : RunDir :=
  {| policy_snapshot_json := policy_snapshot_json d;
     ledger_jsonl := ledger_jsonl d ++ [event];
     metadata_json := metadata_json d |}.

(** The dictionary [metadata] built by [initialize_run], as
    [json.dump(metadata, f, indent=2)] writes it and [json.load] reads it. *)
Definition metadata_members (rid : str) (start_time : str) (s : Snapshot)
  : list (str * json) :=
  [ (lit "run_id", JStr rid);
    (lit "start_time", JStr start_time);
    (lit "policies_in_force",
     obj (map (fun kv => (fst kv, of_optstr (snd kv)))
            (members_unsorted (active_policies s))));
    (lit "policy_count", JInt (Z.of_nat (policy_count s))) ].

(** [initialize_run]; [now1] and [now2] are the two clock readings. *)
Definition initialize_run (rid : str) (now1 now2 : str) (r : Repo)
  (d : RunDir) : option RunDir :=
  match capture_policy_snapshot rid now1 r d with
  | None => None
  | Some (d1, snapshot) =>
      let d2 := append_to_ledger d1 (snapshot_event snapshot) in
      Some {| policy_snapshot_json := policy_snapshot_json d2;
              ledger_jsonl := ledger_jsonl d2;
              metadata_json :=
                Some (obj (metadata_members rid (stamp now2) snapshot)) |}
  end.

(** The completion event logged by [finalize_run]. *)
Definition run_complete (rid : str) (end_time : str) (success : bool) : json :=
  obj [ (lit "run_id", JStr rid);
        (lit "timestamp", JStr end_time);
        (lit "event", JStr (lit "run_complete"));
        (lit "success", JBool success) ].

(** [finalize_run]; [None] when it raises: the metadata file is missing, or
    what it holds is not an object and cannot take the two assignments. *)
Definition finalize_run (rid : str) (success : bool) (now : str) (d : RunDir)
  : option RunDir :=
  match metadata_json d with
  | Some (JObj metadata) =>
      let metadata :=
        PyDict.set str_eq_dec (lit "end_time") (JStr (stamp now)) metadata in
      let metadata :=
        PyDict.set str_eq_dec (lit "success") (JBool success) metadata in
      Some (append_to_ledger
              {| policy_snapshot_json := policy_snapshot_json d;
                 ledger_jsonl := ledger_jsonl d;
                 metadata_json := Some (JObj metadata) |}
              (run_complete rid (stamp now) success))
  | _ => None
  end.

End Integration.

(* ------------------------------------------------------------------ *)
(** ** [build_doc_registry.py]: the printed report *)

Module Report.
Import PyStr Tree Builder.

(** One [print] call of [report_status]: a line is kept as the call that
    prints it, with the values it formats (the marks in front of the text
    left out). *)
Inductive Line : Type :=
| Found (n : nat)              (* Found {len(self.registry)} versioned documents *)
| DuplicateHeading             (* DUPLICATE doc_key DETECTED: *)
| DuplicateKey (k : option str)  (* {doc_key}: *)
| DuplicatePath (p : str)      (* - {path1} and - {path2} *)
| UniqueReminder               (* Each document must have a unique ... *)
| ErrorHeading                 (* VALIDATION ERRORS: *)
| ErrorItem (e : str)          (* {error} *)
| AllUnique                    (* All doc_key identifiers are unique *)
| AllValid.                    (* All front-matter is valid *)

Definition conflict_lines (t : option str * str * str) : list Line :=
  let '(doc_key, path1, path2) := t in
  [DuplicateKey doc_key; DuplicatePath path1; DuplicatePath path2].

(** [report_status]: the lines printed and the flag returned. *)
Definition report (b : State) : list Line * bool :=
  let found := Found (length (registry b)) in
  match duplicates b with
  | _ :: _ =>
      (found :: DuplicateHeading
         :: flat_map conflict_lines (duplicates b) ++ [UniqueReminder],
       false)
  | [] =>
      match errors b with
      | _ :: _ => (found :: ErrorHeading :: map ErrorItem (errors b), false)
      | [] => ([found; AllUnique; AllValid], true)
      end
  end.

End Report.

(* ------------------------------------------------------------------ *)
(** ** [get_doc_versions.py]: the output formats and [main] *)

Module Output.
Import PyStr Tree Json Extractor.

(** [to_json] with its default [indent=2]; [None] when [json.dumps] raises. *)
Definition to_json (versions : State) : option str :=
  option_map
    (fun members =>
       render 0
         (JObj (map (fun kv => (fst kv, of_fields_sorted (snd kv))) members)))
    (members_sorted (to_dict versions)).

(** The dictionary built by [to_ledger_entry]. *)
Record LedgerEntry : Type := {
  timestamp : str;
  event : str;
  documents : PyDict.dict (option str) (option str);
  count : nat
}.

(** [to_ledger_entry], for the clock reading [now]. *)
Definition to_ledger_entry (versions : State) (now : str) : LedgerEntry :=
  {| timestamp := now ++ lit "Z";
     event := lit "policy_snapshot";
     documents := to_simple_dict versions;
     count := length versions |}.

(** [json.dumps(extractor.to_ledger_entry(), indent=2)] *)
Definition dump_ledger (e : LedgerEntry) : str :=
  render 0
    (JObj [ (lit "timestamp", JStr (timestamp e));
            (lit "event", JStr (event e));
            (lit "documents",
             JObj (map (fun kv => (fst kv, of_optstr (snd kv)))
                     (members_unsorted (documents e))));
            (lit "count", JInt (Z.of_nat (count e))) ]).

(** [json.dumps(extractor.to_simple_dict(), indent=2, sort_keys=True)] *)
Definition dump_simple (versions : State) : option str :=
  option_map
    (fun members =>
       render 0 (JObj (map (fun kv => (fst kv, of_optstr (snd kv))) members)))
    (members_sorted (to_simple_dict versions)).

(** The choices of [--format]. *)
Inductive Format : Type := FJson | FSimple | FLedger.

(** What a run of [main] that returns leaves behind: the status passed to
    [sys.exit], the text written to [args.output] when that was given, and
    the text printed on the standard output otherwise. *)
Record Result : Type := {
  exit_status : nat;
  file_text : option str;
  stdout_text : option str
}.

(** [main], for a parsed command line: the format, whether [--output] was
    given, the status filter.  [None] when formatting raises. *)
Definition main (format : Format) (to_file : bool) (status : option str)
  (r : Repo) (now : str) : option Result :=
  let (extractor, _) := scan_documents init status r in
  let output :=
    match format with
    | FJson => to_json extractor
    | FLedger => Some (dump_ledger (to_ledger_entry extractor now))
    | FSimple => dump_simple extractor
    end in
  match output with
  | None => None
  | Some text =>
      Some (if to_file
            then {| exit_status := 0; file_text := Some text;
                    stdout_text := None |}
            else {| exit_status := 0; file_text := None;
                    stdout_text := Some (text ++ [nl]) |})
  end.

End Output.

(* ------------------------------------------------------------------ *)
(** ** [example_integration.py]: the example run and the query *)

Module Runs.
Import PyStr Tree Json Integration.

(** [example_run] for the run identifier [rid] and the clock readings of
    its three time stamps; [None] when it raises (the handler finalizes
    with [success=False] and raises again, so a failure in
    [initialize_run] always ends in an exception). *)
Definition example_run (rid now1 now2 now3 : str) (r : Repo) (d : RunDir)
  : option RunDir :=
  match initialize_run rid now1 now2 r d with
  | Some d1 => finalize_run rid true now3 d1
  | None => None
  end.

(** The outcome of [query_historical_policies]: no snapshot file ([None] is
    returned), the snapshot returned, or an exception. *)
Inductive QueryResult : Type :=
| NotFound
| Snapshot (snapshot : json)
| Raised.

(** [query_historical_policies] on the directory of the run (the printed
    lines are left out; what they read decides whether the call raises:
    the members [timestamp], [policy_count] and [active_policies], the last
    of which must be an object). *)
Definition query_historical_policies (d : RunDir) : QueryResult :=
  match policy_snapshot_json d with
  | None => NotFound
  | Some (JObj members) =>
      match PyDict.get str_eq_dec (lit "timestamp") members,
            PyDict.get str_eq_dec (lit "policy_count") members,
            PyDict.get str_eq_dec (lit "active_policies") members with
      | Some _, Some _, Some (JObj _) => Snapshot (JObj members)
      | _, _, _ => Raised
      end
  | Some _ => Raised
  end.

(** The tag printed for one policy: [docs-{doc_key}-{version}]. *)
Definition tag (doc_key : str) (version : option str) : str :=
  lit "docs-" ++ doc_key ++ lit "-" ++ py_str version.

End Runs.

(* ------------------------------------------------------------------ *)
(** ** [runtime/policy_snapshot.capture.py] *)

Module PolicyCapture.
Import PyStr Json.

(** One file matched by [(base / 'policy').glob('*.yml')]: its name and
    what [read_text] gives (the content, or the text of the exception). *)
Definition PolicyFile : Type := (str * (str + str))%type.

(** The loop that fills [policies]; [None] when a [read_text] raises. *)
Fixpoint read_policies (files : list PolicyFile)
  (policies : PyDict.dict str str) : option (PyDict.dict str str) :=
  match files with
  | [] => Some policies
  | (name, inl content) :: rest =>
      read_policies rest (PyDict.set str_eq_dec name content policies)
  | (_, inr _) :: _ => None
  end.

(** The dictionary [snapshot], as [json.dumps] sees it. *)
Definition snapshot (run_id now : str) (policies : PyDict.dict str str)
  : json :=
  JObj [ (lit "run_id", JStr run_id);
         (lit "generated_at", JStr (now ++ lit "Z"));
         (lit "policies", JObj (map (fun kv => (fst kv, JStr (snd kv)))
                                  policies)) ].

(** [capture_snapshot]: the text written to [policies.json], or [None]
    when a policy file cannot be read (nothing is written then). *)
Definition capture_snapshot (run_id now : str) (files : list PolicyFile)
  : option str :=
  option_map (fun policies => render 0 (snapshot run_id now policies))
    (read_policies files []).

End PolicyCapture.

(* ------------------------------------------------------------------ *)
(** ** Sample documents *)

Module Sample.
Import PyStr Tree.

(** A readable file below the default repository root [.], where the
    printed path and the path relative to the root are the same text. *)
Definition doc (p : string) (lines : list string) : File :=
  {| file_path := lit p; rel_path := lit p; read_text := inl (text lines) |}.

Definition header (key semver : string) : list string :=
  [ "---";
    "doc_key: " ++ key;
    "semver: " ++ semver;
    "status: active";
    "effective_date: 2024-01-01";
    "owner: platform-team";
    "contract_type: policy";
    "---";
    "# Body" ]%string.

Definition retention : File :=
  doc "docs/retention.md" (header "policy.retention" "2.1.0").

Definition retention_copy : File :=
  doc "plans/retention.md" (header "policy.retention" "2.1.0").

Definition retention_draft : File :=
  doc "docs/retention-draft.md" (header "policy.retention" "2.1").

Definition naming : File :=
  doc "docs/naming.md" (header "policy.naming" "1.0.0").

Definition unnamed : File :=
  doc "docs/unnamed.md" (header "null" "1.0.0").

Definition key_retention : option str := Some (lit "policy.retention").

(** A text in which every backquote stands for a double quote. *)
Definition quoted (lines : list string) : str :=
  map (fun c => if N.eqb c 96%N then dquote else c)
    (text lines).

(** The version 1.0.0 written with fullwidth digits (U+FF11 and U+FF10). *)
Definition fullwidth_version : str := [0xFF11; 46; 0xFF10; 46; 0xFF10]%N.

(** A document whose [semver] is that text. *)
Definition fullwidth : File :=
  {| file_path := lit "docs/fullwidth.md";
     rel_path := lit "docs/fullwidth.md";
     read_text :=
       inl (join [nl]
              [ lit "---";
                lit "doc_key: policy.fullwidth";
                lit "semver: " ++ fullwidth_version;
                lit "status: active";
                lit "effective_date: 2024-01-01";
                lit "owner: platform-team";
                lit "contract_type: policy";
                lit "---" ]) |}.

End Sample.

(* ------------------------------------------------------------------ *)
(** ** Vocabulary of the statements *)

Section ScanTerms.
Import PyStr Tree Builder.

(** Whether validation passes does not depend on the builder's state. *)
Definition accepts (metadata : Metadata) (f : File) : bool :=
  snd (validate_frontmatter init metadata f).

(** A document that reaches the duplicate check: it can be read, has a
    header with [doc_key] and passes validation.  The result is its key and
    the record the builder would store for it. *)
Definition claimant (f : File) : option (option str * DocumentRecord) :=
  match read_text f with
  | inr _ => None
  | inl content =>
      match parse_content content with
      | None => None
      | Some metadata =>
          if mem (lit "doc_key") metadata && accepts metadata f
          then Some (getitem (lit "doc_key") metadata, record_of metadata f)
          else None
      end
  end.

(** The document reaches the duplicate check under the key [k]. *)
Definition claims (k : option str) (f : File) : bool :=
  match claimant f with
  | Some (k', _) => if optstr_eq_dec k' k then true else false
  | None => false
  end.

Definition conflict_eq_dec :
  forall a b : option str * str * str, {a = b} + {a <> b}.
Proof.
  decide equality; [apply str_eq_dec|].
  decide equality; [apply str_eq_dec | apply optstr_eq_dec].
Defined.

(** The conflict tuple [t] is about the key [k]. *)
Definition about (k : option str) (t : option str * str * str) : bool :=
  if optstr_eq_dec (fst (fst t)) k then true else false.

(** One conflict tuple per file of [later] that claims [k], each naming the
    path [first]. *)
Definition conflicts_of (k : option str) (first : str) (later : list File)
  : list (option str * str * str) :=
  map (fun f => (k, first, rel_path f)) (filter (claims k) later).

(** The entries of the documents that reach the duplicate check, in
    traversal order. *)
Definition claimants (files : list File)
  : list (option str * DocumentRecord) :=
  flat_map (fun f => match claimant f with
                     | Some e => [e]
                     | None => []
                     end) files.

End ScanTerms.

Section CountTerms.
Import PyStr Tree Extractor.

(** A document the scan retains: it can be read, has a header with
    [doc_key], passes the status filter and has the five required fields.
    The result is the entry the scan stores for it. *)
Definition qualifies (status_filter : option str) (f : File)
  : option (option str * DocumentVersion) :=
  match extract_frontmatter f with
  | None => None
  | Some metadata =>
      if mem (lit "doc_key") metadata
         && negb (filtered_out status_filter metadata)
         && forallb (fun fld => mem fld metadata) required
      then Some (getitem (lit "doc_key") metadata, version_of metadata f)
      else None
  end.

(** The entries of the qualifying documents, in traversal order. *)
Definition entries (status_filter : option str) (files : list File)
  : list (option str * DocumentVersion) :=
  flat_map (fun f => match qualifies status_filter f with
                     | Some e => [e]
                     | None => []
                     end) files.

(** [self.versions[doc_key] = DocumentVersion(...)] for one entry. *)
Definition store (d : State) (e : option str * DocumentVersion) : State :=
  PyDict.set optstr_eq_dec (fst e) (snd e) d.

End CountTerms.

Section LineTerms.
Import PyStr.

(** The vocabulary of the parsing rule. *)
Definition is_quote (c : char) : Prop := c = dquote \/ c = squote.

(** [value] is [inner] inside one pair of equal quote characters. *)
Definition wrapped (value inner : str) : Prop :=
  exists q, is_quote q /\ value = q :: inner ++ [q].

(** [value] is a single quote character. *)
Definition lone_quote (value : str) : Prop :=
  exists q, is_quote q /\ value = [q].

(** The text is, case-insensitively, [null], or the tilde, or empty. *)
Definition null_text (s : str) : Prop :=
  lower s = lit "null" \/ s = lit "~" \/ s = [].

(** What is stored for a text: an explicit null for a null text, the text
    itself otherwise. *)
Definition stored (s : str) (v : option str) : Prop :=
  (null_text s /\ v = None) \/ (~ null_text s /\ v = Some s).

(** The rule for one line with a colon: split on the first colon, trim key
    and value, strip one layer of quotes exactly when the value is wrapped
    in a matching pair, store null for a null text. *)
Definition one_layer_rule (parse_line : str -> option (str * option str))
  : Prop :=
  forall k v : str,
    ~ In colon k ->
    exists shown,
      parse_line (k ++ colon :: v) = Some (strip k, shown)
      /\ (forall inner, wrapped (strip v) inner -> stored inner shown)
      /\ ((forall inner, ~ wrapped (strip v) inner) -> stored (strip v) shown).

(** The lines of the header block, as both parsers cut them out. *)
Definition header_lines (content : str) : list str :=
  if negb (startswith (lit "---") content) then []
  else
    let parts := split (lit "---") (Some 2) content in
    if length parts <? 3 then []
    else split [nl] None (strip (nth 1 parts [])).

(** The trimmed text after the first colon of a line. *)
Definition raw_value (line : str) : option str :=
  if contains [colon] line then
    match split [colon] (Some 1) line with
    | [_; value] => Some (strip value)
    | _ => None
    end
  else None.

(** No quote character at either end. *)
Definition bare (s : str) : Prop :=
  forall q, is_quote q ->
    (forall t, s <> q :: t) /\ (forall t, s <> t ++ [q]).

(** Values on which the two ways of removing quotes cannot differ: no quote
    at the ends, or one matching pair around a text without quotes at its
    ends. *)
Definition plain_quoting (value : str) : Prop :=
  bare value \/ exists inner, wrapped value inner /\ bare inner.

(** The header whose only line is [title: ], a double quote and [draft]. *)
Definition unbalanced_header : str :=
  lit "---" ++ nl :: lit "title: " ++ dquote :: lit "draft" ++ nl :: lit "---".

End LineTerms.

Section SemverTerms.
Import PyStr.

(** One or more digits. *)
Definition digits (s : str) : Prop :=
  s <> [] /\ Forall (fun c => isdigit c = true) s.

(** Digits, a dot, digits, a dot, digits, and nothing else. *)
Definition semver_shape (s : str) : Prop :=
  exists a b c,
    digits a /\ digits b /\ digits c /\ s = a ++ dot :: b ++ dot :: c.

(** The value is a string of that shape. *)
Definition semver_ok (v : option str) : Prop :=
  exists s, v = Some s /\ semver_shape s.

(** The text [r] is empty or starts with a character outside [p]. *)
Definition stops (p : char -> bool) (r : str) : Prop :=
  match r with
  | [] => True
  | x :: _ => p x = false
  end.

(** The value is [None] or a string without a newline. *)
Definition no_nl (v : option str) : Prop :=
  forall s, v = Some s -> ~ In nl s.

(** Ascending order of items by key, on code points. *)
Definition key_le (V : Type) (a b : str * V) : Prop :=
  str_leb (fst a) (fst b) = true.

(** The item of a dictionary as an item with a string key, if it has one. *)
Definition str_item (V : Type) (kv : option str * V) : list (str * V) :=
  match fst kv with
  | Some k => [(k, snd kv)]
  | None => []
  end.

End SemverTerms.

Section MoreTerms.
Import PyStr Tree.

(** The diagnostics the builder's scan adds for one file: a read failure, or
    the validation message of a document that declares a [doc_key]. *)
Definition diagnostics (f : File) : list str :=
  match read_text f with
  | inr e => [lit "Cannot read " ++ file_path f ++ lit ": " ++ e]
  | inl content =>
      match Builder.parse_content content with
      | None => []
      | Some metadata =>
          if Builder.mem (lit "doc_key") metadata
          then Builder.errors
                 (fst (Builder.validate_frontmatter Builder.init metadata f))
          else []
      end
  end.

(** The value of the last entry stored under [k]. *)
Fixpoint last_entry (V : Type) (k : option str)
  (es : list (option str * V)) : option V :=
  match es with
  | [] => None
  | e :: es' =>
      match last_entry k es' with
      | Some v => Some v
      | None => if optstr_eq_dec (fst e) k then Some (snd e) else None
      end
  end.

(** A character [json.dump] writes: printable ASCII or the newline. *)
Definition plain_char (c : char) : Prop :=
  c = nl \/ (32 <= c /\ c <= 126)%N.

(** What a header parser guarantees of a stored pair: the key is trimmed and
    has neither colon nor newline; the value is [None] or a text without
    newline that is not a null text. *)
Definition well_parsed (kv : str * option str) : Prop :=
  strip (fst kv) = fst kv
  /\ ~ In colon (fst kv)
  /\ ~ In nl (fst kv)
  /\ forall s, snd kv = Some s -> ~ null_text s /\ ~ In nl s.

(** Sample trees and files for the properties below. *)
Definition unreadable : File :=
  {| file_path := lit "docs/locked.md"; rel_path := lit "docs/locked.md";
     read_text := inr (lit "Permission denied") |}.

Definition deprecated_doc : File :=
  Sample.doc "docs/old.md"
    [ "---"; "doc_key: policy.old"; "semver: 0.9.0"; "status: deprecated";
      "effective_date: 2020-01-01"; "contract_type: policy"; "---" ].

Definition retention_next : File :=
  Sample.doc "plans/retention-next.md"
    (Sample.header "policy.retention" "3.0.0").

Definition empty_run : Integration.RunDir :=
  {| Integration.policy_snapshot_json := None;
     Integration.ledger_jsonl := [];
     Integration.metadata_json := None |}.

End MoreTerms.

Section AgreementTerms.
Import PyStr Tree.

(** Whether a text has no quote character at either end. *)
Definition bareb (s : str) : bool :=
  negb (startswith [dquote] s || startswith [squote] s
        || endswith [dquote] s || endswith [squote] s).

(** Whether every value of the header block has no quote at either end. *)
Definition bare_values (content : str) : bool :=
  forallb (fun line => match raw_value line with
                       | Some v => bareb v
                       | None => true
                       end) (header_lines content).

(** Every value in the header of the file, if it can be read, has plain
    quoting. *)
Definition plain_file (f : File) : Prop :=
  forall content line v,
    read_text f = inl content -> In line (header_lines content) ->
    raw_value line = Some v -> plain_quoting v.

(** What the two scans have in common for one document: key and version. *)
Definition registered (e : option str * Builder.DocumentRecord)
  : option str * option str := (fst e, Builder.semver (snd e)).

Definition extracted (e : option str * Extractor.DocumentVersion)
  : option str * option str := (fst e, Extractor.semver (snd e)).

End AgreementTerms.

Section InvariantTerms.
Import PyStr Tree Builder.

(** What the scan keeps true of registry, count and conflicts. *)
Record Invariant (seen : list File) (b : State) (n : nat) : Prop := {
  inv_count : n = length (registry b);
  inv_keys : NoDup (PyDict.keys (registry b));
  inv_entries :
    forall k rec, In (k, rec) (registry b) ->
      exists f, In f seen /\ claimant f = Some (k, rec);
  inv_conflicts :
    forall k p1 p2, In (k, p1, p2) (duplicates b) ->
      (exists rec, PyDict.get optstr_eq_dec k (registry b) = Some rec
                   /\ path rec = p1)
      /\ exists f, In f seen /\ claims k f = true /\ rel_path f = p2;
  inv_total :
    length (registry b) + length (duplicates b) = length (claimants seen)
}.

End InvariantTerms.

Section RenderTerms.
Import PyStr.

(** [plain_char] as a test. *)
Definition plain_charb (c : char) : bool :=
  ((c =? 10) || ((32 <=? c) && (c <=? 126)))%N.

End RenderTerms.

(* ================================================================== *)
(** * Properties *)

Unset Implicit Arguments.

(* ------------------------------------------------------------------ *)
(** ** Dictionaries *)

Section DictFacts.
Variables K V : Type.
Variable eq_dec : forall a b : K, {a = b} + {a <> b}.

Lemma get_set_same (k : K) (v : V) (d : PyDict.dict K V) :
  PyDict.get eq_dec k (PyDict.set eq_dec k v d) = Some v.
Proof.
  induction d as [|[k' v'] d IH]; simpl.
  - destruct (eq_dec k k); congruence.
  - destruct (eq_dec k k') as [E|N]; simpl.
    + destruct (eq_dec k k'); congruence.
    + destruct (eq_dec k k'); congruence.
Qed.

Lemma get_set_other (k k0 : K) (v : V) (d : PyDict.dict K V) :
  k0 <> k ->
  PyDict.get eq_dec k0 (PyDict.set eq_dec k v d) = PyDict.get eq_dec k0 d.
Proof.
  intros N. induction d as [|[k' v'] d IH]; simpl.
  - destruct (eq_dec k0 k); congruence.
  - destruct (eq_dec k k') as [E|N']; simpl.
    + subst k'. destruct (eq_dec k0 k); congruence.
    + destruct (eq_dec k0 k'); congruence.
Qed.

Lemma get_none_not_in (k : K) (d : PyDict.dict K V) :
  PyDict.get eq_dec k d = None <-> ~ In k (PyDict.keys d).
Proof.
  induction d as [|[k' v'] d IH]; simpl.
  - tauto.
  - destruct (eq_dec k k') as [E|N].
    + split; [discriminate | intros H; exfalso; apply H; left; congruence].
    + rewrite IH. split; intros H; [intros [E|I]; congruence | tauto].
Qed.

Lemma keys_set_absent (k : K) (v : V) (d : PyDict.dict K V) :
  PyDict.get eq_dec k d = None ->
  PyDict.set eq_dec k v d = d ++ [(k, v)].
Proof.
  induction d as [|[k' v'] d IH]; simpl; intros H.
  - reflexivity.
  - destruct (eq_dec k k'); [discriminate|].
    rewrite IH by assumption. reflexivity.
Qed.

Lemma keys_set_present (k : K) (v : V) (d : PyDict.dict K V) :
  PyDict.get eq_dec k d <> None ->
  PyDict.keys (PyDict.set eq_dec k v d) = PyDict.keys d.
Proof.
  induction d as [|[k' v'] d IH]; simpl; intros H.
  - congruence.
  - destruct (eq_dec k k'); simpl; [reflexivity|].
    rewrite IH by assumption. reflexivity.
Qed.

Lemma get_map_values (W : Type) (g : V -> W) (k : K) (d : PyDict.dict K V) :
  PyDict.get eq_dec k (map (fun kv => (fst kv, g (snd kv))) d)
  = option_map g (PyDict.get eq_dec k d).
Proof.
  induction d as [|[k' v'] d IH]; simpl; [reflexivity|].
  destruct (eq_dec k k'); [reflexivity | exact IH].
Qed.

Lemma keys_map_values (W : Type) (g : V -> W) (d : PyDict.dict K V) :
  PyDict.keys (map (fun kv => (fst kv, g (snd kv))) d) = PyDict.keys d.
Proof.
  unfold PyDict.keys. rewrite map_map. reflexivity.
Qed.

End DictFacts.

(* ------------------------------------------------------------------ *)
(** ** The two projections of the Version Extractor *)

Section Projections.
Import PyStr Tree Extractor.

(** C6.  After a scan (from any starting state, with any status filter),
    the simple mapping and the full detail mapping have the same keys, in
    the same order, and under every key the simple mapping holds the value
    that the full record holds in its field [semver]. *)
Theorem simple_dict_agrees_with_full :
  forall (versions0 : State) (status_filter : option str) (r : Repo),
    let versions := fst (scan_documents versions0 status_filter r) in
    PyDict.keys (to_simple_dict versions) = PyDict.keys (to_dict versions)
    /\ forall k : option str,
         PyDict.get optstr_eq_dec k (to_simple_dict versions)
         = option_map (getitem (lit "semver"))
             (PyDict.get optstr_eq_dec k (to_dict versions)).
Proof.
  intros versions0 status_filter r versions.
  generalize versions. clear. intros versions. split.
  - unfold to_simple_dict, to_dict. now rewrite !keys_map_values.
  - intros k. unfold to_simple_dict, to_dict.
    rewrite !get_map_values.
    destruct (PyDict.get optstr_eq_dec k versions) as [v|]; simpl; [|reflexivity].
    f_equal.
Qed.

End Projections.

(* ------------------------------------------------------------------ *)
(** ** The scan of the Registry Builder *)

Module ScanFacts.
Import PyStr Tree Builder.

Lemma validate_frontmatter_cases (b : State) (metadata : Metadata) (f : File) :
  (accepts metadata f = true /\ validate_frontmatter b metadata f = (b, true))
  \/ (accepts metadata f = false
      /\ exists e, validate_frontmatter b metadata f = (add_error b e, false)).
Proof.
  unfold accepts, validate_frontmatter.
  destruct (missing_fields metadata) as [|m ms].
  - destruct (negb (semver_match _)); simpl; [right; eauto|].
    destruct (negb (one_of _ valid_statuses)); simpl; [right; eauto|].
    destruct (negb (one_of _ valid_types)); simpl; [right; eauto|].
    left; auto.
  - right. simpl. eauto.
Qed.

Lemma record_of_path (metadata : Metadata) (f : File) :
  path (record_of metadata f) = rel_path f.
Proof. reflexivity. Qed.

Lemma claimant_path (f : File) (k : option str) (rec : DocumentRecord) :
  claimant f = Some (k, rec) -> path rec = rel_path f /\ doc_key rec = k.
Proof.
  unfold claimant. destruct (read_text f); [|discriminate].
  destruct (parse_content s); [|discriminate].
  destruct (mem _ _ && accepts _ _); [|discriminate].
  intros H; inversion H; subst; auto.
Qed.

(** One step of the scan on a claimant: a conflict when the key is taken,
    an insertion otherwise. *)
Lemma scan_file_claimant (b : State) (n : nat) (f : File)
  (k : option str) (rec : DocumentRecord) :
  claimant f = Some (k, rec) ->
  scan_file (b, n) f =
  match PyDict.get optstr_eq_dec k (registry b) with
  | Some existing =>
      ({| registry := registry b;
          duplicates := duplicates b ++ [(k, path existing, rel_path f)];
          errors := errors b |}, n)
  | None =>
      ({| registry := PyDict.set optstr_eq_dec k rec (registry b);
          duplicates := duplicates b;
          errors := errors b |}, S n)
  end.
Proof.
  unfold claimant, scan_file, extract_frontmatter.
  destruct (read_text f) as [content|e]; [|discriminate].
  destruct (parse_content content) as [metadata|]; [|discriminate].
  destruct (mem (lit "doc_key") metadata) eqn:Hm; simpl; [|discriminate].
  destruct (validate_frontmatter_cases b metadata f) as [[Ha Hv]|[Ha _]];
    rewrite Ha; [|discriminate].
  intros H; inversion H; subst; clear H.
  rewrite Hv. simpl. reflexivity.
Qed.

(** One step of the scan on any other file: registry, conflicts and count
    stay as they are; only diagnostics may be added. *)
Lemma scan_file_other (b : State) (n : nat) (f : File) :
  claimant f = None ->
  exists es,
    scan_file (b, n) f =
    ({| registry := registry b;
        duplicates := duplicates b;
        errors := errors b ++ es |}, n).
Proof.
  unfold claimant, scan_file, extract_frontmatter.
  destruct b as [reg dups errs]; simpl.
  destruct (read_text f) as [content|e].
  - destruct (parse_content content) as [metadata|].
    + destruct (mem (lit "doc_key") metadata) eqn:Hm; simpl.
      * destruct (validate_frontmatter_cases
                    {| registry := reg; duplicates := dups; errors := errs |}
                    metadata f) as [[Ha Hv]|[Ha [e Hv]]];
          rewrite Ha; [discriminate|].
        intros _. rewrite Hv. simpl. exists [e]. reflexivity.
      * intros _. exists []. now rewrite app_nil_r.
    + intros _. exists []. now rewrite app_nil_r.
  - intros _. unfold add_error; simpl. eexists. reflexivity.
Qed.

Lemma scan_documents_walk (b : State) (r : Repo) :
  scan_documents b r = fold_left scan_file (walk r) (b, 0).
Proof.
  unfold scan_documents, walk, search_roots. simpl.
  rewrite app_nil_r, fold_left_app.
  destruct (docs r), (plans r); reflexivity.
Qed.

End ScanFacts.

Module DuplicateFacts.
Import PyStr Tree Builder ScanFacts.

Lemma claims_true (k : option str) (f : File) :
  claims k f = true <-> exists rec, claimant f = Some (k, rec).
Proof.
  unfold claims. destruct (claimant f) as [[k' rec]|].
  - destruct (optstr_eq_dec k' k) as [E|N].
    + subst. split; eauto.
    + split; [discriminate | intros [rec' H]; congruence].
  - split; [discriminate | intros [rec' H]; discriminate].
Qed.

Lemma about_app (k : option str) (l : list (option str * str * str))
  (t : option str * str * str) :
  filter (about k) (l ++ [t])
  = filter (about k) l ++ (if about k t then [t] else []).
Proof. rewrite filter_app. reflexivity. Qed.

(** Files that do not claim [k] leave its entry and its conflicts alone. *)
Lemma scan_without_claimant (k : option str) (files : list File) :
  forall (b : State) (n : nat),
    Forall (fun f => claims k f = false) files ->
    let b' := fst (fold_left scan_file files (b, n)) in
    PyDict.get optstr_eq_dec k (registry b')
    = PyDict.get optstr_eq_dec k (registry b)
    /\ filter (about k) (duplicates b') = filter (about k) (duplicates b).
Proof.
  induction files as [|f files IH]; intros b n HF; cbn [fold_left];
    [simpl; auto|].
  inversion HF as [|? ? Hf HF']; subst.
  destruct (claimant f) as [[k' rec]|] eqn:Hc.
  - assert (Hk : k' <> k).
    { intros ->. assert (claims k f = true) by (apply claims_true; eauto).
      congruence. }
    rewrite (scan_file_claimant b n f _ _ Hc).
    destruct (PyDict.get optstr_eq_dec k' (registry b)) as [ex|] eqn:Hg.
    + destruct (IH {| registry := registry b;
                      duplicates := duplicates b ++ [(k', path ex, rel_path f)];
                      errors := errors b |} n HF') as [H1 H2].
      simpl in *. rewrite H1, H2. split; [reflexivity|].
      rewrite about_app. unfold about at 2. simpl.
      destruct (optstr_eq_dec k' k); [contradiction | apply app_nil_r].
    + destruct (IH {| registry := PyDict.set optstr_eq_dec k' rec (registry b);
                      duplicates := duplicates b;
                      errors := errors b |} (S n) HF') as [H1 H2].
      simpl in *. rewrite H1, H2. split; [|reflexivity].
      apply get_set_other. congruence.
  - destruct (scan_file_other b n f Hc) as [es He]. rewrite He.
    destruct (IH {| registry := registry b; duplicates := duplicates b;
                    errors := errors b ++ es |} n HF') as [H1 H2].
    simpl in *. auto.
Qed.

(** Once [k] is registered its record stays, and every later claimant adds
    one conflict that names the registered path and its own. *)
Lemma scan_after_first (k : option str) (rec1 : DocumentRecord)
  (files : list File) :
  forall (b : State) (n : nat),
    PyDict.get optstr_eq_dec k (registry b) = Some rec1 ->
    let b' := fst (fold_left scan_file files (b, n)) in
    PyDict.get optstr_eq_dec k (registry b') = Some rec1
    /\ filter (about k) (duplicates b')
       = filter (about k) (duplicates b) ++ conflicts_of k (path rec1) files.
Proof.
  induction files as [|f files IH]; intros b n Hreg; cbn [fold_left].
  - unfold conflicts_of. simpl. rewrite app_nil_r. auto.
  - unfold conflicts_of. cbn [filter].
    destruct (claimant f) as [[k' rec]|] eqn:Hc.
    + rewrite (scan_file_claimant b n f _ _ Hc).
      unfold claims at 1. rewrite Hc.
      destruct (optstr_eq_dec k' k) as [E|N].
      * subst k'. rewrite Hreg.
        destruct (IH {| registry := registry b;
                        duplicates :=
                          duplicates b ++ [(k, path rec1, rel_path f)];
                        errors := errors b |} n Hreg) as [H1 H2].
        simpl in *. rewrite H1, H2. split; [reflexivity|].
        rewrite about_app. unfold about at 2. simpl.
        destruct (optstr_eq_dec k k); [|congruence].
        rewrite <- app_assoc. reflexivity.
      * destruct (PyDict.get optstr_eq_dec k' (registry b)) as [ex|] eqn:Hg.
        -- destruct (IH {| registry := registry b;
                           duplicates :=
                             duplicates b ++ [(k', path ex, rel_path f)];
                           errors := errors b |} n Hreg) as [H1 H2].
           simpl in *. rewrite H1, H2. split; [reflexivity|].
           rewrite about_app. unfold about at 2. simpl.
           destruct (optstr_eq_dec k' k); [contradiction|].
           rewrite app_nil_r. reflexivity.
        -- assert (Hreg' : PyDict.get optstr_eq_dec k
                             (PyDict.set optstr_eq_dec k' rec (registry b))
                           = Some rec1)
             by (rewrite get_set_other; [assumption | congruence]).
           destruct (IH {| registry :=
                             PyDict.set optstr_eq_dec k' rec (registry b);
                           duplicates := duplicates b;
                           errors := errors b |} (S n) Hreg') as [H1 H2].
           simpl in *. auto.
    + destruct (scan_file_other b n f Hc) as [es He]. rewrite He.
      unfold claims at 1. rewrite Hc.
      destruct (IH {| registry := registry b; duplicates := duplicates b;
                      errors := errors b ++ es |} n Hreg) as [H1 H2].
      simpl in *. auto.
Qed.

Lemma count_occ_about (k : option str) (t : option str * str * str)
  (l : list (option str * str * str)) :
  about k t = true ->
  count_occ conflict_eq_dec l t = count_occ conflict_eq_dec (filter (about k) l) t.
Proof.
  intros Ht. induction l as [|x l IH]; simpl; [reflexivity|].
  destruct (conflict_eq_dec x t) as [E|N].
  - subst x. rewrite Ht. simpl.
    destruct (conflict_eq_dec t t); congruence.
  - destruct (about k x); simpl; [|assumption].
    destruct (conflict_eq_dec x t); congruence.
Qed.

Lemma count_occ_conflicts (k : option str) (first : str) (d2 : File) :
  forall later : list File,
    NoDup (map rel_path later) -> In d2 later -> claims k d2 = true ->
    count_occ conflict_eq_dec (conflicts_of k first later)
      (k, first, rel_path d2) = 1.
Proof.
  unfold conflicts_of.
  induction later as [|a later IH]; intros ND Hin Hc; [contradiction|].
  inversion ND as [|? ? Hnot ND']; subst. cbn [filter].
  destruct Hin as [->|Hin].
  - rewrite Hc. cbn [map count_occ].
    destruct (conflict_eq_dec (k, first, rel_path d2) (k, first, rel_path d2))
      as [_|N]; [|congruence].
    f_equal. apply count_occ_not_In. intros Hi.
    apply in_map_iff in Hi. destruct Hi as [g [Hg Hgi]].
    apply filter_In in Hgi. destruct Hgi as [Hgi _].
    apply Hnot. apply in_map_iff. exists g. split; [congruence | assumption].
  - assert (Hne : rel_path a <> rel_path d2).
    { intros E. apply Hnot. rewrite E. now apply in_map. }
    destruct (claims k a); cbn [map count_occ].
    + destruct (conflict_eq_dec (k, first, rel_path a) (k, first, rel_path d2))
        as [E|_]; [congruence|]. now apply IH.
    + now apply IH.
Qed.

End DuplicateFacts.

Section DuplicateKeys.
Import PyStr Tree Builder ScanFacts DuplicateFacts.

(** C1.  Take a document tree whose traversal meets [d1] as the first
    document that reaches the registry under the key [k], and later a
    document [d2] that claims the same key [k] (both pass validation; the
    paths of the tree are distinct).  After the scan of a fresh builder:
    the registry holds under [k] the record built from [d1], with the path
    of [d1]; the conflicts recorded for [k] are, in order, one tuple
    (k, path of d1, path of the claimant) per later claimant, so the tuple
    (k, path of d1, path of d2) occurs exactly once in the list of
    duplicates; and [report_status] returns failure. *)
Theorem duplicate_key_first_seen_wins :
  forall (r : Repo) (before later : list File) (d1 d2 : File)
         (k : option str) (rec1 rec2 : DocumentRecord),
    walk r = before ++ d1 :: later ->
    Forall (fun f => claims k f = false) before ->
    claimant d1 = Some (k, rec1) ->
    In d2 later ->
    claimant d2 = Some (k, rec2) ->
    NoDup (map rel_path (walk r)) ->
    let b := fst (scan_documents init r) in
    PyDict.get optstr_eq_dec k (registry b) = Some rec1
    /\ path rec1 = rel_path d1
    /\ filter (about k) (duplicates b) = conflicts_of k (rel_path d1) later
    /\ count_occ conflict_eq_dec (duplicates b) (k, rel_path d1, rel_path d2) = 1
    /\ report_status b = false.
Proof.
  intros r before later d1 d2 k rec1 rec2 Hw Hbefore Hd1 Hin Hd2 ND b.
  subst b. rewrite scan_documents_walk, Hw, fold_left_app. simpl.
  destruct (fold_left scan_file before (init, 0)) as [b0 n0] eqn:Hpre.
  destruct (scan_without_claimant k before init 0 Hbefore) as [Hg0 Hd0].
  rewrite Hpre in Hg0, Hd0. simpl in Hg0, Hd0.
  rewrite (scan_file_claimant b0 n0 d1 _ _ Hd1), Hg0.
  set (b1 := {| registry := PyDict.set optstr_eq_dec k rec1 (registry b0);
                duplicates := duplicates b0; errors := errors b0 |}).
  assert (Hreg : PyDict.get optstr_eq_dec k (registry b1) = Some rec1)
    by apply get_set_same.
  destruct (scan_after_first k rec1 later b1 (S n0) Hreg) as [H1 H2].
  destruct (claimant_path _ _ _ Hd1) as [Hp _].
  simpl in H2. rewrite Hd0, Hp in H2. simpl in H2.
  assert (Hc2 : claims k d2 = true) by (apply claims_true; eauto).
  assert (ND' : NoDup (map rel_path later)).
  { rewrite Hw, map_app in ND. apply NoDup_app_remove_l in ND.
    now inversion ND. }
  assert (Hcount :
    count_occ conflict_eq_dec
      (duplicates (fst (fold_left scan_file later (b1, S n0))))
      (k, rel_path d1, rel_path d2) = 1).
  { rewrite (count_occ_about k) by
      (unfold about; simpl; destruct (optstr_eq_dec k k); congruence).
    rewrite H2. now apply count_occ_conflicts. }
  repeat split; try assumption.
  unfold report_status.
  destruct (duplicates (fst (fold_left scan_file later (b1, S n0)))); [|reflexivity].
  simpl in Hcount. discriminate.
Qed.

End DuplicateKeys.

Section ScanWitness.
Import PyStr Tree Builder ScanFacts DuplicateFacts.

Lemma duplicate_key_first_seen_wins_witness :
  let r := {| docs := Some [Sample.retention];
              plans := Some [Sample.retention_copy] |} in
  let b := fst (scan_documents init r) in
  option_map path (PyDict.get optstr_eq_dec Sample.key_retention (registry b))
  = Some (lit "docs/retention.md")
  /\ count_occ conflict_eq_dec (duplicates b)
       (Sample.key_retention, lit "docs/retention.md",
        lit "plans/retention.md") = 1
  /\ report_status b = false.
Proof.
  intros r b.
  destruct (claimant Sample.retention) as [[k1 rec1]|] eqn:H1;
    [|vm_compute in H1; discriminate H1].
  destruct (claimant Sample.retention_copy) as [[k2 rec2]|] eqn:H2;
    [|vm_compute in H2; discriminate H2].
  assert (E1 : k1 = Sample.key_retention)
    by (vm_compute in H1; inversion H1; reflexivity).
  assert (E2 : k2 = Sample.key_retention)
    by (vm_compute in H2; inversion H2; reflexivity).
  subst k1 k2.
  destruct (duplicate_key_first_seen_wins r [] [Sample.retention_copy]
              Sample.retention Sample.retention_copy Sample.key_retention
              rec1 rec2)
    as (Hg & Hp & _ & Hc & Hr).
  - reflexivity.
  - constructor.
  - exact H1.
  - left; reflexivity.
  - exact H2.
  - vm_compute. repeat constructor; simpl; intuition discriminate.
  - fold b in Hg, Hc, Hr. rewrite Hg. simpl. rewrite Hp.
    repeat split; assumption.
Defined.

End ScanWitness.

(* ------------------------------------------------------------------ *)
(** ** Validation comes before the duplicate check *)

Section ValidationFirst.
Import PyStr Tree Builder ScanFacts.

Lemma claimant_inv (f : File) (k : option str) (rec : DocumentRecord) :
  claimant f = Some (k, rec) ->
  exists content metadata,
    read_text f = inl content
    /\ parse_content content = Some metadata
    /\ mem (lit "doc_key") metadata = true
    /\ accepts metadata f = true
    /\ k = getitem (lit "doc_key") metadata
    /\ rec = record_of metadata f.
Proof.
  unfold claimant.
  destruct (read_text f) as [content|]; [|discriminate].
  destruct (parse_content content) as [metadata|] eqn:Hp; [|discriminate].
  destruct (mem (lit "doc_key") metadata) eqn:Hm; [|discriminate].
  destruct (accepts metadata f) eqn:Ha; [|discriminate].
  simpl. intros H; inversion H; subst.
  exists content, metadata. repeat split; assumption.
Qed.

(** C9.  (1) A readable document whose header declares a [doc_key] that is
    already in the registry, and whose metadata fails validation, leaves the
    scan with the registry, the list of duplicates and the count as they
    were and with one more entry in the list of errors.  (2) Whenever a
    step of the scan changes the list of duplicates, the file is readable,
    its metadata passes validation, its key was in the registry, and the
    change is one appended tuple (key, registered path, path of the file). *)
Theorem validation_precedes_duplicate_check :
  forall (b : State) (n : nat) (f : File),
    (forall content metadata existing,
        read_text f = inl content ->
        parse_content content = Some metadata ->
        mem (lit "doc_key") metadata = true ->
        PyDict.get optstr_eq_dec (getitem (lit "doc_key") metadata) (registry b)
        = Some existing ->
        accepts metadata f = false ->
        exists e,
          scan_file (b, n) f
          = ({| registry := registry b;
                duplicates := duplicates b;
                errors := errors b ++ [e] |}, n))
    /\ (duplicates (fst (scan_file (b, n) f)) <> duplicates b ->
        exists content metadata existing,
          read_text f = inl content
          /\ parse_content content = Some metadata
          /\ snd (validate_frontmatter b metadata f) = true
          /\ PyDict.get optstr_eq_dec (getitem (lit "doc_key") metadata)
               (registry b) = Some existing
          /\ duplicates (fst (scan_file (b, n) f))
             = duplicates b
               ++ [(getitem (lit "doc_key") metadata, path existing,
                    rel_path f)]).
Proof.
  intros b n f. split.
  - intros content metadata existing Hr Hp Hm _ Ha.
    unfold scan_file, extract_frontmatter. rewrite Hr, Hp, Hm. simpl.
    destruct (validate_frontmatter_cases b metadata f) as [[Ha' _]|[_ [e Hv]]];
      [congruence|].
    rewrite Hv. simpl. exists e. reflexivity.
  - intros Hd.
    destruct (claimant f) as [[k rec]|] eqn:Hc.
    + destruct (claimant_inv f k rec Hc)
        as (content & metadata & Hr & Hp & Hm & Ha & Hk & Hrec).
      rewrite (scan_file_claimant b n f k rec Hc) in Hd |- *.
      destruct (PyDict.get optstr_eq_dec k (registry b)) as [existing|] eqn:Hg;
        simpl in Hd |- *; [|congruence].
      exists content, metadata, existing. subst k.
      destruct (validate_frontmatter_cases b metadata f) as [[_ Hv]|[Ha' _]];
        [|congruence].
      rewrite Hv. auto.
    + destruct (scan_file_other b n f Hc) as [es He].
      rewrite He in Hd. simpl in Hd. congruence.
Qed.

Lemma validation_precedes_duplicate_check_witness :
  let b := fst (scan_file (init, 0) Sample.retention) in
  exists e,
    scan_file (b, 1) Sample.retention_draft
    = ({| registry := registry b;
          duplicates := duplicates b;
          errors := errors b ++ [e] |}, 1).
Proof.
  intros b.
  destruct (read_text Sample.retention_draft) as [content|] eqn:Hr;
    [|vm_compute in Hr; discriminate Hr].
  destruct (parse_content content) as [metadata|] eqn:Hp;
    [|vm_compute in Hr; inversion Hr; subst content;
      vm_compute in Hp; discriminate Hp].
  destruct (PyDict.get optstr_eq_dec (getitem (lit "doc_key") metadata)
              (registry b)) as [existing|] eqn:Hg;
    [|vm_compute in Hr; inversion Hr; subst content;
      vm_compute in Hp; inversion Hp; subst metadata;
      vm_compute in Hg; discriminate Hg].
  apply (proj1 (validation_precedes_duplicate_check b 1 Sample.retention_draft)
           content metadata existing Hr Hp).
  - vm_compute in Hr; inversion Hr; subst content.
    vm_compute in Hp; inversion Hp; subst metadata. reflexivity.
  - exact Hg.
  - vm_compute in Hr; inversion Hr; subst content.
    vm_compute in Hp; inversion Hp; subst metadata. reflexivity.
Defined.

End ValidationFirst.

(* ------------------------------------------------------------------ *)
(** ** The entry point *)

Section EntryPoint.
Import PyStr Tree Builder.

Lemma report_status_true (b : State) :
  report_status b = true <-> duplicates b = [] /\ errors b = [].
Proof.
  unfold report_status.
  destruct (duplicates b), (errors b); split; intros H;
    try discriminate; try (destruct H; discriminate); auto.
Qed.

(** As long as writing the registry does not raise, the exit status is zero
    exactly when nothing was accumulated, and the registry is saved exactly
    when, in addition, check-only mode was not asked for. *)
Lemma main_contract (check_only : bool) (r : Repo) :
  let b := fst (scan_documents init r) in
  (check_only = true \/ save_registry b <> None \/ report_status b = false) ->
  (exit_status (main check_only r) = 0
   <-> duplicates b = [] /\ errors b = [])
  /\ ((exists content, output (main check_only r) = Saved content)
      <-> (duplicates b = [] /\ errors b = []) /\ check_only = false)
  /\ (output (main check_only r) = Untouched
      <-> ~ ((duplicates b = [] /\ errors b = []) /\ check_only = false)).
Proof.
  intros b. subst b. unfold main.
  destruct (scan_documents init r) as [b n]. simpl.
  rewrite <- report_status_true.
  destruct (report_status b) eqn:Hs, check_only; simpl; intros H;
    try (destruct (save_registry b) as [content|] eqn:Hsave;
         [|exfalso; destruct H as [H|[H|H]]; congruence]);
    simpl; repeat split; intros;
    repeat match goal with
           | E : exists _, _ |- _ => destruct E
           | E : _ /\ _ |- _ => destruct E
           end;
    try reflexivity; try discriminate; eauto;
    try (intros [_ E]; discriminate E);
    try (intros [E _]; discriminate E);
    try (exfalso; match goal with E : ~ _ |- _ => apply E; auto end).
Qed.

(** C2, at the tree [docs/unnamed.md] (header with [doc_key: null]) next to
    [docs/naming.md]: both documents are valid, the scan accumulates no
    duplicate and no error, yet outside check-only mode the process ends
    with status 1 and leaves no registry behind, because [json.dump] with
    [sort_keys=True] cannot order the key [None] against a string. *)
Theorem main_null_key_breaks_exit_contract :
  let r := {| docs := Some [Sample.unnamed; Sample.naming]; plans := None |} in
  let b := fst (scan_documents init r) in
  duplicates b = [] /\ errors b = []
  /\ PyDict.keys (registry b) = [None; Some (lit "policy.naming")]
  /\ main false r = {| exit_status := 1; output := Broken |}
  /\ main true r = {| exit_status := 0; output := Untouched |}.
Proof. vm_compute. repeat split; reflexivity. Qed.

End EntryPoint.

(* ------------------------------------------------------------------ *)
(** ** The count returned by the Version Extractor *)

Module CountFacts.
Import PyStr Tree Extractor.

Lemma scan_file_qualifies (sf : option str) (v : State) (n : nat) (f : File) :
  scan_file sf (v, n) f =
  match qualifies sf f with
  | Some e => (store v e, S n)
  | None => (v, n)
  end.
Proof.
  unfold scan_file, qualifies, store.
  destruct (extract_frontmatter f) as [metadata|]; [|reflexivity].
  destruct (mem (lit "doc_key") metadata); cbn [andb negb]; [|reflexivity].
  destruct (filtered_out sf metadata); cbn [andb negb]; [reflexivity|].
  destruct (forallb (fun fld => mem fld metadata) required); reflexivity.
Qed.

Lemma scan_files_entries (sf : option str) (files : list File) :
  forall (v : State) (n : nat),
    fold_left (scan_file sf) files (v, n)
    = (fold_left store (entries sf files) v, n + length (entries sf files)).
Proof.
  induction files as [|f files IH]; intros v n; cbn [fold_left].
  - simpl. now rewrite Nat.add_0_r.
  - rewrite scan_file_qualifies. unfold entries. cbn [flat_map].
    destruct (qualifies sf f) as [e|]; simpl.
    + rewrite IH. f_equal. unfold entries. lia.
    + apply IH.
Qed.

Lemma scan_documents_entries (v : State) (sf : option str) (r : Repo) :
  scan_documents v sf r
  = (fold_left store (entries sf (walk r)) v, length (entries sf (walk r))).
Proof.
  unfold scan_documents, walk, search_roots. cbn [fold_left flat_map].
  rewrite app_nil_r.
  transitivity (fold_left (scan_file sf)
                  (root_files (docs r) ++ root_files (plans r)) (v, 0)).
  - rewrite fold_left_app. destruct (docs r), (plans r); reflexivity.
  - apply scan_files_entries.
Qed.

Section Sizes.
Variables K V : Type.
Variable eq_dec : forall a b : K, {a = b} + {a <> b}.

Lemma length_set (k : K) (v : V) (d : PyDict.dict K V) :
  (In k (PyDict.keys d)
   /\ length (PyDict.set eq_dec k v d) = length d)
  \/ (~ In k (PyDict.keys d)
      /\ length (PyDict.set eq_dec k v d) = S (length d)).
Proof.
  induction d as [|[k' v'] d IH]; simpl.
  - right. auto.
  - destruct (eq_dec k k') as [E|N]; simpl.
    + left. auto.
    + destruct IH as [[Hi Hl]|[Hn Hl]]; [left|right]; split; try lia; auto.
      intros [E|I]; [congruence | contradiction].
Qed.

Lemma in_keys_set (k k0 : K) (v : V) (d : PyDict.dict K V) :
  In k0 (PyDict.keys (PyDict.set eq_dec k v d))
  <-> k0 = k \/ In k0 (PyDict.keys d).
Proof.
  induction d as [|[k' v'] d IH]; simpl.
  - intuition.
  - destruct (eq_dec k k') as [E|N]; simpl.
    + subst. intuition.
    + rewrite IH. intuition.
Qed.

(** Storing a list of entries: the dictionary grows by at most one key per
    entry, and by exactly one per entry when the keys are new and distinct. *)
Lemma length_store_all (es : list (K * V)) :
  forall d : PyDict.dict K V,
    let d' := fold_left (fun d e => PyDict.set eq_dec (fst e) (snd e) d) es d in
    length d' <= length d + length es
    /\ (length d' = length d + length es
        <-> NoDup (map fst es)
            /\ forall k, In k (map fst es) -> ~ In k (PyDict.keys d)).
Proof.
  induction es as [|[k v] es IH]; intros d; simpl.
  - split; [lia|]. split; [intros _; split; [constructor | tauto] | lia].
  - destruct (IH (PyDict.set eq_dec k v d)) as [Hle Heq]. simpl in Hle, Heq.
    destruct (length_set k v d) as [[Hi Hl]|[Hn Hl]]; rewrite Hl in *.
    + split; [lia|]. split.
      * intros E. exfalso. lia.
      * intros [_ Hfresh]. exfalso. apply (Hfresh k); auto.
    + split; [lia|]. split.
      * intros E. assert (E' : length
            (fold_left (fun d e => PyDict.set eq_dec (fst e) (snd e) d) es
               (PyDict.set eq_dec k v d)) = S (length d) + length es) by lia.
        apply Heq in E'. destruct E' as [ND Hfresh]. split.
        -- constructor; [|assumption].
           intros I. apply (Hfresh k I). apply in_keys_set. auto.
        -- intros k0 [E0|I0]; [subst; assumption|].
           intros I. apply (Hfresh k0 I0). apply in_keys_set. auto.
      * intros [ND Hfresh]. inversion ND as [|? ? Hk ND']; subst.
        assert (E' : length
            (fold_left (fun d e => PyDict.set eq_dec (fst e) (snd e) d) es
               (PyDict.set eq_dec k v d)) = S (length d) + length es).
        { apply Heq. split; [assumption|].
          intros k0 I0 I. apply in_keys_set in I. destruct I as [E0|I].
          - subst. contradiction.
          - apply (Hfresh k0); auto. }
        lia.
Qed.

End Sizes.

End CountFacts.

Section Count.
Import PyStr Tree Extractor CountFacts.

(** C10.  A scan of a fresh extractor returns the number of qualifying
    documents (one per occurrence, whether or not its key is new).  That
    count is at least the number of entries of [versions], and equals it
    exactly when the qualifying documents have pairwise distinct keys.  A
    captured snapshot stores this count as [policy_count], next to an
    [active_policies] mapping with one entry per key, so the same bound and
    the same condition for equality hold there. *)
Theorem count_bounds_versions :
  forall (status_filter : option str) (r : Repo),
    let versions := fst (scan_documents init status_filter r) in
    let count := snd (scan_documents init status_filter r) in
    count = length (entries status_filter (walk r))
    /\ length versions <= count
    /\ (length versions = count
        <-> NoDup (map fst (entries status_filter (walk r))))
    /\ forall rid now d d' snapshot,
         Integration.capture_policy_snapshot rid now r d = Some (d', snapshot) ->
         Integration.policy_count snapshot
         = length (entries (Some (lit "active")) (walk r))
         /\ length (Integration.active_policies snapshot)
            <= Integration.policy_count snapshot
         /\ (length (Integration.active_policies snapshot)
             = Integration.policy_count snapshot
             <-> NoDup (map fst (entries (Some (lit "active")) (walk r)))).
Proof.
  assert (Hscan : forall sf r,
    snd (scan_documents init sf r) = length (entries sf (walk r))
    /\ length (fst (scan_documents init sf r)) <= snd (scan_documents init sf r)
    /\ (length (fst (scan_documents init sf r)) = snd (scan_documents init sf r)
        <-> NoDup (map fst (entries sf (walk r))))).
  { intros sf r. rewrite scan_documents_entries. simpl.
    destruct (length_store_all _ _ optstr_eq_dec (entries sf (walk r)) init)
      as [Hle Heq].
    simpl in Hle, Heq. unfold store. split; [reflexivity|]. split; [exact Hle|].
    rewrite Heq. split; [tauto|]. intros ND. split; [assumption | tauto]. }
  intros sf r versions count. subst versions count.
  destruct (Hscan sf r) as (H1 & H2 & H3).
  repeat split; try assumption; try apply H3.
  all: unfold Integration.capture_policy_snapshot in H;
    destruct (scan_documents init (Some (lit "active")) r) as [ex cnt] eqn:Hs;
    destruct (Integration.snapshot_file _); [|discriminate];
    inversion H; subst; clear H; simpl;
    destruct (Hscan (Some (lit "active")) r) as (A1 & A2 & A3);
    rewrite Hs in A1, A2, A3; simpl in A1, A2, A3;
    unfold to_simple_dict; rewrite ?length_map; try assumption; try apply A3.
Qed.

Lemma count_bounds_versions_witness :
  let r := {| docs := Some [Sample.retention];
              plans := Some [Sample.retention_copy] |} in
  let d := {| Integration.policy_snapshot_json := None;
              Integration.ledger_jsonl := [];
              Integration.metadata_json := None |} in
  exists d' snapshot,
    Integration.capture_policy_snapshot (lit "R1") (lit "2024-01-01T00:00:00") r d
    = Some (d', snapshot)
    /\ length (Integration.active_policies snapshot)
       <= Integration.policy_count snapshot.
Proof.
  intros r d.
  destruct (Integration.capture_policy_snapshot (lit "R1")
              (lit "2024-01-01T00:00:00") r d) as [[d' snapshot]|] eqn:Hc;
    [|vm_compute in Hc; discriminate Hc].
  exists d', snapshot. split; [reflexivity|].
  exact (proj1 (proj2 (proj2 (proj2 (proj2
           (count_bounds_versions (Some (lit "active")) r)))
           (lit "R1") (lit "2024-01-01T00:00:00") d d' snapshot Hc))).
Defined.

(** On an extractor that has scanned before, the count bounds the growth of
    [versions], not its size. *)
Lemma count_bounds_growth (versions0 : State) (status_filter : option str)
  (r : Repo) :
  length (fst (scan_documents versions0 status_filter r))
  <= length versions0 + snd (scan_documents versions0 status_filter r).
Proof.
  rewrite scan_documents_entries. simpl.
  exact (proj1 (length_store_all _ _ optstr_eq_dec
                  (entries status_filter (walk r)) versions0)).
Qed.

End Count.

(* ------------------------------------------------------------------ *)
(** ** Finalizing a run *)

Section Finalize.
Import PyStr Tree Json Integration.

Lemma initialize_run_metadata (rid now1 now2 : str) (r : Repo) (d0 d1 : RunDir) :
  initialize_run rid now1 now2 r d0 = Some d1 ->
  exists policies count,
    metadata_json d1
    = Some (JObj [ (lit "run_id", JStr rid);
                   (lit "start_time", JStr (stamp now2));
                   (lit "policies_in_force", policies);
                   (lit "policy_count", JInt count) ]).
Proof.
  unfold initialize_run.
  destruct (capture_policy_snapshot rid now1 r d0) as [[d snapshot]|];
    [|discriminate].
  intros H; inversion H; subst; clear H. simpl.
  eexists _, _. reflexivity.
Qed.

(** C8.  Let the metadata file of a run be the one [initialize_run] wrote
    (the ledger may have grown since).  Then [finalize_run] returns, the
    metadata file afterwards holds the four members [run_id], [start_time],
    [policies_in_force], [policy_count] with the values they had, followed by
    [end_time] and [success] and nothing else, the ledger is the old ledger
    with one [run_complete] event appended, and the snapshot file is the
    same as before. *)
Theorem finalize_run_frame :
  forall (rid now1 now2 now : str) (success : bool) (r : Repo)
         (d0 d1 d : RunDir),
    initialize_run rid now1 now2 r d0 = Some d1 ->
    metadata_json d = metadata_json d1 ->
    exists run start policies count,
      metadata_json d
      = Some (JObj [ (lit "run_id", run);
                     (lit "start_time", start);
                     (lit "policies_in_force", policies);
                     (lit "policy_count", count) ])
      /\ finalize_run rid success now d
         = Some {| policy_snapshot_json := policy_snapshot_json d;
                   ledger_jsonl :=
                     ledger_jsonl d
                     ++ [JObj [ (lit "run_id", JStr rid);
                                (lit "timestamp", JStr (stamp now));
                                (lit "event", JStr (lit "run_complete"));
                                (lit "success", JBool success) ]];
                   metadata_json :=
                     Some (JObj [ (lit "run_id", run);
                                  (lit "start_time", start);
                                  (lit "policies_in_force", policies);
                                  (lit "policy_count", count);
                                  (lit "end_time", JStr (stamp now));
                                  (lit "success", JBool success) ]) |}.
Proof.
  intros rid now1 now2 now success r d0 d1 d Hinit Hsame.
  destruct (initialize_run_metadata rid now1 now2 r d0 d1 Hinit)
    as (policies & count & Hm).
  exists (JStr rid), (JStr (stamp now2)), policies, (JInt count).
  rewrite Hsame, Hm. split; [reflexivity|].
  unfold finalize_run. rewrite Hsame, Hm. reflexivity.
Qed.

Lemma finalize_run_frame_witness :
  let r := {| docs := Some [Sample.retention]; plans := None |} in
  let d0 := {| policy_snapshot_json := None; ledger_jsonl := [];
               metadata_json := None |} in
  exists d1 d2,
    initialize_run (lit "R1") (lit "2024-01-01T00:00:00")
      (lit "2024-01-01T00:00:01") r d0 = Some d1
    /\ finalize_run (lit "R1") true (lit "2024-01-01T00:05:00") d1 = Some d2
    /\ length (ledger_jsonl d2) = S (length (ledger_jsonl d1)).
Proof.
  intros r d0.
  destruct (initialize_run (lit "R1") (lit "2024-01-01T00:00:00")
              (lit "2024-01-01T00:00:01") r d0) as [d1|] eqn:Hinit;
    [|vm_compute in Hinit; discriminate Hinit].
  destruct (finalize_run_frame (lit "R1") (lit "2024-01-01T00:00:00")
              (lit "2024-01-01T00:00:01") (lit "2024-01-01T00:05:00") true
              r d0 d1 d1 Hinit eq_refl)
    as (run & start & policies & count & Hm & Hf).
  exists d1. eexists. split; [reflexivity|]. split; [exact Hf|].
  simpl. rewrite length_app. simpl. lia.
Defined.

End Finalize.

(* ------------------------------------------------------------------ *)
(** ** Strings: stripping and splitting *)

Module StrFacts.
Import PyStr.

Lemma eqb_true (a b : char) : N.eqb a b = true <-> a = b.
Proof. apply N.eqb_eq. Qed.

Lemma contains_char (c : char) (s : str) :
  contains [c] s = true <-> In c s.
Proof.
  induction s as [|x s IH]; simpl.
  - split; [discriminate | contradiction].
  - rewrite orb_true_iff, andb_true_r, eqb_true, IH. intuition.
Qed.

Lemma in_first (c : char) (s : str) :
  In c s -> exists a b, s = a ++ c :: b /\ ~ In c a.
Proof.
  induction s as [|x s IH]; [contradiction|].
  intros Hin. destruct (N.eq_dec x c) as [E|N].
  - subst. exists [], s. auto.
  - destruct Hin as [E|Hin]; [contradiction|].
    destruct (IH Hin) as (a & b & Hs & Ha).
    exists (x :: a), b. subst s. split; [reflexivity|].
    intros [E|I]; auto.
Qed.

Lemma split_none_left (sep s : str) :
  split_go sep 0 (Some 0) s = [s].
Proof.
  induction s as [|c s IH]; [reflexivity|].
  cbn [split_go can_split andb]. rewrite IH. reflexivity.
Qed.

(** Splitting once on a character cuts at its first occurrence. *)
Lemma split_first (c : char) (a b : str) :
  ~ In c a -> split [c] (Some 1) (a ++ c :: b) = [a; b].
Proof.
  unfold split. induction a as [|x a IH]; intros Hn.
  - cbn [app split_go can_split startswith andb length Nat.sub one_less
         option_map Nat.pred].
    rewrite N.eqb_refl. cbn [andb]. rewrite split_none_left. reflexivity.
  - cbn [app split_go can_split startswith andb].
    assert (Hx : N.eqb c x = false).
    { apply N.eqb_neq. intros E. apply Hn. left. auto. }
    rewrite Hx. cbn [andb]. rewrite IH; [reflexivity|].
    intros I. apply Hn. right. exact I.
Qed.

(** Splitting on the newline yields lines without a newline. *)
Lemma split_lines_no_nl (s : str) :
  Forall (fun l => ~ In nl l) (split [nl] None s).
Proof.
  unfold split. induction s as [|x s IH].
  - repeat constructor. auto.
  - cbn [split_go can_split startswith andb length Nat.sub one_less option_map].
    rewrite andb_true_r.
    destruct (N.eqb nl x) eqn:E.
    + constructor; [auto | exact IH].
    + destruct (split_go [nl] 0 None s) as [|p ps].
      * repeat constructor. intros [H|[]]. subst.
        rewrite N.eqb_refl in E. discriminate.
      * inversion IH; subst. constructor; [|assumption].
        intros [H|H]; [|contradiction]. subst.
        rewrite N.eqb_refl in E. discriminate.
Qed.

Section Strip.
Variable p : char -> bool.

Lemma lstrip_by_stop (a b : str) (c : char) :
  p c = false -> lstrip_by p (a ++ c :: b) = lstrip_by p a ++ c :: b.
Proof.
  intros Hc. induction a as [|x a IH]; simpl.
  - now rewrite Hc.
  - destruct (p x); [exact IH | reflexivity].
Qed.

Lemma rstrip_by_keep (c : char) (s : str) :
  p c = false -> rstrip_by p (c :: s) = c :: rstrip_by p s.
Proof.
  intros Hc. simpl. destruct (rstrip_by p s); [now rewrite Hc | reflexivity].
Qed.

Lemma rstrip_by_nonempty (c : char) (s : str) :
  rstrip_by p s <> [] -> rstrip_by p (c :: s) = c :: rstrip_by p s.
Proof.
  intros H. simpl. destruct (rstrip_by p s); [congruence | reflexivity].
Qed.

Lemma rstrip_by_stop (a b : str) (c : char) :
  p c = false -> rstrip_by p (a ++ c :: b) = a ++ c :: rstrip_by p b.
Proof.
  intros Hc. induction a as [|x a IH].
  - simpl app. now apply rstrip_by_keep.
  - cbn [app]. rewrite rstrip_by_nonempty; rewrite IH; [reflexivity|].
    destruct a; discriminate.
Qed.

Lemma lstrip_by_idem (s : str) :
  lstrip_by p (lstrip_by p s) = lstrip_by p s.
Proof.
  induction s as [|x s IH]; simpl; [reflexivity|].
  destruct (p x) eqn:E; [exact IH | simpl; now rewrite E].
Qed.

Lemma rstrip_by_idem (s : str) :
  rstrip_by p (rstrip_by p s) = rstrip_by p s.
Proof.
  induction s as [|x s IH]; [reflexivity|].
  cbn [rstrip_by]. destruct (rstrip_by p s) as [|y r] eqn:E.
  - destruct (p x) eqn:Ex; simpl; [reflexivity | now rewrite Ex].
  - rewrite rstrip_by_nonempty; rewrite IH; [reflexivity | discriminate].
Qed.

Lemma strip_swap (s : str) :
  lstrip_by p (rstrip_by p s) = rstrip_by p (lstrip_by p s).
Proof.
  induction s as [|x s IH]; [reflexivity|].
  cbn [lstrip_by]. destruct (p x) eqn:Ex.
  - rewrite <- IH. cbn [rstrip_by].
    destruct (rstrip_by p s) as [|y r]; [now rewrite Ex|].
    cbn [lstrip_by]. now rewrite Ex.
  - rewrite rstrip_by_keep by assumption. simpl. now rewrite Ex.
Qed.

Lemma strip_by_lstrip (s : str) :
  strip_by p (lstrip_by p s) = strip_by p s.
Proof. unfold strip_by. now rewrite lstrip_by_idem. Qed.

Lemma strip_by_rstrip (s : str) :
  strip_by p (rstrip_by p s) = strip_by p s.
Proof. unfold strip_by. now rewrite strip_swap, rstrip_by_idem. Qed.

Lemma in_lstrip_by (c : char) (s : str) :
  In c (lstrip_by p s) -> In c s.
Proof.
  induction s as [|x s IH]; simpl; [auto|].
  destruct (p x); [auto | simpl; auto].
Qed.

Lemma in_rstrip_by (c : char) (s : str) :
  In c (rstrip_by p s) -> In c s.
Proof.
  induction s as [|x s IH]; simpl; [auto|].
  destruct (rstrip_by p s) as [|y r].
  - destruct (p x); simpl; tauto.
  - simpl. intros [E|I]; [auto | right; apply IH; exact I].
Qed.

Lemma in_strip_by (c : char) (s : str) :
  In c (strip_by p s) -> In c s.
Proof. intros H. now apply in_lstrip_by, in_rstrip_by. Qed.

(** [strip] leaves alone a text whose two ends are kept. *)
Lemma lstrip_by_head (x : char) (s : str) :
  p x = false -> lstrip_by p (x :: s) = x :: s.
Proof. intros H. simpl. now rewrite H. Qed.

Lemma rstrip_by_last (s : str) (x : char) :
  p x = false -> rstrip_by p (s ++ [x]) = s ++ [x].
Proof.
  intros H. induction s as [|y s IH].
  - simpl. now rewrite H.
  - cbn [app]. rewrite rstrip_by_nonempty; rewrite IH; [reflexivity|].
    destruct s; discriminate.
Qed.

End Strip.

Lemma in_slice (c : char) (s : str) : In c (slice_1_m1 s) -> In c s.
Proof.
  unfold slice_1_m1. destruct s as [|x s]; [auto|]. simpl.
  intros H. right. revert H. induction s as [|y s IH]; [auto|].
  simpl. destruct s; [contradiction|]. intros [E|I]; [left; auto | right; auto].
Qed.

Lemma isspace_colon : isspace colon = false.
Proof. reflexivity. Qed.

(** The key and the trimmed raw value of a line, as both parsers see them. *)
Lemma strip_line_parts (a b : str) :
  strip (a ++ colon :: b) = lstrip_by isspace a ++ colon :: rstrip_by isspace b.
Proof.
  unfold strip, strip_by.
  rewrite (lstrip_by_stop isspace a b colon isspace_colon).
  apply rstrip_by_stop. exact isspace_colon.
Qed.

End StrFacts.

(* ------------------------------------------------------------------ *)
(** ** One line of a header block *)

Module LineFacts.
Import PyStr StrFacts.

Lemma lower_full_cons (c : char) : exists x r, lower_full c = x :: r.
Proof.
  unfold lower_full. destruct (c =? 0x130)%N; [eauto|].
  destruct (find _ Unicode.Lowercase_Mapping)
    as [[[[first last] step] image]|]; eauto.
Qed.

Lemma lower_chunk_cons (before s : str) (c : char) :
  exists x r, lower_from before (c :: s) = x :: r.
Proof.
  cbn [lower_from]. destruct (c =? capital_sigma)%N.
  - eexists _, _. reflexivity.
  - destruct (lower_full_cons c) as (x & r & ->). eexists _, _. reflexivity.
Qed.

Lemma lower_from_nil (before s : str) : lower_from before s = [] -> s = [].
Proof.
  destruct s as [|c s]; [reflexivity|].
  destruct (lower_chunk_cons before s c) as (x & r & ->). discriminate.
Qed.

(** No character of the table has the tilde or a character next to it as
    its image. *)
Lemma images_off_tilde :
  forallb (fun r : N * N * N * N =>
             let '(first, last, _, image) := r in
             ((126 <? image) || (image + (last - first) <? 126))%N)
    Unicode.Lowercase_Mapping = true.
Proof. vm_compute. reflexivity. Qed.

Lemma lower_full_tilde (c : char) : lower_full c = [126%N] -> c = 126%N.
Proof.
  unfold lower_full. destruct (c =? 0x130)%N; [discriminate|].
  destruct (find _ Unicode.Lowercase_Mapping)
    as [[[[first last] step] image]|] eqn:F.
  - apply find_some in F. destruct F as [Hin Hrun].
    pose proof images_off_tilde as T. rewrite forallb_forall in T.
    specialize (T _ Hin). cbv beta iota in T.
    unfold in_run in Hrun.
    apply andb_true_iff in Hrun. destruct Hrun as [Hrun _].
    apply andb_true_iff in Hrun. destruct Hrun as [H1 H2].
    apply N.leb_le in H1, H2. intros [= E]. exfalso.
    apply orb_true_iff in T. destruct T as [T|T]; apply N.ltb_lt in T; lia.
  - intros [= E]. exact E.
Qed.

Lemma lower_tilde (s : str) : lower s = lit "~" -> s = lit "~".
Proof.
  unfold lower. destruct s as [|c s]; [discriminate|].
  cbn [lower_from]. change (lit "~") with [126%N]. intros H.
  assert (Hs : s = [] /\ (if (c =? capital_sigma)%N
                          then [if cased_next [] && negb (cased_next s)
                                then 962%N else 963%N]
                          else lower_full c) = [126%N]).
  { revert H. destruct (c =? capital_sigma)%N.
    - cbn [app]. destruct (cased_next [] && negb (cased_next s));
        intros H; discriminate H.
    - destruct (lower_full_cons c) as (x & r & E). rewrite E.
      destruct r as [|y r]; cbn [app]; intros H.
      + injection H as Hx Hl. apply lower_from_nil in Hl. subst. auto.
      + destruct (lower_chunk_cons [] [] y) as (? & ? & _).
        injection H as _ H. destruct r; discriminate H. }
  destruct Hs as [-> Hc]. destruct (c =? capital_sigma)%N.
  - destruct (cased_next [] && negb (cased_next [])); discriminate Hc.
  - apply lower_full_tilde in Hc. now subst.
Qed.

Lemma null_words_text (s : str) :
  In (lower s) [lit "null"; lit "~"; lit ""] <-> null_text s.
Proof.
  unfold null_text. cbn [In]. split.
  - intros [H|[H|[H|[]]]].
    + left. auto.
    + right. left. apply lower_tilde. auto.
    + right. right. apply (lower_from_nil [] s). auto.
  - intros [H|[H|H]]; subst; auto.
Qed.

Lemma stored_builder (s : str) : stored s (Builder.null_or s).
Proof.
  unfold stored, Builder.null_or, Builder.null_words.
  destruct (in_dec str_eq_dec (lower s) [lit "null"; lit "~"; lit ""]) as [H|H];
    rewrite null_words_text in H; auto.
Qed.

Lemma stored_extractor (s : str) : stored s (Extractor.null_or s).
Proof. exact (stored_builder s). Qed.

Lemma endswith_last (q x : char) (s : str) :
  endswith [q] (s ++ [x]) = N.eqb q x.
Proof.
  unfold endswith. rewrite rev_app_distr. simpl. apply andb_true_r.
Qed.

(** A text that starts and ends with [q] is [q] alone or wrapped in [q]. *)
Lemma both_ends (q : char) (value : str) :
  startswith [q] value && endswith [q] value = true ->
  value = [q] \/ exists inner, value = q :: inner ++ [q].
Proof.
  destruct value as [|x rest]; [discriminate|].
  simpl startswith. rewrite andb_true_r, andb_true_iff, eqb_true.
  intros [-> He].
  destruct rest as [|r rest']; [left; reflexivity|]. right.
  destruct (@exists_last _ (r :: rest')) as [inner [y E]]; [discriminate|].
  rewrite E in He |- *.
  rewrite app_comm_cons, endswith_last, eqb_true in He. subst y.
  exists inner. reflexivity.
Qed.

Lemma slice_wrapped (q : char) (inner : str) :
  slice_1_m1 (q :: inner ++ [q]) = inner.
Proof. unfold slice_1_m1. simpl. apply removelast_last. Qed.

Lemma unquote_wrapped (value inner : str) :
  wrapped value inner -> Builder.unquote value = inner.
Proof.
  intros (q & Hq & ->). unfold Builder.unquote.
  assert (Hends : startswith [q] (q :: inner ++ [q])
                  && endswith [q] (q :: inner ++ [q]) = true).
  { simpl startswith. rewrite N.eqb_refl, app_comm_cons, endswith_last.
    now rewrite N.eqb_refl. }
  destruct Hq as [-> | ->].
  - rewrite Hends. apply slice_wrapped.
  - replace (startswith [dquote] (squote :: inner ++ [squote])) with false
      by reflexivity.
    cbn [andb]. rewrite Hends. apply slice_wrapped.
Qed.

Lemma unquote_plain (value : str) :
  (forall inner, ~ wrapped value inner) -> ~ lone_quote value ->
  Builder.unquote value = value.
Proof.
  intros Hw Hl. unfold Builder.unquote.
  destruct (startswith [dquote] value && endswith [dquote] value) eqn:Hd.
  - exfalso. apply both_ends in Hd. destruct Hd as [E|[inner E]].
    + apply Hl. exists dquote. split; [left; reflexivity | exact E].
    + apply (Hw inner). exists dquote. split; [left; reflexivity | exact E].
  - destruct (startswith [squote] value && endswith [squote] value) eqn:Hs;
      [|reflexivity].
    exfalso. apply both_ends in Hs. destruct Hs as [E|[inner E]].
    + apply Hl. exists squote. split; [right; reflexivity | exact E].
    + apply (Hw inner). exists squote. split; [right; reflexivity | exact E].
Qed.

(** What each parser makes of a line with a colon, and of one without. *)
Lemma builder_line (k v : str) :
  ~ In colon k ->
  Builder.parse_line (k ++ colon :: v)
  = Some (strip k, Builder.null_or (Builder.unquote (strip v))).
Proof.
  intros Hk. unfold Builder.parse_line. rewrite strip_line_parts.
  assert (Hc : contains [colon]
                 (lstrip_by isspace k ++ colon :: rstrip_by isspace v) = true)
    by (apply contains_char, in_or_app; right; left; reflexivity).
  rewrite Hc, split_first
    by (intros I; apply Hk; eapply in_lstrip_by; exact I).
  unfold strip. now rewrite strip_by_lstrip, strip_by_rstrip.
Qed.

Lemma extractor_line (k v : str) :
  ~ In colon k ->
  Extractor.parse_line (k ++ colon :: v)
  = Some (strip k, Extractor.null_or (Extractor.unquote (strip v))).
Proof.
  intros Hk. unfold Extractor.parse_line.
  assert (Hc : contains [colon] (k ++ colon :: v) = true)
    by (apply contains_char, in_or_app; right; left; reflexivity).
  rewrite Hc, split_first by assumption. reflexivity.
Qed.

Lemma builder_line_none (line : str) :
  ~ In colon line -> Builder.parse_line line = None.
Proof.
  intros H. unfold Builder.parse_line.
  destruct (contains [colon] (strip line)) eqn:Hc; [|reflexivity].
  exfalso. apply H. apply contains_char in Hc.
  eapply in_strip_by. exact Hc.
Qed.

Lemma extractor_line_none (line : str) :
  ~ In colon line -> Extractor.parse_line line = None.
Proof.
  intros H. unfold Extractor.parse_line.
  destruct (contains [colon] line) eqn:Hc; [|reflexivity].
  exfalso. apply H. now apply contains_char.
Qed.

End LineFacts.

Section LineRule.
Import PyStr StrFacts LineFacts.

(** C4, at the line made of [title: ], a double quote and [draft].  The
    value opens with a quote that nothing closes, so it is not wrapped and
    the rule stores it unchanged.  The builder's parser does; the parser of
    the Version Extractor stores [draft], and so does not follow the rule. *)
Lemma extractor_strips_unmatched_quote :
  Extractor.parse_line (lit "title: " ++ dquote :: lit "draft")
  = Some (lit "title", Some (lit "draft"))
  /\ Builder.parse_line (lit "title: " ++ dquote :: lit "draft")
     = Some (lit "title", Some (dquote :: lit "draft"))
  /\ ~ one_layer_rule Extractor.parse_line.
Proof.
  split; [reflexivity|]. split; [reflexivity|].
  intros H.
  destruct (H (lit "title") (lit " " ++ dquote :: lit "draft"))
    as (shown & Hp & _ & Hplain).
  { vm_compute. intuition discriminate. }
  vm_compute in Hp. inversion Hp; subst shown; clear Hp.
  assert (Hs : stored (strip (lit " " ++ dquote :: lit "draft"))
                 (Some (lit "draft"))).
  { apply Hplain. intros inner (q & _ & E).
    vm_compute in E. injection E as Hq Hi. subst q.
    apply (f_equal (@rev char)) in Hi. rewrite rev_app_distr in Hi.
    simpl in Hi. discriminate Hi. }
  destruct Hs as [[_ E]|[_ E]]; [discriminate E|].
  vm_compute in E. discriminate E.
Qed.

(** A value that is one quote character alone starts and ends with it; the
    builder's parser takes it for a wrapped empty text and stores null,
    where the rule stores the character. *)
Lemma builder_lone_quote :
  Builder.parse_line (lit "title: " ++ [dquote]) = Some (lit "title", None).
Proof. reflexivity. Qed.

(** X18.  What does hold line by line.  For a line [k : v] whose first colon is
    the one shown, both parsers store under the trimmed key.  The Registry Builder's parser
    strips one layer of quotes when the trimmed value is wrapped in a
    matching pair and leaves the value as it is when it is neither wrapped
    nor a lone quote character.  The Version Extractor's parser instead
    removes every leading and trailing double quote and then every leading
    and trailing single quote.  Both store an explicit null when the
    resulting text is, case-insensitively, [null], the tilde or empty, and
    the text itself otherwise. *)
Theorem header_line_rule :
  forall k v : str,
    ~ In colon k ->
    (exists shown,
        Builder.parse_line (k ++ colon :: v) = Some (strip k, shown)
        /\ (forall inner, wrapped (strip v) inner -> stored inner shown)
        /\ ((forall inner, ~ wrapped (strip v) inner) ->
            ~ lone_quote (strip v) -> stored (strip v) shown))
    /\ (exists shown,
          Extractor.parse_line (k ++ colon :: v) = Some (strip k, shown)
          /\ stored (strip_chars [squote] (strip_chars [dquote] (strip v)))
               shown).
Proof.
  intros k v Hk. split.
  - exists (Builder.null_or (Builder.unquote (strip v))).
    split; [now apply builder_line|]. split.
    + intros inner Hw. rewrite (unquote_wrapped _ _ Hw). apply stored_builder.
    + intros Hw Hl. rewrite (unquote_plain _ Hw Hl). apply stored_builder.
  - exists (Extractor.null_or (Extractor.unquote (strip v))).
    split; [now apply extractor_line|]. apply stored_extractor.
Qed.

Lemma header_line_rule_witness :
  exists shown,
    Builder.parse_line (lit "owner " ++ colon :: lit " 'platform-team' ")
    = Some (strip (lit "owner "), shown)
    /\ stored (lit "platform-team") shown.
Proof.
  assert (Hk : ~ In colon (lit "owner "))
    by (vm_compute; intuition discriminate).
  destruct (proj1 (header_line_rule (lit "owner ") (lit " 'platform-team' ") Hk))
    as (shown & Hp & Hw & _).
  exists shown. split; [exact Hp|].
  apply Hw. exists squote. split; [right; reflexivity | reflexivity].
Defined.

End LineRule.

(* ------------------------------------------------------------------ *)
(** ** The two header parsers side by side *)

Module ParserFacts.
Import PyStr StrFacts LineFacts.

Lemma raw_value_line (k v : str) :
  ~ In colon k -> raw_value (k ++ colon :: v) = Some (strip v).
Proof.
  intros Hk. unfold raw_value.
  assert (Hc : contains [colon] (k ++ colon :: v) = true)
    by (apply contains_char, in_or_app; right; left; reflexivity).
  rewrite Hc, split_first by assumption. reflexivity.
Qed.

Lemma in_chars_one (q c : char) : in_chars [q] c = true <-> c = q.
Proof.
  unfold in_chars. simpl. rewrite orb_false_r. apply eqb_true.
Qed.

Lemma in_chars_other (q c : char) : c <> q -> in_chars [q] c = false.
Proof.
  intros H. destruct (in_chars [q] c) eqn:E; [|reflexivity].
  apply in_chars_one in E. contradiction.
Qed.

Lemma strip_by_ends (p : char -> bool) (s : str) :
  (forall x t, s = x :: t -> p x = false) ->
  (forall t y, s = t ++ [y] -> p y = false) ->
  strip_by p s = s.
Proof.
  intros Hh Hl. unfold strip_by. destruct s as [|x t]; [reflexivity|].
  rewrite lstrip_by_head by (eapply Hh; reflexivity).
  destruct (@exists_last _ (x :: t)) as [t' [y E]]; [discriminate|].
  rewrite E. apply rstrip_by_last. eapply Hl. exact E.
Qed.

Lemma rstrip_by_drop (p : char -> bool) (s : str) (c : char) :
  p c = true -> rstrip_by p (s ++ [c]) = rstrip_by p s.
Proof.
  intros Hc. induction s as [|x s IH]; simpl.
  - now rewrite Hc.
  - now rewrite IH.
Qed.

Lemma strip_by_wrapped (p : char -> bool) (q : char) (inner : str) :
  p q = true -> strip_by p (q :: inner ++ [q]) = strip_by p inner.
Proof.
  intros Hq. unfold strip_by. cbn [lstrip_by]. rewrite Hq.
  rewrite <- !strip_swap. now rewrite rstrip_by_drop.
Qed.

Lemma strip_chars_bare (q : char) (s : str) :
  is_quote q -> bare s -> strip_chars [q] s = s.
Proof.
  intros Hq Hb. apply strip_by_ends.
  - intros x t E. apply in_chars_other. intros ->.
    exact (proj1 (Hb q Hq) t E).
  - intros t y E. apply in_chars_other. intros ->.
    exact (proj2 (Hb q Hq) t E).
Qed.

Lemma is_quote_dquote : is_quote dquote.
Proof. left. reflexivity. Qed.

Lemma is_quote_squote : is_quote squote.
Proof. right. reflexivity. Qed.

Lemma extractor_unquote_bare (s : str) :
  bare s -> Extractor.unquote s = s.
Proof.
  intros Hb. unfold Extractor.unquote.
  rewrite (strip_chars_bare dquote s is_quote_dquote Hb).
  apply strip_chars_bare; [exact is_quote_squote | exact Hb].
Qed.

Lemma builder_unquote_bare (s : str) :
  bare s -> Builder.unquote s = s.
Proof.
  intros Hb. apply unquote_plain.
  - intros inner (q & Hq & E). exact (proj1 (Hb q Hq) _ E).
  - intros (q & Hq & E). exact (proj1 (Hb q Hq) _ E).
Qed.

Lemma extractor_unquote_wrapped (value inner : str) :
  wrapped value inner -> bare inner -> Extractor.unquote value = inner.
Proof.
  intros (q & Hq & ->) Hb. unfold Extractor.unquote, strip_chars.
  destruct Hq as [-> | ->].
  - rewrite strip_by_wrapped by reflexivity.
    fold (strip_chars [dquote] inner).
    rewrite (strip_chars_bare dquote inner is_quote_dquote Hb).
    apply strip_chars_bare; [exact is_quote_squote | exact Hb].
  - rewrite (strip_by_ends (in_chars [dquote])).
    + rewrite strip_by_wrapped by reflexivity.
      apply strip_chars_bare; [exact is_quote_squote | exact Hb].
    + intros x t E. inversion E; subst. reflexivity.
    + intros t y E. rewrite app_comm_cons in E.
      apply app_inj_tail in E. destruct E as [_ <-]. reflexivity.
Qed.

Lemma unquote_agree (value : str) :
  plain_quoting value -> Builder.unquote value = Extractor.unquote value.
Proof.
  intros [Hb | (inner & Hw & Hb)].
  - now rewrite builder_unquote_bare, extractor_unquote_bare.
  - now rewrite (unquote_wrapped _ _ Hw), (extractor_unquote_wrapped _ _ Hw Hb).
Qed.

(** Line by line: the same key always, the same value on plain quoting. *)
Lemma parse_line_keys (line : str) :
  option_map fst (Builder.parse_line line)
  = option_map fst (Extractor.parse_line line).
Proof.
  destruct (in_dec N.eq_dec colon line) as [Hin|Hn].
  - destruct (in_first colon line Hin) as (k & v & -> & Hk).
    now rewrite builder_line, extractor_line.
  - now rewrite builder_line_none, extractor_line_none.
Qed.

Lemma parse_line_agree (line : str) :
  (forall v, raw_value line = Some v -> plain_quoting v) ->
  Builder.parse_line line = Extractor.parse_line line.
Proof.
  intros H. destruct (in_dec N.eq_dec colon line) as [Hin|Hn].
  - destruct (in_first colon line Hin) as (k & v & -> & Hk).
    rewrite builder_line, extractor_line by assumption.
    rewrite (unquote_agree (strip v)); [reflexivity|].
    apply H. now apply raw_value_line.
  - now rewrite builder_line_none, extractor_line_none.
Qed.

Lemma keys_set_eq (k : str) (v v' : option str) :
  forall d d' : PyDict.dict str (option str),
    PyDict.keys d = PyDict.keys d' ->
    PyDict.keys (PyDict.set str_eq_dec k v d)
    = PyDict.keys (PyDict.set str_eq_dec k v' d').
Proof.
  induction d as [|[k1 v1] d IH]; intros [|[k2 v2] d'] E; simpl in *;
    try discriminate; [reflexivity|].
  inversion E; subst.
  destruct (str_eq_dec k k2); simpl; [congruence|].
  f_equal. now apply IH.
Qed.

Lemma add_line_keys (line : str) (mb me : PyDict.dict str (option str)) :
  PyDict.keys mb = PyDict.keys me ->
  PyDict.keys (Builder.add_line mb line)
  = PyDict.keys (Extractor.add_line me line).
Proof.
  intros E. unfold Builder.add_line, Extractor.add_line.
  pose proof (parse_line_keys line) as Hk.
  destruct (Builder.parse_line line) as [[kb vb]|],
           (Extractor.parse_line line) as [[ke ve]|];
    simpl in Hk; try discriminate; [|assumption].
  inversion Hk; subst. now apply keys_set_eq.
Qed.

Lemma fold_lines_keys (lines : list str) :
  forall mb me : PyDict.dict str (option str),
    PyDict.keys mb = PyDict.keys me ->
    PyDict.keys (fold_left Builder.add_line lines mb)
    = PyDict.keys (fold_left Extractor.add_line lines me).
Proof.
  induction lines as [|l lines IH]; intros mb me E; simpl; [assumption|].
  apply IH. now apply add_line_keys.
Qed.

Lemma fold_lines_agree (lines : list str) :
  (forall line, In line lines ->
     Builder.parse_line line = Extractor.parse_line line) ->
  forall m, fold_left Builder.add_line lines m
            = fold_left Extractor.add_line lines m.
Proof.
  induction lines as [|l lines IH]; intros H m; simpl; [reflexivity|].
  assert (E : Builder.add_line m l = Extractor.add_line m l).
  { unfold Builder.add_line, Extractor.add_line.
    rewrite (H l) by (left; reflexivity). reflexivity. }
  rewrite E. apply IH. intros line Hin. apply H. right. exact Hin.
Qed.

End ParserFacts.

Section ParserEquivalence.
Import PyStr Tree StrFacts LineFacts ParserFacts.

(** C3, at the text [unbalanced_header]: the strict parse keeps the quote
    that opens the value, the lenient parse drops it, and the two mappings
    differ. *)
Lemma parsers_differ_on_unmatched_quote :
  Builder.parse_content unbalanced_header
  = Some [(lit "title", Some (dquote :: lit "draft"))]
  /\ Extractor.parse_content unbalanced_header
     = Some [(lit "title", Some (lit "draft"))]
  /\ Builder.parse_content unbalanced_header
     <> Extractor.parse_content unbalanced_header.
Proof.
  split; [reflexivity|]. split; [reflexivity|].
  vm_compute. intros H. discriminate H.
Qed.

(** X19.  How far the two parsers agree.  For every document text they return no
    mapping on the same texts and otherwise mappings with the same keys in
    the same order.  They return the same mapping whenever every value of the header
    block, once trimmed, has plain quoting: no quote character at either
    end, or one matching pair of quotes around a text with no quote
    character at either end.  A file that cannot be read gives no mapping
    in both, and a diagnostic in the builder only. *)
Theorem parsers_agree_on_plain_quoting :
  forall content : str,
    option_map (@PyDict.keys str (option str)) (Builder.parse_content content)
    = option_map (@PyDict.keys str (option str))
        (Extractor.parse_content content)
    /\ ((forall line v,
            In line (header_lines content) ->
            raw_value line = Some v -> plain_quoting v) ->
        Builder.parse_content content = Extractor.parse_content content)
    /\ forall (b : Builder.State) (f : File),
         (read_text f = inl content ->
          Builder.extract_frontmatter b f = (b, Builder.parse_content content)
          /\ Extractor.extract_frontmatter f = Extractor.parse_content content)
         /\ (forall e, read_text f = inr e ->
             snd (Builder.extract_frontmatter b f) = None
             /\ Extractor.extract_frontmatter f = None
             /\ Builder.errors (fst (Builder.extract_frontmatter b f))
                = Builder.errors b
                  ++ [lit "Cannot read " ++ file_path f ++ lit ": " ++ e]).
Proof.
  intros content. split; [|split].
  - unfold Builder.parse_content, Extractor.parse_content.
    destruct (negb (startswith (lit "---") content)); [reflexivity|].
    cbv zeta.
    destruct (length (split (lit "---") (Some 2) content) <? 3); [reflexivity|].
    pose proof (fold_lines_keys
      (split [nl] None (strip (nth 1 (split (lit "---") (Some 2) content) [])))
      [] [] eq_refl) as E.
    destruct (fold_left Builder.add_line _ []) as [|x xs],
             (fold_left Extractor.add_line _ []) as [|y ys];
      simpl in E; try discriminate E; [reflexivity|].
    simpl. f_equal. exact E.
  - intros H. unfold Builder.parse_content, Extractor.parse_content.
    unfold header_lines in H.
    destruct (negb (startswith (lit "---") content)); [reflexivity|].
    cbv zeta in H |- *.
    destruct (length (split (lit "---") (Some 2) content) <? 3); [reflexivity|].
    rewrite fold_lines_agree; [reflexivity|].
    intros line Hin. apply parse_line_agree. intros v Hv.
    now apply (H line v).
  - intros b f. split.
    + intros Hr. unfold Builder.extract_frontmatter,
        Extractor.extract_frontmatter. rewrite Hr. auto.
    + intros e Hr. unfold Builder.extract_frontmatter,
        Extractor.extract_frontmatter. rewrite Hr. simpl. auto.
Qed.

Lemma parsers_agree_on_plain_quoting_witness :
  let content := text ["---"; "doc_key: 'a'"; "---"] in
  Builder.parse_content content = Extractor.parse_content content.
Proof.
  intros content.
  apply (proj1 (proj2 (parsers_agree_on_plain_quoting content))).
  intros line v Hin Hr. vm_compute in Hin. destruct Hin as [<-|[]].
  vm_compute in Hr. inversion Hr; subst v; clear Hr.
  right. exists (lit "a"). split.
  - exists squote. split; [right; reflexivity | reflexivity].
  - intros q Hq. split; intros t E.
    + destruct Hq as [-> | ->]; discriminate E.
    + apply (f_equal (@rev char)) in E. rewrite rev_app_distr in E.
      destruct Hq as [-> | ->]; discriminate E.
Defined.

End ParserEquivalence.

(* ------------------------------------------------------------------ *)
(** ** The semver check of the Record Validator *)

Module SemverFacts.
Import PyStr Tree StrFacts LineFacts Builder.

Lemma lstrip_by_span (p : char -> bool) (s : str) :
  exists a, Forall (fun c => p c = true) a
            /\ s = a ++ lstrip_by p s /\ stops p (lstrip_by p s).
Proof.
  induction s as [|x s IH]; simpl.
  - exists []. simpl. auto.
  - destruct (p x) eqn:E.
    + destruct IH as (a & Ha & Hs & Hstop).
      exists (x :: a). split; [constructor; assumption|].
      split; [simpl; congruence | assumption].
    + exists []. simpl. auto.
Qed.

Lemma lstrip_by_all (p : char -> bool) (a r : str) :
  Forall (fun c => p c = true) a -> stops p r -> lstrip_by p (a ++ r) = r.
Proof.
  intros Ha Hr. induction Ha as [|x a Hx Ha IH]; simpl.
  - destruct r as [|y r]; [reflexivity|]. simpl in Hr |- *. now rewrite Hr.
  - now rewrite Hx.
Qed.

Lemma digits1_some (s r : str) :
  digits1 s = Some r -> exists a, digits a /\ s = a ++ r.
Proof.
  unfold digits1. destruct s as [|x s]; [discriminate|].
  destruct (isdigit x) eqn:Ex; [|discriminate].
  intros H; inversion H; subst; clear H.
  destruct (lstrip_by_span isdigit (x :: s)) as (a & Ha & Hs & _).
  exists a. split; [|exact Hs]. split; [|exact Ha].
  intros ->. simpl in Hs. rewrite Ex in Hs. simpl in Hs.
  apply (f_equal (@length char)) in Hs. simpl in Hs.
  pose proof (lstrip_by_span isdigit s) as (a' & _ & Hs' & _).
  apply (f_equal (@length char)) in Hs'. rewrite length_app in Hs'. lia.
Qed.

Lemma digits1_run (a r : str) :
  digits a -> stops isdigit r -> digits1 (a ++ r) = Some r.
Proof.
  intros [Hne Ha] Hr. unfold digits1.
  destruct a as [|x a]; [congruence|]. cbn [app].
  inversion Ha as [|? ? Hx Ha']; subst. rewrite Hx.
  f_equal. apply (lstrip_by_all isdigit (x :: a) r); assumption.
Qed.

Lemma a_dot_some (s r : str) : a_dot s = Some r -> s = dot :: r.
Proof.
  unfold a_dot. destruct s as [|x s]; [discriminate|].
  destruct (N.eqb x dot) eqn:E; [|discriminate].
  apply eqb_true in E. intros H; inversion H; subst. reflexivity.
Qed.

Lemma at_dollar_true (s : str) : at_dollar s = true -> s = [] \/ s = [nl].
Proof.
  destruct s as [|x [|y s]]; simpl; [auto | | discriminate].
  intros E. apply eqb_true in E. subst. auto.
Qed.

(** The pattern, read as a set of texts. *)
Lemma semver_match_spec (s : str) :
  semver_match s = true
  <-> exists a b c tail,
        digits a /\ digits b /\ digits c
        /\ (tail = [] \/ tail = [nl])
        /\ s = a ++ dot :: b ++ dot :: c ++ tail.
Proof.
  split.
  - unfold semver_match.
    destruct (digits1 s) as [r1|] eqn:H1; [|discriminate].
    destruct (a_dot r1) as [r2|] eqn:H2; [|discriminate].
    destruct (digits1 r2) as [r3|] eqn:H3; [|discriminate].
    destruct (a_dot r3) as [r4|] eqn:H4; [|discriminate].
    destruct (digits1 r4) as [r5|] eqn:H5; [|discriminate].
    intros H6.
    apply digits1_some in H1, H3, H5.
    apply a_dot_some in H2, H4. apply at_dollar_true in H6.
    destruct H1 as (a & Ha & ->), H3 as (b & Hb & ->), H5 as (c & Hc & ->).
    subst r1 r3. exists a, b, c, r5. auto 8.
  - intros (a & b & c & tail & Ha & Hb & Hc & Ht & ->).
    unfold semver_match.
    rewrite (digits1_run a (dot :: b ++ dot :: c ++ tail) Ha eq_refl).
    cbn [a_dot]. rewrite N.eqb_refl.
    rewrite (digits1_run b (dot :: c ++ tail) Hb eq_refl).
    cbn [a_dot]. rewrite N.eqb_refl.
    rewrite (digits1_run c tail Hc).
    + destruct Ht as [-> | ->]; reflexivity.
    + destruct Ht as [-> | ->]; simpl; auto.
Qed.

Lemma semver_match_shape (s : str) :
  ~ In nl s -> (semver_match s = true <-> semver_shape s).
Proof.
  intros Hn. rewrite semver_match_spec. split.
  - intros (a & b & c & tail & Ha & Hb & Hc & [-> | ->] & ->).
    + exists a, b, c. rewrite app_nil_r. auto 8.
    + exfalso. apply Hn. apply in_or_app. right. right.
      apply in_or_app. right. right. apply in_or_app. right. left. reflexivity.
  - intros (a & b & c & Ha & Hb & Hc & ->).
    exists a, b, c, []. rewrite app_nil_r. auto 8.
Qed.

Lemma in_unquote (c : char) (s : str) : In c (unquote s) -> In c s.
Proof.
  unfold unquote.
  destruct (startswith [dquote] s && endswith [dquote] s);
    [apply in_slice|].
  destruct (startswith [squote] s && endswith [squote] s);
    [apply in_slice | auto].
Qed.

Lemma parse_line_no_nl (line k : str) (v : option str) :
  ~ In nl line -> parse_line line = Some (k, v) -> no_nl v.
Proof.
  intros Hn Hp s ->.
  destruct (in_dec N.eq_dec colon line) as [Hin|Hc].
  - destruct (in_first colon line Hin) as (k0 & v0 & -> & Hk).
    rewrite builder_line in Hp by assumption.
    injection Hp as _ Hv. unfold null_or in Hv.
    destruct (in_dec str_eq_dec _ null_words); [discriminate|].
    inversion Hv; subst s. intros I. apply Hn.
    apply in_unquote, in_strip_by in I.
    apply in_or_app. right. right. exact I.
  - rewrite builder_line_none in Hp by assumption. discriminate.
Qed.

Lemma set_values (Q : option str -> Prop) (k : str) (v : option str) :
  forall d : Metadata,
    Forall (fun kv => Q (snd kv)) d -> Q v ->
    Forall (fun kv => Q (snd kv)) (PyDict.set str_eq_dec k v d).
Proof.
  induction d as [|[k' v'] d IH]; intros Hd Hv; simpl.
  - constructor; [exact Hv | constructor].
  - inversion Hd; subst.
    destruct (str_eq_dec k k'); constructor; auto.
Qed.

Lemma fold_lines_no_nl (lines : list str) :
  Forall (fun l => ~ In nl l) lines ->
  forall m : Metadata,
    Forall (fun kv => no_nl (snd kv)) m ->
    Forall (fun kv => no_nl (snd kv)) (fold_left add_line lines m).
Proof.
  induction 1 as [|l lines Hl _ IH]; intros m Hm; simpl; [assumption|].
  apply IH. unfold add_line.
  destruct (parse_line l) as [[k v]|] eqn:Hp; [|assumption].
  apply set_values; [assumption|]. now apply (parse_line_no_nl l k v).
Qed.

Lemma parse_content_no_nl (content : str) (metadata : Metadata) :
  parse_content content = Some metadata ->
  Forall (fun kv => no_nl (snd kv)) metadata.
Proof.
  unfold parse_content.
  destruct (negb (startswith (lit "---") content)); [discriminate|].
  cbv zeta.
  destruct (length (split (lit "---") (Some 2) content) <? 3); [discriminate|].
  pose proof (fold_lines_no_nl _ (split_lines_no_nl
    (strip (nth 1 (split (lit "---") (Some 2) content) []))) []
    (Forall_nil _)) as H.
  destruct (fold_left add_line _ []); [discriminate|].
  intros E; inversion E; subst. exact H.
Qed.

Lemma get_in (k : str) (v : option str) (d : Metadata) :
  PyDict.get str_eq_dec k d = Some v -> In (k, v) d.
Proof.
  induction d as [|[k' v'] d IH]; simpl; [discriminate|].
  destruct (str_eq_dec k k'); intros H.
  - inversion H; subst. left. reflexivity.
  - right. auto.
Qed.

Lemma getitem_no_nl (content : str) (metadata : Metadata) (k s : str) :
  parse_content content = Some metadata ->
  getitem k metadata = Some s -> ~ In nl s.
Proof.
  intros Hp Hg. unfold getitem in Hg.
  destruct (PyDict.get str_eq_dec k metadata) as [v|] eqn:E; [|discriminate].
  subst v. apply get_in in E.
  pose proof (parse_content_no_nl content metadata Hp) as HF.
  rewrite Forall_forall in HF. exact (HF _ E s eq_refl).
Qed.

Lemma no_missing_field (metadata : Metadata) (fld : str) :
  missing_fields metadata = [] -> In fld required_fields ->
  mem fld metadata = true.
Proof.
  unfold missing_fields. intros H Hin.
  destruct (mem fld metadata) eqn:E; [reflexivity|].
  assert (I : In fld (filter (fun f => negb (mem f metadata)) required_fields))
    by (apply filter_In; split; [assumption | now rewrite E]).
  rewrite H in I. contradiction.
Qed.

End SemverFacts.

Section SemverCheck.
Import PyStr Tree StrFacts Builder SemverFacts.

Lemma semver_match_ok (content : str) (metadata : Metadata) :
  parse_content content = Some metadata ->
  let v := getitem (lit "semver") metadata in
  semver_match (py_str v) = true <-> semver_ok v.
Proof.
  intros Hp v. subst v.
  destruct (getitem (lit "semver") metadata) as [s|] eqn:Hg; simpl.
  - rewrite (semver_match_shape s (getitem_no_nl content metadata _ s Hp Hg)).
    split.
    + intros H. exists s. auto.
    + intros (s' & E & H). inversion E; subst. exact H.
  - split; [intros H; vm_compute in H; discriminate H|].
    intros (s & E & _). discriminate E.
Qed.

Lemma not_semver_shape (s : str) :
  semver_match s = false -> ~ In nl s -> ~ semver_ok (Some s).
Proof.
  intros Hm Hn (s' & E & H). inversion E; subst s'.
  apply (semver_match_shape s Hn) in H. congruence.
Qed.

(** C5.  Take the mapping parsed from a readable document, with all six
    required fields present, and let [v] be its [semver] value.  The
    pattern test succeeds exactly when [v] is a string made of one or more
    digits, a dot, one or more digits, a dot and one or more digits.  When
    it is, validation goes on to the status and contract-type checks and
    their outcome is the outcome of validation.  When it is not, validation
    fails with the one message that names [v], the scan adds that message
    to the errors and leaves registry, duplicates and count as they were.
    The texts [1.0], [1.0.0-rc1] and [v1.0.0] are not of the shape.  A
    digit is a character of the class [\d] of the pattern, which on Python
    text is a decimal digit of any script: the version 1.0.0 written in
    fullwidth digits (U+FF11, U+FF10) is of the shape as well. *)
Theorem semver_check :
  forall (b : State) (n : nat) (f : File) (content : str) (metadata : Metadata),
    read_text f = inl content ->
    parse_content content = Some metadata ->
    missing_fields metadata = [] ->
    let v := getitem (lit "semver") metadata in
    let rejection :=
      file_path f ++ lit ": Invalid semver format '" ++ py_str v
      ++ lit "' (must be MAJOR.MINOR.PATCH)" in
    (semver_match (py_str v) = true <-> semver_ok v)
    /\ (semver_ok v ->
        validate_frontmatter b metadata f
        = if one_of (getitem (lit "status") metadata) valid_statuses
          then if one_of (getitem (lit "contract_type") metadata) valid_types
               then (b, true)
               else (add_error b
                       (msg_type f (getitem (lit "contract_type") metadata)),
                     false)
          else (add_error b (msg_status f (getitem (lit "status") metadata)),
                false))
    /\ (~ semver_ok v ->
        validate_frontmatter b metadata f = (add_error b rejection, false)
        /\ scan_file (b, n) f
           = ({| registry := registry b;
                 duplicates := duplicates b;
                 errors := errors b ++ [rejection] |}, n))
    /\ ~ semver_ok (Some (lit "1.0"))
    /\ ~ semver_ok (Some (lit "1.0.0-rc1"))
    /\ ~ semver_ok (Some (lit "v1.0.0"))
    /\ semver_ok (Some Sample.fullwidth_version).
Proof.
  intros b n f content metadata Hr Hp Hmiss v rejection.
  pose proof (semver_match_ok content metadata Hp) as Hiff.
  cbv zeta in Hiff. fold v in Hiff.
  split; [exact Hiff|]. split; [|split].
  - intros Hok. apply Hiff in Hok.
    unfold validate_frontmatter. rewrite Hmiss. fold v. rewrite Hok.
    cbn [negb].
    destruct (one_of (getitem (lit "status") metadata) valid_statuses);
      [|reflexivity].
    destruct (one_of (getitem (lit "contract_type") metadata) valid_types);
      reflexivity.
  - intros Hbad.
    assert (Hm : semver_match (py_str v) = false).
    { destruct (semver_match (py_str v)) eqn:E; [|reflexivity].
      exfalso. apply Hbad, Hiff. reflexivity. }
    assert (Hv : validate_frontmatter b metadata f
                 = (add_error b rejection, false)).
    { unfold validate_frontmatter. rewrite Hmiss. fold v. rewrite Hm.
      reflexivity. }
    split; [exact Hv|].
    unfold scan_file, extract_frontmatter. rewrite Hr, Hp.
    rewrite (no_missing_field metadata (lit "doc_key") Hmiss)
      by (left; reflexivity).
    cbn [negb]. rewrite Hv. reflexivity.
  - split; [|split; [|split]];
      try (apply not_semver_shape; try reflexivity;
           vm_compute; intuition discriminate).
    eexists. split; [reflexivity|].
    exists [0xFF11%N], [0xFF10%N], [0xFF10%N].
    repeat split; try discriminate; repeat constructor.
Qed.

Lemma semver_check_witness :
  exists rejection,
    scan_file (init, 0) Sample.retention_draft
    = ({| registry := []; duplicates := [];
          errors := [] ++ [rejection] |}, 0).
Proof.
  pose (content := text (Sample.header "policy.retention" "2.1")).
  destruct (parse_content content) as [metadata|] eqn:Hp;
    [|vm_compute in Hp; discriminate Hp].
  assert (Hmiss : missing_fields metadata = []).
  { vm_compute in Hp. inversion Hp; subst metadata. reflexivity. }
  destruct (semver_check init 0 Sample.retention_draft content metadata
              eq_refl Hp Hmiss) as (Hiff & _ & Hbad & _).
  eexists. apply Hbad. intros Hok. apply Hiff in Hok.
  vm_compute in Hp. inversion Hp; subst metadata.
  vm_compute in Hok. discriminate Hok.
Defined.

(** The scan registers the document whose version is written in fullwidth
    digits, with no error. *)
Example fullwidth_semver_registered :
  let b := fst (scan_documents init
                  {| docs := Some [Sample.fullwidth]; plans := None |}) in
  errors b = []
  /\ option_map semver
       (PyDict.get optstr_eq_dec (Some (lit "policy.fullwidth")) (registry b))
     = Some (Some Sample.fullwidth_version).
Proof. vm_compute. split; reflexivity. Qed.

End SemverCheck.

(* ------------------------------------------------------------------ *)
(** ** Writing the registry *)

Module SortFacts.
Import PyStr Json.

Ltac compare_codes :=
  repeat match goal with
         | |- context [(?n <? ?m)%N] => destruct (N.ltb_spec n m)
         | H : context [(?n <? ?m)%N] |- _ => destruct (N.ltb_spec n m)
         end.

Lemma str_leb_total (a : str) :
  forall b, str_leb a b = true \/ str_leb b a = true.
Proof.
  induction a as [|x a IH]; intros [|y b]; simpl; auto.
  compare_codes; auto; lia.
Qed.

Lemma str_leb_antisym (a : str) :
  forall b, str_leb a b = true -> str_leb b a = true -> a = b.
Proof.
  induction a as [|x a IH]; intros [|y b]; simpl; try discriminate; auto.
  compare_codes; try discriminate; try lia.
  intros Hab Hba. f_equal; [lia | now apply IH].
Qed.

Lemma str_leb_trans (a : str) :
  forall b c, str_leb a b = true -> str_leb b c = true -> str_leb a c = true.
Proof.
  induction a as [|x a IH]; intros [|y b] [|z c]; simpl;
    try discriminate; auto.
  compare_codes; try discriminate; try lia; auto.
  intros Hab Hbc. eapply IH; eassumption.
Qed.

Section Sorting.
Variable V : Type.

(** Insertions of items with different keys commute. *)
Lemma insert_sorted_comm (a b : str * V) :
  fst a <> fst b ->
  forall l, insert_sorted a (insert_sorted b l)
            = insert_sorted b (insert_sorted a l).
Proof.
  intros Hne.
  assert (Hex : str_leb (fst b) (fst a) = negb (str_leb (fst a) (fst b))).
  { destruct (str_leb (fst a) (fst b)) eqn:E1, (str_leb (fst b) (fst a)) eqn:E2;
      try reflexivity.
    - exfalso. apply Hne. now apply str_leb_antisym.
    - destruct (str_leb_total (fst a) (fst b)); congruence. }
  induction l as [|x l IH]; simpl.
  - rewrite Hex. destruct (str_leb (fst a) (fst b)); reflexivity.
  - destruct (str_leb (fst b) (fst x)) eqn:Hbx,
             (str_leb (fst a) (fst x)) eqn:Hax; simpl.
    + rewrite Hex.
      destruct (str_leb (fst a) (fst b)); simpl; rewrite ?Hbx, ?Hax;
        reflexivity.
    + assert (E : str_leb (fst a) (fst b) = false).
      { destruct (str_leb (fst a) (fst b)) eqn:E; [|reflexivity].
        rewrite (str_leb_trans _ _ _ E Hbx) in Hax. discriminate. }
      rewrite E. simpl. now rewrite Hax, Hbx.
    + assert (E : str_leb (fst b) (fst a) = false).
      { destruct (str_leb (fst b) (fst a)) eqn:E; [|reflexivity].
        rewrite (str_leb_trans _ _ _ E Hax) in Hbx. discriminate. }
      rewrite E. simpl. now rewrite Hax, Hbx.
    + rewrite Hax, Hbx. now rewrite IH.
Qed.

(** Sorting does not depend on the order of items with distinct keys. *)
Lemma sorted_items_perm (l1 l2 : list (str * V)) :
  Permutation l1 l2 -> NoDup (map fst l1) ->
  sorted_items l1 = sorted_items l2.
Proof.
  induction 1 as [|x l l' HP IH|x y l|l l' l'' HP1 IH1 HP2 IH2]; intros ND.
  - reflexivity.
  - simpl. inversion ND; subst. now rewrite IH.
  - simpl. apply insert_sorted_comm.
    inversion ND as [|? ? Hn _]; subst. intros E. apply Hn. left. auto.
  - rewrite IH1 by assumption. apply IH2.
    eapply Permutation_NoDup; [|exact ND]. now apply Permutation_map.
Qed.

Lemma str_keys_some (d : list (option str * V)) (l : list (str * V)) :
  str_keys d = Some l ->
  l = flat_map (@str_item V) d /\ map fst d = map Some (map fst l).
Proof.
  revert l. induction d as [|[[k|] v] d IH]; simpl; intros l H.
  - inversion H; subst. auto.
  - destruct (str_keys d) as [l'|]; [|discriminate].
    inversion H; subst. destruct (IH l' eq_refl) as [E1 E2].
    simpl. split; congruence.
  - discriminate.
Qed.

Lemma str_keys_none (d : list (option str * V)) :
  str_keys d = None <-> In None (map fst d).
Proof.
  induction d as [|[[k|] v] d IH]; simpl.
  - split; [discriminate | contradiction].
  - destruct (str_keys d); simpl.
    + split; [discriminate|]. intros [E|I]; [discriminate|].
      apply IH in I. discriminate.
    + split; [intros _; right; now apply IH | reflexivity].
  - split; auto.
Qed.

(** The members written under [sort_keys=True] (or the failure to write
    them) do not depend on the order of a dictionary's items. *)
Lemma members_sorted_perm (d1 d2 : list (option str * V)) :
  Permutation d1 d2 -> NoDup (map fst d1) ->
  members_sorted d1 = members_sorted d2.
Proof.
  intros HP ND.
  assert (Hgen : option_map (@sorted_items V) (str_keys d1)
                 = option_map (@sorted_items V) (str_keys d2)).
  { destruct (str_keys d1) as [l1|] eqn:E1, (str_keys d2) as [l2|] eqn:E2.
    - destruct (str_keys_some _ _ E1) as [F1 K1].
      destruct (str_keys_some _ _ E2) as [F2 _].
      simpl. f_equal. apply sorted_items_perm.
      + subst. now apply Permutation_flat_map.
      + rewrite K1 in ND. now apply NoDup_map_inv in ND.
    - exfalso. apply str_keys_none in E2.
      assert (I : In None (map fst d1)).
      { eapply Permutation_in; [|exact E2].
        apply Permutation_map. now apply Permutation_sym. }
      apply str_keys_none in I. congruence.
    - exfalso. apply str_keys_none in E1.
      assert (I : In None (map fst d2)).
      { eapply Permutation_in; [|exact E1]. now apply Permutation_map. }
      apply str_keys_none in I. congruence.
    - reflexivity. }
  unfold members_sorted.
  destruct d1 as [|x1 [|y1 t1]].
  - apply Permutation_nil in HP. subst. exact Hgen.
  - apply Permutation_length_1_inv in HP. subst. reflexivity.
  - destruct d2 as [|x2 [|y2 t2]].
    + apply Permutation_sym, Permutation_nil in HP. discriminate.
    + apply Permutation_sym, Permutation_length_1_inv in HP. discriminate.
    + destruct x1, x2. exact Hgen.
Qed.

(** [sorted_items] yields ascending keys and keeps the items. *)
Lemma insert_sorted_ascending (a : str * V) (l : list (str * V)) :
  Sorted (@key_le V) l -> Sorted (@key_le V) (insert_sorted a l).
Proof.
  induction l as [|x l IH]; intros HS; simpl.
  - repeat constructor.
  - destruct (str_leb (fst a) (fst x)) eqn:E.
    + constructor; [exact HS | constructor; exact E].
    + inversion HS as [|? ? HS' HR]; subst.
      constructor; [now apply IH|].
      assert (Hxa : key_le x a).
      { unfold key_le. destruct (str_leb_total (fst a) (fst x)); congruence. }
      destruct l as [|y l]; simpl.
      * constructor. exact Hxa.
      * destruct (str_leb (fst a) (fst y)); constructor;
          [exact Hxa | now inversion HR].
Qed.

Lemma sorted_items_ascending (l : list (str * V)) :
  Sorted (@key_le V) (sorted_items l).
Proof.
  induction l as [|a l IH]; simpl; [constructor|].
  now apply insert_sorted_ascending.
Qed.

Lemma insert_sorted_items (a : str * V) (l : list (str * V)) :
  Permutation (insert_sorted a l) (a :: l).
Proof.
  induction l as [|x l IH]; simpl; [reflexivity|].
  destruct (str_leb (fst a) (fst x)); [reflexivity|].
  rewrite IH. apply perm_swap.
Qed.

Lemma sorted_items_items (l : list (str * V)) :
  Permutation (sorted_items l) l.
Proof.
  induction l as [|a l IH]; simpl; [reflexivity|].
  rewrite insert_sorted_items. now constructor.
Qed.

(** Writing under [sort_keys=True] raises exactly when the key [None] sits
    in a dictionary with at least two items. *)
Lemma members_sorted_none (d : list (option str * V)) :
  members_sorted d = None <-> In None (map fst d) /\ 2 <= length d.
Proof.
  unfold members_sorted. destruct d as [|[k v] [|y t]].
  - simpl. split; [discriminate | intros [[] _]].
  - split; [discriminate | simpl; intros [_ H]; lia].
  - split.
    + intros H. split; [|simpl; lia].
      apply str_keys_none.
      destruct (str_keys ((k, v) :: y :: t)); [discriminate | reflexivity].
    + intros [H _]. apply str_keys_none in H. now rewrite H.
Qed.

Lemma members_sorted_some (d : list (option str * V)) (m : list (str * V)) :
  members_sorted d = Some m ->
  Sorted (@key_le V) m
  /\ Permutation (map fst m) (map key_text (map fst d)).
Proof.
  assert (G : forall d m,
    option_map (@sorted_items V) (str_keys d) = Some m ->
    Sorted (@key_le V) m
    /\ Permutation (map fst m) (map key_text (map fst d))).
  { clear. intros d m H.
    destruct (str_keys d) as [l|] eqn:Hk; [|discriminate].
    simpl in H. inversion H; subst m; clear H.
    destruct (str_keys_some d l Hk) as [_ Hkeys].
    split; [apply sorted_items_ascending|].
    rewrite Hkeys, map_map. simpl. rewrite map_id.
    apply Permutation_map. apply sorted_items_items. }
  unfold members_sorted. destruct d as [|[k v] [|y t]].
  - apply G.
  - intros H; inversion H; subst. simpl. split; [repeat constructor | reflexivity].
  - apply G.
Qed.

Lemma Sorted_map_values (W : Type) (g : V -> W) (m : list (str * V)) :
  Sorted (@key_le V) m ->
  Sorted (@key_le W) (map (fun kv => (fst kv, g (snd kv))) m).
Proof.
  induction 1 as [|a m HS IH HR]; simpl; [constructor|].
  constructor; [exact IH|].
  destruct HR; simpl; constructor. assumption.
Qed.

End Sorting.

End SortFacts.

Module RegistryFacts.
Import PyStr Tree Builder ScanFacts.

(** The list of duplicates only grows. *)
Lemma duplicates_grow (files : list File) :
  forall (b : State) (n : nat),
    exists l,
      duplicates (fst (fold_left scan_file files (b, n))) = duplicates b ++ l.
Proof.
  induction files as [|f files IH]; intros b n; cbn [fold_left].
  - exists []. simpl. now rewrite app_nil_r.
  - destruct (claimant f) as [[k rec]|] eqn:Hc.
    + rewrite (scan_file_claimant b n f k rec Hc).
      destruct (PyDict.get optstr_eq_dec k (registry b)) as [ex|].
      * destruct (IH {| registry := registry b;
                        duplicates := duplicates b ++ [(k, path ex, rel_path f)];
                        errors := errors b |} n) as [l Hl].
        rewrite Hl. simpl. rewrite <- app_assoc. eauto.
      * destruct (IH {| registry := PyDict.set optstr_eq_dec k rec (registry b);
                        duplicates := duplicates b;
                        errors := errors b |} (S n)) as [l Hl].
        rewrite Hl. simpl. eauto.
    + destruct (scan_file_other b n f Hc) as [es He]. rewrite He.
      destruct (IH {| registry := registry b; duplicates := duplicates b;
                      errors := errors b ++ es |} n) as [l Hl].
      rewrite Hl. simpl. eauto.
Qed.

(** A scan that records no conflict appends every claimant to the registry,
    each under a key that was not there before. *)
Lemma scan_without_conflict (files : list File) :
  forall (b : State) (n : nat),
    duplicates (fst (fold_left scan_file files (b, n))) = duplicates b ->
    registry (fst (fold_left scan_file files (b, n)))
    = registry b ++ claimants files
    /\ (NoDup (PyDict.keys (registry b)) ->
        NoDup (PyDict.keys (registry (fst (fold_left scan_file files (b, n)))))).
Proof.
  induction files as [|f files IH]; intros b n; cbn [fold_left].
  - simpl. rewrite app_nil_r. auto.
  - unfold claimants. cbn [flat_map]. fold (claimants files).
    destruct (claimant f) as [[k rec]|] eqn:Hc.
    + rewrite (scan_file_claimant b n f k rec Hc).
      destruct (PyDict.get optstr_eq_dec k (registry b)) as [ex|] eqn:Hg.
      * intros Hd. exfalso.
        destruct (duplicates_grow files
                    {| registry := registry b;
                       duplicates := duplicates b ++ [(k, path ex, rel_path f)];
                       errors := errors b |} n) as [l Hl].
        rewrite Hl in Hd. simpl in Hd.
        apply (f_equal (@length _)) in Hd.
        rewrite !length_app in Hd. simpl in Hd. lia.
      * intros Hd.
        destruct (IH {| registry := PyDict.set optstr_eq_dec k rec (registry b);
                        duplicates := duplicates b;
                        errors := errors b |} (S n) Hd) as [Hr Hn].
        simpl in Hr, Hn.
        rewrite (keys_set_absent _ _ optstr_eq_dec k rec (registry b) Hg)
          in Hr, Hn |- *.
        split; [rewrite Hr, <- app_assoc; reflexivity|].
        intros ND. apply Hn. unfold PyDict.keys. rewrite map_app. simpl.
        apply NoDup_app.
        -- exact ND.
        -- constructor; [auto | constructor].
        -- intros x Hx [E|[]]. subst x.
           apply (get_none_not_in _ _ optstr_eq_dec k (registry b)) in Hg.
           contradiction.
    + destruct (scan_file_other b n f Hc) as [es He]. rewrite He.
      intros Hd.
      destruct (IH {| registry := registry b; duplicates := duplicates b;
                      errors := errors b ++ es |} n Hd) as [Hr Hn].
      simpl in Hr, Hn. auto.
Qed.

Lemma successful_scan_registry (r : Repo) :
  report_status (fst (scan_documents init r)) = true ->
  registry (fst (scan_documents init r)) = claimants (walk r)
  /\ NoDup (PyDict.keys (registry (fst (scan_documents init r)))).
Proof.
  intros Hs. apply report_status_true in Hs. destruct Hs as [Hd _].
  rewrite scan_documents_walk in Hd |- *.
  destruct (scan_without_conflict (walk r) init 0 Hd) as [Hr Hn].
  split; [exact Hr | apply Hn; constructor].
Qed.

(** [save_registry] raises exactly when a document with a null [doc_key]
    is registered next to at least one other document. *)
Lemma save_registry_raises (b : State) :
  save_registry b = None
  <-> In None (PyDict.keys (registry b)) /\ 2 <= length (registry b).
Proof.
  unfold save_registry, dump_registry.
  destruct (Json.members_sorted (registry_dict b)) as [m|] eqn:E; simpl.
  - split; [discriminate|]. intros H.
    assert (N : Json.members_sorted (registry_dict b) = None).
    { apply SortFacts.members_sorted_none. unfold registry_dict.
      rewrite map_map, length_map. exact H. }
    congruence.
  - split; [intros _ | reflexivity].
    apply SortFacts.members_sorted_none in E. unfold registry_dict in E.
    rewrite map_map, length_map in E. exact E.
Qed.

(** What [save_registry] writes is the rendering, at two spaces per level,
    of an object whose member names are the registry's keys in ascending
    order. *)
Lemma save_registry_sorted (b : State) (written : str) :
  save_registry b = Some written ->
  exists members,
    written = Json.render 0 (Json.JObj members)
    /\ Sorted (@key_le Json.json) members
    /\ Permutation (map fst members)
         (map Json.key_text (PyDict.keys (registry b))).
Proof.
  unfold save_registry, dump_registry.
  destruct (Json.members_sorted (registry_dict b)) as [m|] eqn:E; simpl;
    [|discriminate].
  intros H; inversion H; subst; clear H.
  eexists. split; [reflexivity|].
  destruct (SortFacts.members_sorted_some _ _ _ E) as [HS HP].
  split.
  - now apply SortFacts.Sorted_map_values.
  - unfold registry_dict, PyDict.keys in *.
    rewrite !map_map in HP |- *. simpl in HP |- *. exact HP.
Qed.

End RegistryFacts.

Section Reproducible.
Import PyStr Tree Builder ScanFacts RegistryFacts SortFacts.

(** The registry file of the tree that holds [docs/retention.md] alone. *)
Example save_registry_retention :
  save_registry
    (fst (scan_documents init
            {| docs := Some [Sample.retention]; plans := None |}))
  = Some (Sample.quoted
      [ "{";
        "  `policy.retention`: {";
        "    `contract_type`: `policy`,";
        "    `doc_key`: `policy.retention`,";
        "    `effective_date`: `2024-01-01`,";
        "    `owner`: `platform-team`,";
        "    `path`: `docs/retention.md`,";
        "    `semver`: `2.1.0`,";
        "    `status`: `active`,";
        "    `supersedes_version`: null";
        "  }";
        "}" ]).
Proof. reflexivity. Qed.

(** C7, at the tree of C2 in its two traversal orders: [docs/unnamed.md]
    (header with [doc_key: null]) and [docs/naming.md].  Both runs meet the
    same files and both scans succeed, yet neither run persists a registry:
    [save_registry] raises in both, because [json.dump] with
    [sort_keys=True] cannot order the key [None] against a string, and both
    processes end with status 1 and a file that holds no registry. *)
Theorem registry_not_persisted_with_null_key :
  let r1 := {| docs := Some [Sample.unnamed; Sample.naming];
               plans := None |} in
  let r2 := {| docs := Some [Sample.naming; Sample.unnamed];
               plans := None |} in
  Permutation (walk r1) (walk r2)
  /\ report_status (fst (scan_documents init r1)) = true
  /\ report_status (fst (scan_documents init r2)) = true
  /\ save_registry (fst (scan_documents init r1)) = None
  /\ save_registry (fst (scan_documents init r2)) = None
  /\ main false r1 = {| exit_status := 1; output := Broken |}
  /\ main false r2 = {| exit_status := 1; output := Broken |}.
Proof.
  intros r1 r2. split; [apply perm_swap|].
  vm_compute. repeat split; reflexivity.
Qed.

End Reproducible.

(* ================================================================== *)
(** * Further properties of the code *)

(* ------------------------------------------------------------------ *)
(** ** The builder's scan as a whole *)

Module ScanInvariants.
Import PyStr Tree Builder ScanFacts DuplicateFacts RegistryFacts.

(** On any builder, validation gives the verdict and the message it gives on
    a fresh one, and touches nothing but the list of errors. *)
Lemma validate_frontmatter_frame (b : State) (metadata : Metadata) (f : File) :
  validate_frontmatter b metadata f
  = ({| registry := registry b;
        duplicates := duplicates b;
        errors := errors b
                  ++ errors (fst (validate_frontmatter init metadata f)) |},
     accepts metadata f).
Proof.
  unfold accepts, validate_frontmatter. destruct b as [reg dups errs].
  destruct (missing_fields metadata) as [|m ms]; [|reflexivity].
  destruct (negb (semver_match _)); [reflexivity|].
  destruct (negb (one_of _ valid_statuses)); [reflexivity|].
  destruct (negb (one_of _ valid_types)); [reflexivity|].
  simpl. now rewrite app_nil_r.
Qed.

Lemma diagnostics_claimant (f : File) (k : option str) (rec : DocumentRecord) :
  claimant f = Some (k, rec) -> diagnostics f = [].
Proof.
  unfold claimant, diagnostics.
  destruct (read_text f) as [content|]; [|discriminate].
  destruct (parse_content content) as [metadata|]; [|discriminate].
  destruct (mem (lit "doc_key") metadata); [|reflexivity].
  simpl. destruct (validate_frontmatter_cases init metadata f)
    as [[Ha Hv]|[Ha _]]; rewrite Ha; [|discriminate].
  intros _. rewrite Hv. reflexivity.
Qed.

(** One step of the scan adds the diagnostics of its file, whatever the
    state. *)
Lemma scan_file_errors (b : State) (n : nat) (f : File) :
  errors (fst (scan_file (b, n) f)) = errors b ++ diagnostics f.
Proof.
  destruct (claimant f) as [[k rec]|] eqn:Hc.
  - rewrite (scan_file_claimant b n f k rec Hc),
      (diagnostics_claimant f k rec Hc), app_nil_r.
    destruct (PyDict.get optstr_eq_dec k (registry b)); reflexivity.
  - unfold claimant in Hc. unfold scan_file, extract_frontmatter, diagnostics.
    destruct (read_text f) as [content|e]; [|reflexivity].
    destruct (parse_content content) as [metadata|];
      [|simpl; now rewrite app_nil_r].
    destruct (mem (lit "doc_key") metadata); simpl;
      [|now rewrite app_nil_r].
    rewrite validate_frontmatter_frame.
    simpl in Hc. destruct (accepts metadata f); [discriminate|]. reflexivity.
Qed.

Lemma scan_files_errors (files : list File) :
  forall (b : State) (n : nat),
    errors (fst (fold_left scan_file files (b, n)))
    = errors b ++ flat_map diagnostics files.
Proof.
  induction files as [|f files IH]; intros b n; cbn [fold_left flat_map].
  - now rewrite app_nil_r.
  - destruct (scan_file (b, n) f) as [b1 n1] eqn:E.
    rewrite IH. pose proof (scan_file_errors b n f) as H.
    rewrite E in H. simpl in H. rewrite H. now rewrite app_assoc.
Qed.

Lemma scan_documents_errors (r : Repo) :
  errors (fst (scan_documents init r)) = flat_map diagnostics (walk r).
Proof.
  rewrite scan_documents_walk. apply (scan_files_errors (walk r) init 0).
Qed.

Lemma diagnostics_short (f : File) : length (diagnostics f) <= 1.
Proof.
  unfold diagnostics.
  destruct (read_text f) as [content|e]; [|simpl; lia].
  destruct (parse_content content) as [metadata|]; [|simpl; lia].
  destruct (mem (lit "doc_key") metadata); [|simpl; lia].
  destruct (validate_frontmatter_cases init metadata f)
    as [[_ Hv]|[_ [e Hv]]]; rewrite Hv; simpl; lia.
Qed.

Lemma in_set_absent (k : option str) (rec : DocumentRecord)
  (d : PyDict.dict (option str) DocumentRecord) (k0 : option str)
  (rec0 : DocumentRecord) :
  PyDict.get optstr_eq_dec k d = None ->
  In (k0, rec0) (PyDict.set optstr_eq_dec k rec d) ->
  In (k0, rec0) d \/ (k0, rec0) = (k, rec).
Proof.
  intros Hg. rewrite (keys_set_absent _ _ optstr_eq_dec k rec d Hg).
  intros H. apply in_app_or in H. destruct H as [H|[H|[]]]; auto.
Qed.

Lemma claimants_snoc (seen : list File) (f : File) :
  claimants (seen ++ [f])
  = claimants seen ++ match claimant f with Some e => [e] | None => [] end.
Proof.
  unfold claimants. rewrite flat_map_app. simpl. now rewrite app_nil_r.
Qed.

Lemma invariant_step (seen : list File) (b : State) (n : nat) (f : File) :
  Invariant seen b n ->
  Invariant (seen ++ [f]) (fst (scan_file (b, n) f)) (snd (scan_file (b, n) f)).
Proof.
  intros [Hn Hk He Hc Ht].
  assert (Hseen : forall g, In g seen -> In g (seen ++ [f]))
    by (intros g Hg; apply in_or_app; auto).
  destruct (claimant f) as [[k rec]|] eqn:Hcl.
  - rewrite (scan_file_claimant b n f k rec Hcl).
    assert (Hf : In f (seen ++ [f])) by (apply in_or_app; right; left; auto).
    assert (Hclaims : claims k f = true) by (apply claims_true; eauto).
    destruct (PyDict.get optstr_eq_dec k (registry b)) as [ex|] eqn:Hg;
      simpl; constructor; simpl.
    + exact Hn.
    + exact Hk.
    + intros k0 rec0 Hin. destruct (He k0 rec0 Hin) as (g & Hg1 & Hg2); eauto.
    + intros k0 p1 p2 Hin. apply in_app_or in Hin.
      destruct Hin as [Hin|[Hin|[]]].
      * destruct (Hc k0 p1 p2 Hin) as [Hr (g & G1 & G2 & G3)].
        split; [exact Hr | eauto].
      * inversion Hin; subst. split; [eauto | eauto].
    + rewrite claimants_snoc, Hcl, !length_app. simpl. lia.
    + rewrite (keys_set_absent _ _ optstr_eq_dec k rec (registry b) Hg).
      rewrite length_app. simpl. lia.
    + rewrite (keys_set_absent _ _ optstr_eq_dec k rec (registry b) Hg).
      unfold PyDict.keys. rewrite map_app. simpl. apply NoDup_app.
      * exact Hk.
      * constructor; [auto | constructor].
      * intros x Hx [E|[]]. subst x.
        apply (get_none_not_in _ _ optstr_eq_dec k (registry b)) in Hg.
        contradiction.
    + intros k0 rec0 Hin. apply (in_set_absent k rec _ k0 rec0 Hg) in Hin.
      destruct Hin as [Hin|Hin].
      * destruct (He k0 rec0 Hin) as (g & Hg1 & Hg2); eauto.
      * inversion Hin; subst. eauto.
    + intros k0 p1 p2 Hin.
      destruct (Hc k0 p1 p2 Hin) as [(r0 & R1 & R2) (g & G1 & G2 & G3)].
      split; [|eauto]. exists r0. split; [|exact R2].
      rewrite get_set_other; [exact R1|]. intros ->. congruence.
    + rewrite claimants_snoc, Hcl, !length_app.
      rewrite (keys_set_absent _ _ optstr_eq_dec k rec (registry b) Hg).
      rewrite length_app. simpl. lia.
  - destruct (scan_file_other b n f Hcl) as [es Hes]. rewrite Hes. simpl.
    constructor; simpl.
    + exact Hn.
    + exact Hk.
    + intros k0 rec0 Hin. destruct (He k0 rec0 Hin) as (g & Hg1 & Hg2); eauto.
    + intros k0 p1 p2 Hin.
      destruct (Hc k0 p1 p2 Hin) as [Hr (g & G1 & G2 & G3)].
      split; [exact Hr | eauto].
    + rewrite claimants_snoc, Hcl, app_nil_r. exact Ht.
Qed.

Lemma invariant_fold (files : list File) :
  forall (seen : list File) (b : State) (n : nat),
    Invariant seen b n ->
    Invariant (seen ++ files)
      (fst (fold_left scan_file files (b, n)))
      (snd (fold_left scan_file files (b, n))).
Proof.
  induction files as [|f files IH]; intros seen b n H; cbn [fold_left].
  - now rewrite app_nil_r.
  - pose proof (invariant_step seen b n f H) as Hs.
    destruct (scan_file (b, n) f) as [b1 n1]. simpl in Hs.
    specialize (IH (seen ++ [f]) b1 n1 Hs).
    now rewrite <- app_assoc in IH.
Qed.

Lemma invariant_init : Invariant [] init 0.
Proof.
  constructor; simpl; try reflexivity; try constructor; intros; contradiction.
Qed.

Lemma invariant_scan (r : Repo) :
  Invariant (walk r) (fst (scan_documents init r)) (snd (scan_documents init r)).
Proof.
  rewrite scan_documents_walk.
  exact (invariant_fold (walk r) [] init 0 invariant_init).
Qed.

End ScanInvariants.

Section RegistryInvariants.
Import PyStr Tree Builder ScanFacts DuplicateFacts RegistryFacts ScanInvariants.

Lemma one_of_true (v : option str) (names : list str) :
  one_of v names = true -> exists s, v = Some s /\ In s names.
Proof.
  unfold one_of. destruct v as [s|]; [|discriminate].
  destruct (in_dec str_eq_dec s names); [eauto | discriminate].
Qed.

Lemma accepts_true (metadata : Metadata) (f : File) :
  accepts metadata f = true ->
  missing_fields metadata = []
  /\ semver_match (py_str (getitem (lit "semver") metadata)) = true
  /\ one_of (getitem (lit "status") metadata) valid_statuses = true
  /\ one_of (getitem (lit "contract_type") metadata) valid_types = true.
Proof.
  unfold accepts, validate_frontmatter.
  destruct (missing_fields metadata) as [|m ms]; [|discriminate].
  destruct (semver_match _); [|discriminate].
  destruct (one_of _ valid_statuses); [|discriminate].
  destruct (one_of _ valid_types); [|discriminate]. auto.
Qed.

(** X1.  After a scan of a fresh builder, the returned count is the number
    of registry entries, the registry's keys are pairwise distinct, and
    every entry is the record of a file of the tree that passed validation:
    its [doc_key] field is the key it is stored under, its path is the path
    of that file, its [semver] is digits.digits.digits (decimal digits of
    any script, the class [\d]), its [status] is one
    of active, deprecated, frozen and its [contract_type] one of policy,
    intent, execution_contract. *)
Theorem registry_entries_are_valid :
  forall r : Repo,
    let b := fst (scan_documents init r) in
    snd (scan_documents init r) = length (registry b)
    /\ NoDup (PyDict.keys (registry b))
    /\ forall k rec,
         In (k, rec) (registry b) ->
         doc_key rec = k
         /\ semver_ok (semver rec)
         /\ (exists s, status rec = Some s
                       /\ In s (map lit ["active"; "deprecated"; "frozen"]))
         /\ (exists s, contract_type rec = Some s
                       /\ In s (map lit ["policy"; "intent";
                                         "execution_contract"]))
         /\ exists f, In f (walk r) /\ path rec = rel_path f
                      /\ claimant f = Some (k, rec).
Proof.
  intros r b. destruct (invariant_scan r) as [Hn Hk He _ _]. fold b in Hn, Hk, He.
  split; [exact Hn|]. split; [exact Hk|].
  intros k rec Hin. destruct (He k rec Hin) as (f & Hf & Hc).
  destruct (claimant_inv f k rec Hc)
    as (content & metadata & Hr & Hp & Hm & Ha & -> & ->).
  destruct (accepts_true metadata f Ha) as (_ & Hs & Hst & Hty).
  split; [reflexivity|]. split.
  { apply (semver_match_ok content metadata Hp). exact Hs. }
  split; [exact (one_of_true _ _ Hst)|].
  split; [exact (one_of_true _ _ Hty)|].
  exists f. auto.
Qed.

(** X2.  After a scan of a fresh builder, every document that passed
    validation is either in the registry or named as the second path of a
    conflict: the registry and the list of duplicates together have as many
    entries as there are validated documents.  Every conflict tuple names a
    key that is in the registry, the path of the record registered under
    that key, and the path of a validated document of the tree that
    declares the same key. *)
Theorem conflicts_name_registered_records :
  forall r : Repo,
    let b := fst (scan_documents init r) in
    length (registry b) + length (duplicates b) = length (claimants (walk r))
    /\ forall k p1 p2,
         In (k, p1, p2) (duplicates b) ->
         (exists rec, PyDict.get optstr_eq_dec k (registry b) = Some rec
                      /\ path rec = p1)
         /\ exists f, In f (walk r) /\ claims k f = true /\ rel_path f = p2.
Proof.
  intros r b. destruct (invariant_scan r) as [_ _ _ Hc Ht].
  split; [exact Ht | exact Hc].
Qed.

(** X3.  The list of errors after a scan of a fresh builder is, in traversal
    order, one message for each unreadable file and one for each readable
    file whose header declares a [doc_key] and fails validation; no other
    file adds a message and no file adds two. *)
Theorem errors_follow_the_traversal :
  forall r : Repo,
    errors (fst (scan_documents init r)) = flat_map diagnostics (walk r)
    /\ forall f : File,
         length (diagnostics f) <= 1
         /\ (forall e, read_text f = inr e ->
               diagnostics f
               = [lit "Cannot read " ++ file_path f ++ lit ": " ++ e])
         /\ (forall content, read_text f = inl content ->
               (diagnostics f = []
                <-> match parse_content content with
                    | None => True
                    | Some metadata =>
                        mem (lit "doc_key") metadata = false
                        \/ accepts metadata f = true
                    end)).
Proof.
  intros r. split.
  - apply scan_documents_errors.
  - intros f. split; [apply diagnostics_short|]. split.
    + intros e He. unfold diagnostics. now rewrite He.
    + intros content Hc. unfold diagnostics. rewrite Hc.
      destruct (parse_content content) as [metadata|]; [|tauto].
      destruct (mem (lit "doc_key") metadata); [|tauto].
      destruct (validate_frontmatter_cases init metadata f)
        as [[Ha Hv]|[Ha [e Hv]]]; rewrite Hv, Ha; simpl.
      * tauto.
      * split; [discriminate | intros [H|H]; discriminate].
Qed.

Lemma errors_follow_the_traversal_witness :
  errors (fst (scan_documents init
                 {| docs := Some [unreadable; Sample.retention;
                                  Sample.retention_draft];
                    plans := None |}))
  = [ lit "Cannot read docs/locked.md: Permission denied";
      lit "docs/retention-draft.md: Invalid semver format '2.1' (must be MAJOR.MINOR.PATCH)" ].
Proof.
  rewrite (proj1 (errors_follow_the_traversal _)). reflexivity.
Defined.

(** A scan records no conflict exactly when the validated documents have
    pairwise distinct keys. *)
Lemma scan_files_no_conflict (files : list File) :
  forall (b : State) (n : nat),
    NoDup (PyDict.keys (registry b) ++ map fst (claimants files)) ->
    duplicates (fst (fold_left scan_file files (b, n))) = duplicates b.
Proof.
  induction files as [|f files IH]; intros b n ND; cbn [fold_left];
    [reflexivity|].
  unfold claimants in ND. cbn [flat_map] in ND. fold (claimants files) in ND.
  destruct (claimant f) as [[k rec]|] eqn:Hc.
  - rewrite (scan_file_claimant b n f k rec Hc).
    simpl in ND.
    assert (Hg : PyDict.get optstr_eq_dec k (registry b) = None).
    { apply get_none_not_in. intros Hin.
      apply NoDup_remove_2 in ND. apply ND. apply in_or_app. auto. }
    rewrite Hg. rewrite IH; [reflexivity|]. simpl.
    rewrite (keys_set_absent _ _ optstr_eq_dec k rec (registry b) Hg).
    unfold PyDict.keys. rewrite map_app, <- app_assoc. exact ND.
  - destruct (scan_file_other b n f Hc) as [es He]. rewrite He.
    rewrite IH; [reflexivity|]. exact ND.
Qed.

Lemma no_conflict_iff (r : Repo) :
  duplicates (fst (scan_documents init r)) = []
  <-> NoDup (map fst (claimants (walk r))).
Proof.
  rewrite scan_documents_walk. split.
  - intros Hd.
    destruct (scan_without_conflict (walk r) init 0 Hd) as [Hr Hn].
    simpl in Hr. rewrite <- Hr. apply Hn. constructor.
  - intros ND. exact (scan_files_no_conflict (walk r) init 0 ND).
Qed.

Lemma flat_map_nil (A B : Type) (g : A -> list B) (l : list A) :
  flat_map g l = [] <-> forall x, In x l -> g x = [].
Proof.
  induction l as [|a l IH]; simpl.
  - split; [intros _ x [] | reflexivity].
  - split.
    + intros H. apply app_eq_nil in H. destruct H as [Ha Hl].
      intros x [->|Hx]; [exact Ha | now apply IH].
    + intros H. rewrite (H a (or_introl eq_refl)).
      apply IH. intros x Hx. apply H. now right.
Qed.

(** X4.  Whether a scan succeeds does not depend on the traversal order:
    two orders of the same files give the same verdict and the same errors
    up to their order, and when the verdict is success [save_registry]
    writes the same text (or raises) in both. *)
Theorem scan_verdict_ignores_order :
  forall r1 r2 : Repo,
    Permutation (walk r1) (walk r2) ->
    let b1 := fst (scan_documents init r1) in
    let b2 := fst (scan_documents init r2) in
    report_status b1 = report_status b2
    /\ Permutation (errors b1) (errors b2)
    /\ (report_status b1 = true -> save_registry b1 = save_registry b2).
Proof.
  intros r1 r2 HP b1 b2.
  assert (He : Permutation (errors b1) (errors b2)).
  { subst b1 b2. rewrite !scan_documents_errors.
    now apply Permutation_flat_map. }
  assert (Hc : Permutation (claimants (walk r1)) (claimants (walk r2)))
    by (unfold claimants; now apply Permutation_flat_map).
  assert (Hs : forall ra rb,
            Permutation (walk ra) (walk rb) ->
            Permutation (errors (fst (scan_documents init ra)))
                        (errors (fst (scan_documents init rb))) ->
            report_status (fst (scan_documents init ra)) = true ->
            report_status (fst (scan_documents init rb)) = true).
  { intros ra rb Hp Hperm H. apply report_status_true in H.
    destruct H as [Hd Herr]. apply report_status_true. split.
    - apply no_conflict_iff. apply no_conflict_iff in Hd.
      eapply Permutation_NoDup; [|exact Hd].
      apply Permutation_map. unfold claimants.
      now apply Permutation_flat_map.
    - rewrite Herr in Hperm. now apply Permutation_nil in Hperm. }
  assert (Hv : report_status b1 = report_status b2).
  { destruct (report_status b1) eqn:E1.
    - symmetry. exact (Hs r1 r2 HP He E1).
    - destruct (report_status b2) eqn:E2; [|reflexivity].
      pose proof (Hs r2 r1 (Permutation_sym HP) (Permutation_sym He) E2) as E.
      fold b1 in E. congruence. }
  split; [exact Hv|]. split; [exact He|].
  intros H1. assert (H2 : report_status b2 = true) by congruence.
  destruct (successful_scan_registry r1 H1) as [R1 N1].
  destruct (successful_scan_registry r2 H2) as [R2 _].
  unfold save_registry, dump_registry, registry_dict.
  rewrite (SortFacts.members_sorted_perm _
             (map (fun kv => (fst kv, asdict (snd kv))) (registry b1))
             (map (fun kv => (fst kv, asdict (snd kv))) (registry b2))).
  - reflexivity.
  - apply Permutation_map. subst b1 b2. rewrite R1, R2. exact Hc.
  - rewrite map_map. simpl. exact N1.
Qed.

Lemma scan_verdict_ignores_order_witness :
  report_status
    (fst (scan_documents init
            {| docs := Some [Sample.retention; Sample.retention_copy;
                             Sample.naming];
               plans := None |}))
  = report_status
      (fst (scan_documents init
              {| docs := Some [Sample.retention_copy; Sample.retention;
                               Sample.naming];
                 plans := None |})).
Proof.
  apply (scan_verdict_ignores_order
           {| docs := Some [Sample.retention; Sample.retention_copy;
                            Sample.naming]; plans := None |}
           {| docs := Some [Sample.retention_copy; Sample.retention;
                            Sample.naming]; plans := None |}).
  apply perm_swap.
Defined.

End RegistryInvariants.

(* ------------------------------------------------------------------ *)
(** ** The report, the entry point and the registry file *)

Section ReportAndMain.
Import PyStr Tree Builder Report RegistryFacts.

Lemma conflict_lines_no_error (l : list (option str * str * str)) (e : str) :
  ~ In (ErrorItem e) (flat_map conflict_lines l).
Proof.
  induction l as [|[[k p1] p2] l IH]; simpl; [auto|].
  intros [H|[H|[H|H]]]; try discriminate H. now apply IH.
Qed.

(** X5.  [report_status] returns failure exactly when something was
    accumulated, and its report always opens with the number of registry
    entries.  When there are duplicates it prints, for each conflict, the
    key and both paths, and it prints no validation error at all, even when
    the list of errors is not empty; the errors are printed, each one, only
    when there is no duplicate. *)
Theorem report_lists_duplicates_before_errors :
  forall b : State,
    snd (report b) = report_status b
    /\ hd_error (fst (report b)) = Some (Found (length (registry b)))
    /\ (duplicates b <> [] ->
        (forall e, ~ In (ErrorItem e) (fst (report b)))
        /\ forall k p1 p2,
             In (k, p1, p2) (duplicates b) ->
             In (DuplicateKey k) (fst (report b))
             /\ In (DuplicatePath p1) (fst (report b))
             /\ In (DuplicatePath p2) (fst (report b)))
    /\ (duplicates b = [] ->
        forall e, In (ErrorItem e) (fst (report b)) <-> In e (errors b)).
Proof.
  intros b. unfold report, report_status.
  destruct (duplicates b) as [|t ts] eqn:Hd.
  - destruct (errors b) as [|x xs] eqn:He; cbn [fst snd hd_error].
    + split; [reflexivity|]. split; [reflexivity|].
      split; [intros H; congruence|]. intros _ e. split.
      * intros [H|[H|[H|[]]]]; discriminate H.
      * intros [].
    + split; [reflexivity|]. split; [reflexivity|].
      split; [intros H; congruence|]. intros _ e. split.
      * intros [H|[H|H]]; try discriminate H.
        apply in_map_iff in H. destruct H as (y & Hy & Hin).
        inversion Hy; subst. exact Hin.
      * intros H. right. right. now apply in_map.
  - rewrite <- Hd. cbn [fst snd hd_error].
    split; [reflexivity|]. split; [reflexivity|].
    split; [|intros H; rewrite Hd in H; discriminate H].
    intros _. split.
    + intros e [H|[H|H]]; try discriminate H.
      apply in_app_or in H. destruct H as [H|[H|[]]]; [|discriminate H].
      exact (conflict_lines_no_error _ e H).
    + intros k p1 p2 Hin.
      assert (Hsub : forall x, In x (conflict_lines (k, p1, p2)) ->
                In x (Found (length (registry b)) :: DuplicateHeading
                        :: flat_map conflict_lines (duplicates b)
                           ++ [UniqueReminder])).
      { intros x Hx. right. right. apply in_or_app. left.
        apply in_flat_map. exists (k, p1, p2). auto. }
      repeat split; apply Hsub; simpl; auto.
Qed.

Ltac break_goal :=
  repeat match goal with
         | |- _ /\ _ => split
         | |- _ <-> _ => split
         | |- forall _, _ => intro
         end.

(** X6.  Whatever the tree and the mode, an exit status of zero means that
    the scan accumulated neither duplicate nor error, and a saved registry
    is the text [save_registry] wrote after such a scan outside check-only
    mode.  In check-only mode the output file is never touched and the exit
    status is zero exactly when both lists are empty.  The output file is
    left broken only outside check-only mode, after a clean scan, when a
    null [doc_key] is registered next to another key. *)
Theorem main_outcomes_are_sound :
  forall (check_only : bool) (r : Repo),
    let b := fst (scan_documents init r) in
    (exit_status (main check_only r) = 0 ->
     duplicates b = [] /\ errors b = [])
    /\ (forall content,
          output (main check_only r) = Saved content ->
          duplicates b = [] /\ errors b = [] /\ check_only = false
          /\ save_registry b = Some content)
    /\ output (main true r) = Untouched
    /\ (exit_status (main true r) = 0 <-> duplicates b = [] /\ errors b = [])
    /\ (output (main check_only r) = Broken ->
        check_only = false /\ duplicates b = [] /\ errors b = []
        /\ In None (PyDict.keys (registry b)) /\ 2 <= length (registry b)).
Proof.
  intros check_only r b. subst b. unfold main.
  destruct (scan_documents init r) as [b n]. simpl.
  pose proof (report_status_true b) as Hrs.
  pose proof (save_registry_raises b) as Hraise.
  destruct (report_status b) eqn:Hs; simpl.
  - destruct (proj1 Hrs eq_refl) as [Hd He].
    destruct (save_registry b) as [text|] eqn:Hsave.
    + destruct check_only; simpl; break_goal;
        try discriminate; try assumption; try reflexivity;
        match goal with
        | H : Saved _ = Saved _ |- _ => inversion H; subst; reflexivity
        end.
    + destruct (proj1 Hraise eq_refl) as [Hn Hl].
      destruct check_only; simpl; break_goal;
        try discriminate; try assumption; reflexivity.
  - assert (Hnot : ~ (duplicates b = [] /\ errors b = [])).
    { intros H. apply Hrs in H. discriminate H. }
    destruct check_only; simpl; break_goal;
      try discriminate; try assumption; try reflexivity;
      try (exfalso; apply Hnot; split; assumption);
      try contradiction.
Qed.

(** X7.  [save_registry] raises exactly when a document with a null
    [doc_key] is registered next to at least one other document.  Otherwise
    it writes the rendering, two spaces per level, of one object with one
    member per registry entry, the member names in ascending order of their
    code points (a null key is written as the name [null]). *)
Theorem save_registry_outcome :
  forall b : State,
    (save_registry b = None
     <-> In None (PyDict.keys (registry b)) /\ 2 <= length (registry b))
    /\ forall written,
         save_registry b = Some written ->
         exists members,
           written = Json.render 0 (Json.JObj members)
           /\ Sorted (@key_le Json.json) members
           /\ Permutation (map fst members)
                (map Json.key_text (PyDict.keys (registry b))).
Proof.
  intros b. split; [apply save_registry_raises|].
  intros written H. now apply save_registry_sorted.
Qed.

End ReportAndMain.

(* ------------------------------------------------------------------ *)
(** ** What [json.dump] writes is plain ASCII *)

Module RenderFacts.
Import PyStr Json.

Lemma plain_charb_true (c : char) : plain_charb c = true -> plain_char c.
Proof.
  unfold plain_charb, plain_char. intros H.
  apply orb_true_iff in H. destruct H as [H|H].
  - left. apply N.eqb_eq in H. exact H.
  - right. apply andb_true_iff in H. destruct H as [H1 H2].
    apply N.leb_le in H1, H2. auto.
Qed.

Lemma plain_text (s : str) :
  forallb plain_charb s = true -> Forall plain_char s.
Proof.
  intros H. apply Forall_forall. intros c Hc.
  apply plain_charb_true. rewrite forallb_forall in H. now apply H.
Qed.

Lemma hex_digit_plain (n : N) : (n < 16)%N -> plain_char (hex_digit n).
Proof.
  intros H. right. unfold hex_digit.
  destruct (N.ltb_spec n 10); lia.
Qed.

Lemma u_escape_plain (n : N) : Forall plain_char (u_escape n).
Proof.
  unfold u_escape. constructor; [apply plain_charb_true; reflexivity|].
  constructor; [apply plain_charb_true; reflexivity|].
  repeat (constructor; [apply hex_digit_plain; apply N.mod_lt; discriminate|]).
  constructor.
Qed.

Lemma escape_char_plain (c : char) : Forall plain_char (escape_char c).
Proof.
  unfold escape_char.
  repeat match goal with
         | |- Forall plain_char (if (c =? ?k)%N then _ else _) =>
             destruct (c =? k)%N; [apply plain_text; reflexivity|]
         end.
  destruct ((32 <=? c) && (c <=? 126))%N eqn:E.
  - constructor; [|constructor]. apply plain_charb_true.
    unfold plain_charb. rewrite E. apply orb_true_r.
  - destruct (c <? 0x10000)%N; [apply u_escape_plain|].
    apply Forall_app. split; apply u_escape_plain.
Qed.

Lemma quote_plain (s : str) : Forall plain_char (quote s).
Proof.
  unfold quote. constructor; [apply plain_charb_true; reflexivity|].
  apply Forall_app. split.
  - induction s as [|c s IH]; simpl; [constructor|].
    apply Forall_app. split; [apply escape_char_plain | exact IH].
  - apply plain_text. reflexivity.
Qed.

Lemma newline_indent_plain (level : nat) :
  Forall plain_char (newline_indent level).
Proof.
  unfold newline_indent. constructor; [left; reflexivity|].
  induction (2 * level) as [|n IH]; simpl; constructor; [|exact IH].
  apply plain_charb_true. reflexivity.
Qed.

Lemma join_plain (sep : str) (parts : list str) :
  Forall plain_char sep -> Forall (Forall plain_char) parts ->
  Forall plain_char (join sep parts).
Proof.
  intros Hs Hp. induction Hp as [|p parts Hp Hps IH]; simpl; [constructor|].
  destruct parts as [|q parts]; [exact Hp|].
  apply Forall_app. split; [exact Hp|].
  apply Forall_app. split; [exact Hs | exact IH].
Qed.

Lemma uint_plain (d : Decimal.uint) :
  Forall plain_char (lit (NilEmpty.string_of_uint d)).
Proof.
  induction d; simpl; try (constructor; [|exact IHd]);
    try (apply plain_charb_true; reflexivity).
  constructor.
Qed.

Lemma int_plain (n : Z) :
  Forall plain_char (lit (NilZero.string_of_int (Z.to_int n))).
Proof.
  unfold NilZero.string_of_int.
  destruct (Z.to_int n) as [d|d]; unfold NilZero.string_of_uint.
  - destruct d; try apply uint_plain. apply plain_text. reflexivity.
  - change (Forall plain_char
              (45%N
               :: lit (match d with
                       | Decimal.Nil => "0"%string
                       | _ => NilEmpty.string_of_uint d
                       end))).
    constructor; [apply plain_charb_true; reflexivity|].
    destruct d; try apply uint_plain. apply plain_text. reflexivity.
Qed.

(** Every character of a rendered document is printable ASCII or a
    newline. *)
Lemma render_plain : forall (j : json) (level : nat),
  Forall plain_char (render level j).
Proof.
  fix IH 1. intros j level. destruct j as [ | b | n | s | members].
  - apply plain_text. reflexivity.
  - destruct b; apply plain_text; reflexivity.
  - apply int_plain.
  - apply quote_plain.
  - destruct members as [|m ms]; [apply plain_text; reflexivity|].
    cbn [render].
    apply Forall_app. split; [apply plain_text; reflexivity|].
    apply Forall_app. split; [apply newline_indent_plain|].
    apply Forall_app. split.
    + apply join_plain.
      * apply Forall_app. split;
          [apply plain_text; reflexivity | apply newline_indent_plain].
      * generalize (m :: ms). intros l.
        induction l as [|[k v] l IHl]; cbn [map]; constructor; [|exact IHl].
        apply Forall_app. split; [apply quote_plain|].
        apply Forall_app. split; [apply plain_text; reflexivity|].
        apply IH.
    + apply Forall_app. split;
        [apply newline_indent_plain | apply plain_text; reflexivity].
Qed.

End RenderFacts.

Section PlainOutput.
Import PyStr Tree Json RenderFacts.

Lemma option_map_some (A B : Type) (g : A -> B) (o : option A) (y : B) :
  option_map g o = Some y -> exists x, o = Some x /\ y = g x.
Proof.
  destruct o as [x|]; [|discriminate]. intros H.
  exists x. split; [reflexivity|]. simpl in H. congruence.
Qed.

(** X8.  Everything these programs write with [json.dump] or [json.dumps]
    is plain ASCII: each character of the registry file, of the three
    output formats of the version extractor and of the policy snapshot is a
    printable ASCII character or a newline (other characters of the
    documents are written as escapes). *)
Theorem written_json_is_plain_ascii :
  (forall (b : Builder.State) (written : str),
      Builder.save_registry b = Some written -> Forall plain_char written)
  /\ (forall format to_file status r now result text,
        Output.main format to_file status r now = Some result ->
        Output.file_text result = Some text
        \/ Output.stdout_text result = Some text ->
        Forall plain_char text)
  /\ (forall run_id now files written,
        PolicyCapture.capture_snapshot run_id now files = Some written ->
        Forall plain_char written).
Proof.
  split; [|split].
  - intros b written H. unfold Builder.save_registry, Builder.dump_registry in H.
    apply option_map_some in H. destruct H as (m & _ & ->).
    apply render_plain.
  - intros format to_file status r now result text. unfold Output.main.
    destruct (Extractor.scan_documents Extractor.init status r) as [ex n].
    assert (Hout : forall t,
              match format with
              | Output.FJson => Output.to_json ex
              | Output.FLedger =>
                  Some (Output.dump_ledger (Output.to_ledger_entry ex now))
              | Output.FSimple => Output.dump_simple ex
              end = Some t -> Forall plain_char t).
    { intros t Ht. destruct format.
      - apply option_map_some in Ht. destruct Ht as (m & _ & ->).
        apply render_plain.
      - apply option_map_some in Ht. destruct Ht as (m & _ & ->).
        apply render_plain.
      - assert (E : t = Output.dump_ledger (Output.to_ledger_entry ex now))
          by congruence.
        rewrite E. apply render_plain. }
    destruct (match format with
              | Output.FJson => Output.to_json ex
              | Output.FLedger =>
                  Some (Output.dump_ledger (Output.to_ledger_entry ex now))
              | Output.FSimple => Output.dump_simple ex
              end) as [t|]; [|discriminate].
    pose proof (Hout t eq_refl) as Ht. clear Hout.
    intros Hres Htext.
    assert (Hcase : text = t \/ text = t ++ [nl]).
    { destruct to_file; injection Hres as <-;
        cbn [Output.file_text Output.stdout_text] in Htext;
        destruct Htext as [H|H]; try discriminate H;
        [left | right]; congruence. }
    destruct Hcase as [-> | ->]; [exact Ht|].
    apply Forall_app. split; [exact Ht|]. apply plain_text. reflexivity.
  - intros run_id now files written H.
    apply option_map_some in H. destruct H as (m & _ & ->).
    apply render_plain.
Qed.

Lemma written_json_is_plain_ascii_witness :
  exists written,
    Builder.save_registry
      (fst (Builder.scan_documents Builder.init
              {| docs := Some [Sample.retention]; plans := None |}))
    = Some written
    /\ Forall plain_char written.
Proof.
  eexists. split; [reflexivity|].
  apply (proj1 written_json_is_plain_ascii
           (fst (Builder.scan_documents Builder.init
                   {| docs := Some [Sample.retention]; plans := None |}))).
  reflexivity.
Defined.

End PlainOutput.

(* ------------------------------------------------------------------ *)
(** ** What the header parsers return *)

Module MappingFacts.
Import PyStr StrFacts LineFacts ParserFacts.

Lemma strip_idem (s : str) : strip (strip s) = strip s.
Proof.
  unfold strip at 2. unfold strip_by. unfold strip.
  now rewrite strip_by_rstrip, strip_by_lstrip.
Qed.

Lemma null_or_some (x s : str) :
  Builder.null_or x = Some s -> s = x /\ ~ null_text s.
Proof.
  intros H. destruct (stored_builder x) as [[_ E]|[Hn E]]; [congruence|].
  rewrite E in H. inversion H; subst. auto.
Qed.

Lemma in_extractor_unquote (c : char) (s : str) :
  In c (Extractor.unquote s) -> In c s.
Proof.
  unfold Extractor.unquote, strip_chars. intros H.
  now apply in_strip_by, in_strip_by in H.
Qed.

Lemma builder_line_some (line k : str) (v : option str) :
  Builder.parse_line line = Some (k, v) ->
  exists a b, line = a ++ colon :: b /\ ~ In colon a /\ k = strip a
              /\ v = Builder.null_or (Builder.unquote (strip b)).
Proof.
  intros H. destruct (in_dec N.eq_dec colon line) as [Hin|Hn].
  - destruct (in_first colon line Hin) as (a & b & -> & Ha).
    rewrite builder_line in H by assumption. inversion H; subst.
    exists a, b. auto.
  - rewrite builder_line_none in H by assumption. discriminate.
Qed.

Lemma extractor_line_some (line k : str) (v : option str) :
  Extractor.parse_line line = Some (k, v) ->
  exists a b, line = a ++ colon :: b /\ ~ In colon a /\ k = strip a
              /\ v = Extractor.null_or (Extractor.unquote (strip b)).
Proof.
  intros H. destruct (in_dec N.eq_dec colon line) as [Hin|Hn].
  - destruct (in_first colon line Hin) as (a & b & -> & Ha).
    rewrite extractor_line in H by assumption. inversion H; subst.
    exists a, b. auto.
  - rewrite extractor_line_none in H by assumption. discriminate.
Qed.

Lemma well_parsed_pair (a b : str) (x : str) :
  ~ In colon a -> ~ In nl (a ++ colon :: b) ->
  (forall c, In c x -> In c (strip b)) ->
  well_parsed (strip a, Builder.null_or x).
Proof.
  intros Ha Hnl Hx. unfold well_parsed. simpl.
  split; [apply strip_idem|].
  split; [intros I; apply Ha; eapply in_strip_by; exact I|].
  split.
  - intros I. apply Hnl. apply in_or_app. left. eapply in_strip_by. exact I.
  - intros s Hs. apply null_or_some in Hs. destruct Hs as [-> Hn].
    split; [exact Hn|]. intros I. apply Hnl. apply in_or_app. right. right.
    eapply in_strip_by. apply Hx. exact I.
Qed.

Lemma builder_line_well_parsed (line k : str) (v : option str) :
  ~ In nl line -> Builder.parse_line line = Some (k, v) -> well_parsed (k, v).
Proof.
  intros Hnl H. destruct (builder_line_some line k v H)
    as (a & b & -> & Ha & -> & ->).
  apply (well_parsed_pair a b); auto.
  intros c. apply SemverFacts.in_unquote.
Qed.

Lemma extractor_line_well_parsed (line k : str) (v : option str) :
  ~ In nl line -> Extractor.parse_line line = Some (k, v) ->
  well_parsed (k, v).
Proof.
  intros Hnl H. destruct (extractor_line_some line k v H)
    as (a & b & -> & Ha & -> & ->).
  apply (well_parsed_pair a b); auto.
  intros c. apply in_extractor_unquote.
Qed.

Section Sets.
Variables K V : Type.
Variable eq_dec : forall a b : K, {a = b} + {a <> b}.

Lemma set_forall (P : K * V -> Prop) (k : K) (v : V) :
  forall d : PyDict.dict K V,
    Forall P d -> P (k, v) -> Forall P (PyDict.set eq_dec k v d).
Proof.
  induction d as [|[k' v'] d IH]; intros Hd Hp; simpl.
  - constructor; [exact Hp | constructor].
  - inversion Hd; subst.
    destruct (eq_dec k k') as [E|N]; constructor; auto. now subst.
Qed.

Lemma set_nodup (k : K) (v : V) (d : PyDict.dict K V) :
  NoDup (PyDict.keys d) -> NoDup (PyDict.keys (PyDict.set eq_dec k v d)).
Proof.
  intros ND. destruct (PyDict.get eq_dec k d) as [x|] eqn:E.
  - rewrite keys_set_present; [exact ND | congruence].
  - rewrite (keys_set_absent K V eq_dec k v d E).
    unfold PyDict.keys. rewrite map_app. simpl. apply NoDup_app.
    + exact ND.
    + constructor; [auto | constructor].
    + intros y Hy [<-|[]].
      apply (get_none_not_in K V eq_dec k d) in E. contradiction.
Qed.

Lemma set_not_nil (k : K) (v : V) (d : PyDict.dict K V) :
  PyDict.set eq_dec k v d <> [].
Proof.
  destruct d as [|[k' v'] d]; simpl; [discriminate|].
  destruct (eq_dec k k'); discriminate.
Qed.

End Sets.

(** The loop over the lines, for either parser. *)
Section Loop.
Variable parse_line : str -> option (str * option str).
Hypothesis parse_line_well :
  forall line k v, ~ In nl line -> parse_line line = Some (k, v) ->
                   well_parsed (k, v).
Hypothesis parse_line_colon :
  forall line, parse_line line = None <-> ~ In colon line.

Variable add : PyDict.dict str (option str) -> str
               -> PyDict.dict str (option str).
Hypothesis add_body :
  forall metadata line,
    add metadata line
    = match parse_line line with
      | Some (key, value) => PyDict.set str_eq_dec key value metadata
      | None => metadata
      end.

Lemma loop_well (lines : list str) :
  Forall (fun l => ~ In nl l) lines ->
  forall m, NoDup (PyDict.keys m) /\ Forall well_parsed m ->
            NoDup (PyDict.keys (fold_left add lines m))
            /\ Forall well_parsed (fold_left add lines m).
Proof.
  induction 1 as [|l lines Hl _ IH]; intros m [Hn Hw]; simpl; [auto|].
  apply IH. rewrite add_body.
  destruct (parse_line l) as [[k v]|] eqn:E; [|auto].
  split; [now apply set_nodup|].
  apply set_forall; [exact Hw|]. now apply (parse_line_well l).
Qed.

Lemma loop_nil (lines : list str) :
  forall m, fold_left add lines m = []
            <-> m = [] /\ Forall (fun l => ~ In colon l) lines.
Proof.
  induction lines as [|l lines IH]; intros m; simpl.
  - split; [intros ->; auto | tauto].
  - rewrite IH, add_body.
    destruct (parse_line l) as [[k v]|] eqn:E.
    + split.
      * intros [H _]. exfalso. exact (set_not_nil _ _ _ _ _ _ H).
      * intros [_ H]. inversion H as [|? ? Hl _]; subst.
        apply parse_line_colon in Hl. congruence.
    + apply parse_line_colon in E. split.
      * intros [-> H]. auto.
      * intros [-> H]. inversion H; subst. auto.
Qed.

End Loop.

Lemma builder_colon (line : str) :
  Builder.parse_line line = None <-> ~ In colon line.
Proof.
  split; [|apply builder_line_none].
  intros H Hin. destruct (in_first colon line Hin) as (a & b & -> & Ha).
  rewrite builder_line in H by assumption. discriminate.
Qed.

Lemma extractor_colon (line : str) :
  Extractor.parse_line line = None <-> ~ In colon line.
Proof.
  split; [|apply extractor_line_none].
  intros H Hin. destruct (in_first colon line Hin) as (a & b & -> & Ha).
  rewrite extractor_line in H by assumption. discriminate.
Qed.

(** Without an occurrence of the separator nothing is split off. *)
Lemma split_absent (sep : str) (m : option nat) (s : str) :
  contains sep s = false -> split_go sep 0 m s = [s].
Proof.
  induction s as [|c s IH]; intros H; [reflexivity|].
  cbn [contains] in H. apply orb_false_iff in H. destruct H as [H1 H2].
  cbn [split_go]. rewrite H1, andb_false_r, (IH H2). reflexivity.
Qed.

Lemma builder_fold_well (lines : list str) :
  Forall (fun l => ~ In nl l) lines ->
  NoDup (PyDict.keys (fold_left Builder.add_line lines []))
  /\ Forall well_parsed (fold_left Builder.add_line lines []).
Proof.
  intros H.
  apply (loop_well Builder.parse_line builder_line_well_parsed
           Builder.add_line (fun m l => eq_refl) lines H).
  split; constructor.
Qed.

Lemma extractor_fold_well (lines : list str) :
  Forall (fun l => ~ In nl l) lines ->
  NoDup (PyDict.keys (fold_left Extractor.add_line lines []))
  /\ Forall well_parsed (fold_left Extractor.add_line lines []).
Proof.
  intros H.
  apply (loop_well Extractor.parse_line extractor_line_well_parsed
           Extractor.add_line (fun m l => eq_refl) lines H).
  split; constructor.
Qed.

Lemma builder_content (content : str) :
  Builder.parse_content content
  = match fold_left Builder.add_line (header_lines content) [] with
    | [] => None
    | m => Some m
    end.
Proof.
  unfold Builder.parse_content, header_lines.
  destruct (negb (startswith (lit "---") content)); [reflexivity|].
  destruct (length (split (lit "---") (Some 2) content) <? 3);
    [reflexivity|].
  cbv zeta.
  destruct (fold_left Builder.add_line _ []); reflexivity.
Qed.

Lemma extractor_content (content : str) :
  Extractor.parse_content content
  = match fold_left Extractor.add_line (header_lines content) [] with
    | [] => None
    | m => Some m
    end.
Proof.
  unfold Extractor.parse_content, header_lines.
  destruct (negb (startswith (lit "---") content)); [reflexivity|].
  destruct (length (split (lit "---") (Some 2) content) <? 3);
    [reflexivity|].
  cbv zeta.
  destruct (fold_left Extractor.add_line _ []); reflexivity.
Qed.

Lemma header_lines_no_nl (content : str) :
  Forall (fun l => ~ In nl l) (header_lines content).
Proof.
  unfold header_lines.
  destruct (negb (startswith (lit "---") content)); [constructor|].
  destruct (length (split (lit "---") (Some 2) content) <? 3);
    [constructor|].
  apply split_lines_no_nl.
Qed.

End MappingFacts.

Section ParsedHeaders.
Import PyStr Tree StrFacts MappingFacts.

(** X9.  The mapping either header parser returns is never empty, holds
    each key once, and every pair in it is well formed: the key is trimmed
    and has neither colon nor newline, and the value is [None] or a text
    without newline that is not one of the null texts (the empty text, the
    tilde, the word null in any case). *)
Theorem parsed_header_is_well_formed :
  forall (content : str) (metadata : PyDict.dict str (option str)),
    Builder.parse_content content = Some metadata
    \/ Extractor.parse_content content = Some metadata ->
    metadata <> []
    /\ NoDup (PyDict.keys metadata)
    /\ Forall well_parsed metadata.
Proof.
  intros content metadata [H|H].
  - rewrite builder_content in H.
    pose proof (builder_fold_well _ (header_lines_no_nl content)) as W.
    destruct (fold_left Builder.add_line (header_lines content) [])
      as [|e m]; [discriminate|].
    injection H as <-. split; [discriminate | exact W].
  - rewrite extractor_content in H.
    pose proof (extractor_fold_well _ (header_lines_no_nl content)) as W.
    destruct (fold_left Extractor.add_line (header_lines content) [])
      as [|e m]; [discriminate|].
    injection H as <-. split; [discriminate | exact W].
Qed.

Lemma parsed_header_is_well_formed_witness :
  exists metadata,
    Builder.parse_content
      (text ["---"; "doc_key: policy.retention"; "owner: ~"; "---"; "Body"])
    = Some metadata
    /\ metadata <> []
    /\ NoDup (PyDict.keys metadata)
    /\ Forall well_parsed metadata.
Proof.
  destruct (Builder.parse_content
              (text ["---"; "doc_key: policy.retention"; "owner: ~"; "---";
                     "Body"])) as [metadata|] eqn:E;
    [|vm_compute in E; discriminate E].
  exists metadata. split; [reflexivity|].
  exact (parsed_header_is_well_formed _ metadata (or_introl E)).
Defined.

(** X10.  Each header parser returns no mapping exactly when no line of the
    header block has a colon (a content without header block has no such
    line), so both parsers find a header in the same contents; a content
    that has the opening marker but no second marker has no header. *)
Theorem header_absent_iff_no_colon_line :
  forall content : str,
    (Builder.parse_content content = None
     <-> Forall (fun l => ~ In colon l) (header_lines content))
    /\ (Extractor.parse_content content = None
        <-> Forall (fun l => ~ In colon l) (header_lines content))
    /\ (startswith (lit "---") content = false -> header_lines content = [])
    /\ (forall rest, content = lit "---" ++ rest ->
                     contains (lit "---") rest = false ->
                     header_lines content = []).
Proof.
  intros content. split; [|split; [|split]].
  - rewrite builder_content.
    pose proof (loop_nil Builder.parse_line builder_colon Builder.add_line
                  (fun m l => eq_refl) (header_lines content) []) as L.
    destruct (fold_left Builder.add_line (header_lines content) [])
      as [|e m] eqn:E.
    + apply L in E. split; [intros _; exact (proj2 E) | reflexivity].
    + split; [discriminate|]. intros H.
      pose proof (proj2 L (conj eq_refl H)) as E'.
      pose proof (eq_trans (eq_sym E) E') as X. discriminate X.
  - rewrite extractor_content.
    pose proof (loop_nil Extractor.parse_line extractor_colon
                  Extractor.add_line
                  (fun m l => eq_refl) (header_lines content) []) as L.
    destruct (fold_left Extractor.add_line (header_lines content) [])
      as [|e m] eqn:E.
    + apply L in E. split; [intros _; exact (proj2 E) | reflexivity].
    + split; [discriminate|]. intros H.
      pose proof (proj2 L (conj eq_refl H)) as E'.
      pose proof (eq_trans (eq_sym E) E') as X. discriminate X.
  - intros H. unfold header_lines. now rewrite H.
  - intros rest -> H. unfold header_lines, split.
    change (lit "---" ++ rest)
      with (45%N :: 45%N :: 45%N :: rest).
    change (lit "---") with [45%N; 45%N; 45%N].
    cbn [startswith N.eqb Bool.eqb andb negb split_go can_split
         length Nat.sub one_less option_map].
    change (split_go [45%N; 45%N; 45%N] 0 (Some 1) rest)
      with (split_go (lit "---") 0 (Some 1) rest).
    rewrite (split_absent _ _ _ H). reflexivity.
Qed.

End ParsedHeaders.

(* ------------------------------------------------------------------ *)
(** ** The version extractor: which entries it keeps *)

Module StoreFacts.
Import PyStr Tree Extractor CountFacts.

Section Stored.
Variables K V : Type.
Variable eq_dec : forall a b : K, {a = b} + {a <> b}.

Lemma in_set (k : K) (v : V) (e : K * V) (d : PyDict.dict K V) :
  In e (PyDict.set eq_dec k v d) -> e = (k, v) \/ In e d.
Proof.
  induction d as [|[k' v'] d IH]; simpl.
  - intros [H|[]]; auto.
  - destruct (eq_dec k k') as [E|N]; simpl.
    + intros [H|H]; [left; congruence | auto].
    + intros [H|H]; [auto | destruct (IH H); auto].
Qed.

Lemma get_set (k k0 : K) (v : V) (d : PyDict.dict K V) :
  PyDict.get eq_dec k0 (PyDict.set eq_dec k v d)
  = if eq_dec k k0 then Some v else PyDict.get eq_dec k0 d.
Proof.
  destruct (eq_dec k k0) as [E|N].
  - subst. apply get_set_same.
  - apply get_set_other. congruence.
Qed.

End Stored.

Lemma in_fold_store (e : option str * DocumentVersion)
  (es : list (option str * DocumentVersion)) :
  forall d : State, In e (fold_left store es d) -> In e d \/ In e es.
Proof.
  induction es as [|x es IH]; intros d H; cbn [fold_left] in H; [auto|].
  destruct (IH _ H) as [H1|H1]; [|right; right; exact H1].
  unfold store in H1. apply in_set in H1. destruct H1 as [H1|H1].
  - right. left. destruct x. symmetry. exact H1.
  - auto.
Qed.

Lemma get_fold_store (k : option str)
  (es : list (option str * DocumentVersion)) :
  forall d : State,
    PyDict.get optstr_eq_dec k (fold_left store es d)
    = match last_entry k es with
      | Some v => Some v
      | None => PyDict.get optstr_eq_dec k d
      end.
Proof.
  induction es as [|x es IH]; intros d; cbn [fold_left last_entry];
    [reflexivity|].
  rewrite IH. destruct (last_entry k es); [reflexivity|].
  unfold store. rewrite get_set.
  destruct (optstr_eq_dec (fst x) k); reflexivity.
Qed.

Lemma in_entries (sf : option str) (e : option str * DocumentVersion)
  (files : list File) :
  In e (entries sf files) <-> exists f, In f files /\ qualifies sf f = Some e.
Proof.
  unfold entries. rewrite in_flat_map. split.
  - intros (f & Hf & H). exists f. split; [exact Hf|].
    destruct (qualifies sf f) as [x|]; [|contradiction].
    destruct H as [H|[]]. now subst.
  - intros (f & Hf & H). exists f. split; [exact Hf|]. rewrite H. now left.
Qed.

Lemma qualifies_status (wanted : str) (f : File)
  (e : option str * DocumentVersion) :
  wanted <> [] -> qualifies (Some wanted) f = Some e ->
  status (snd e) = Some wanted.
Proof.
  intros Hw. unfold qualifies.
  destruct (extract_frontmatter f) as [metadata|];
    [|intros H; discriminate H].
  destruct (mem (lit "doc_key") metadata); cbn [andb negb]; cbv beta iota;
    [|intros H; discriminate H].
  destruct (filtered_out (Some wanted) metadata) eqn:F; cbn [andb negb];
    cbv beta iota; [intros H; discriminate H|].
  destruct (forallb (fun fld => mem fld metadata) required);
    [|intros H; discriminate H].
  intros [= <-]. cbn [snd version_of status].
  unfold filtered_out in F. destruct wanted as [|c w]; [congruence|].
  cbv beta iota in F.
  match type of F with
  | (if ?x then _ else _) = _ => destruct x as [E|N]
  end; [exact E | discriminate F].
Qed.

Lemma entries_empty_filter (files : list File) :
  entries (Some []) files = entries None files.
Proof. reflexivity. Qed.

End StoreFacts.

Section ExtractorScan.
Import PyStr Tree Extractor CountFacts StoreFacts.

(** X11.  With a status filter that is not the empty text, every version
    the extractor holds after a scan has exactly that status; the empty
    text as filter is the same as no filter. *)
Theorem status_filter_is_exact :
  forall (wanted : str) (r : Repo) (k : option str) (v : DocumentVersion),
    (wanted <> [] ->
     In (k, v) (fst (scan_documents init (Some wanted) r)) ->
     status v = Some wanted)
    /\ scan_documents init (Some []) r = scan_documents init None r.
Proof.
  intros wanted r k v. split.
  - intros Hw Hin. rewrite scan_documents_entries in Hin. cbn [fst] in Hin.
    apply in_fold_store in Hin. destruct Hin as [[]|Hin].
    apply in_entries in Hin. destruct Hin as (f & _ & Hq).
    exact (qualifies_status wanted f (k, v) Hw Hq).
  - rewrite !scan_documents_entries. now rewrite entries_empty_filter.
Qed.

Lemma status_filter_is_exact_witness :
  let r := {| docs := Some [Sample.retention; deprecated_doc];
              plans := None |} in
  exists k v,
    In (k, v) (fst (scan_documents init (Some (lit "active")) r))
    /\ status v = Some (lit "active").
Proof.
  intros r.
  destruct (fst (scan_documents init (Some (lit "active")) r))
    as [|[k v] rest] eqn:E; [vm_compute in E; discriminate E|].
  assert (Hin : In (k, v)
                  (fst (scan_documents init (Some (lit "active")) r)))
    by (rewrite E; now left).
  rewrite <- E. exists k, v. split; [exact Hin|].
  apply (proj1 (status_filter_is_exact (lit "active") r k v));
    [discriminate | exact Hin].
Defined.

(** X12.  The extractor keeps, for each [doc_key], the version of the last
    qualifying document of the traversal that declares it: a later document
    replaces the entry of an earlier one (the registry builder keeps the
    first and reports the others). *)
Theorem extractor_last_document_wins :
  forall (status_filter : option str) (r : Repo) (k : option str),
    PyDict.get optstr_eq_dec k (fst (scan_documents init status_filter r))
    = last_entry k (entries status_filter (walk r)).
Proof.
  intros sf r k. rewrite scan_documents_entries. cbn [fst].
  rewrite get_fold_store. destruct (last_entry k _); reflexivity.
Qed.

End ExtractorScan.

Section ExtractorMain.
Import PyStr Tree Json Extractor SortFacts.

Lemma dump_raises (W : Type) (g : DocumentVersion -> W) (versions : State) :
  members_sorted (map (fun kv => (fst kv, g (snd kv))) versions) = None
  <-> In None (PyDict.keys versions) /\ 2 <= length versions.
Proof.
  rewrite members_sorted_none.
  change (map fst (map (fun kv => (fst kv, g (snd kv))) versions))
    with (PyDict.keys (map (fun kv => (fst kv, g (snd kv))) versions)).
  rewrite keys_map_values, length_map. reflexivity.
Qed.

(** X13.  The entry point of the version extractor raises exactly when the
    format is [json] or [simple] and the scan kept at least two versions one
    of which has [None] as its key (the sort of the keys fails); the
    [ledger] format never raises.  When it returns, the exit status is 0 and
    the text goes to the output file alone if one was named, and to the
    standard output, followed by a newline, otherwise. *)
Theorem extractor_main_outcomes :
  forall (format : Output.Format) (to_file : bool) (status : option str)
         (r : Repo) (now : str),
    (Output.main format to_file status r now = None
     <-> format <> Output.FLedger
         /\ In None (PyDict.keys (fst (scan_documents init status r)))
         /\ 2 <= length (fst (scan_documents init status r)))
    /\ (forall result,
          Output.main format to_file status r now = Some result ->
          Output.exit_status result = 0
          /\ exists text,
               if to_file
               then Output.file_text result = Some text
                    /\ Output.stdout_text result = None
               else Output.file_text result = None
                    /\ Output.stdout_text result = Some (text ++ [nl])).
Proof.
  intros format to_file status r now. unfold Output.main.
  destruct (scan_documents init status r) as [ex n]. cbn [fst].
  split.
  - destruct format.
    + unfold Output.to_json, to_dict.
      pose proof (dump_raises _ asdict ex) as R.
      destruct (members_sorted (map (fun kv => (fst kv, asdict (snd kv))) ex)).
      * cbn [option_map]. split; [intros H; discriminate H|].
        intros [_ H]. apply R in H. discriminate H.
      * cbn [option_map]. split; [|reflexivity]. intros _.
        split; [intros H; discriminate H | now apply R].
    + unfold Output.dump_simple, to_simple_dict.
      pose proof (dump_raises _ semver ex) as R.
      destruct (members_sorted (map (fun kv => (fst kv, semver (snd kv))) ex)).
      * cbn [option_map]. split; [intros H; discriminate H|].
        intros [_ H]. apply R in H. discriminate H.
      * cbn [option_map]. split; [|reflexivity]. intros _.
        split; [intros H; discriminate H | now apply R].
    + split; [intros H; discriminate H|]. intros [H _]. now contradiction H.
  - intros result.
    destruct (match format with
              | Output.FJson => Output.to_json ex
              | Output.FLedger =>
                  Some (Output.dump_ledger (Output.to_ledger_entry ex now))
              | Output.FSimple => Output.dump_simple ex
              end) as [t|]; [|intros H; discriminate H].
    destruct to_file; intros [= <-]; cbn; split; try reflexivity;
      exists t; split; reflexivity.
Qed.

Lemma extractor_main_outcomes_witness :
  exists result,
    Output.main Output.FSimple false None
      {| docs := Some [Sample.retention]; plans := None |}
      (lit "2024-01-01T00:00:00") = Some result
    /\ Output.exit_status result = 0.
Proof.
  destruct (Output.main Output.FSimple false None
              {| docs := Some [Sample.retention]; plans := None |}
              (lit "2024-01-01T00:00:00")) as [result|] eqn:E;
    [|vm_compute in E; discriminate E].
  exists result. split; [reflexivity|].
  exact (proj1 (proj2 (extractor_main_outcomes Output.FSimple false None
                         {| docs := Some [Sample.retention]; plans := None |}
                         (lit "2024-01-01T00:00:00")) result E)).
Defined.

End ExtractorMain.

(* ------------------------------------------------------------------ *)
(** ** The pipeline run: how the steps compose *)

Section PipelineRun.
Import PyStr Tree Json Integration Runs.

Lemma capture_policy_snapshot_inv (rid now : str) (r : Repo)
  (d d1 : RunDir) (s : Integration.Snapshot) :
  capture_policy_snapshot rid now r d = Some (d1, s) ->
  run_id s = rid /\ timestamp s = stamp now
  /\ event s = lit "policy_snapshot"
  /\ policy_count s
     = snd (Extractor.scan_documents Extractor.init (Some (lit "active")) r)
  /\ policy_snapshot_json d1 = snapshot_file s
  /\ snapshot_file s <> None
  /\ ledger_jsonl d1 = ledger_jsonl d
  /\ metadata_json d1 = metadata_json d.
Proof.
  unfold capture_policy_snapshot.
  destruct (Extractor.scan_documents Extractor.init (Some (lit "active")) r)
    as [ex n].
  cbv zeta.
  destruct (snapshot_file _) as [doc|] eqn:E; [|intros H; discriminate H].
  intros H. injection H as <- <-. cbn [run_id timestamp event policy_count
    policy_snapshot_json ledger_jsonl metadata_json snd].
  rewrite E. repeat split; try reflexivity. discriminate.
Qed.

(** X14.  A run of [example_run] that returns has appended exactly two
    events to the ledger, the policy snapshot and then the completion with
    [success] true, and has left in the run directory the snapshot file of
    that same snapshot; it raises exactly when capturing the snapshot
    raises, so the finalization after a successful initialization never
    fails. *)
Theorem example_run_trace :
  forall (rid now1 now2 now3 : str) (r : Repo) (d : RunDir),
    (example_run rid now1 now2 now3 r d = None
     <-> capture_policy_snapshot rid now1 r d = None)
    /\ (forall d',
          example_run rid now1 now2 now3 r d = Some d' ->
          exists d1 s,
            capture_policy_snapshot rid now1 r d = Some (d1, s)
            /\ policy_snapshot_json d' = snapshot_file s
            /\ ledger_jsonl d'
               = ledger_jsonl d
                 ++ [snapshot_event s; run_complete rid (stamp now3) true]).
Proof.
  intros rid now1 now2 now3 r d. unfold example_run, initialize_run.
  destruct (capture_policy_snapshot rid now1 r d) as [[d1 s]|] eqn:C.
  - destruct (capture_policy_snapshot_inv _ _ _ _ _ _ C)
      as (_ & _ & _ & _ & Hfile & _ & Hledger & _).
    unfold finalize_run, append_to_ledger, obj.
    cbn [metadata_json policy_snapshot_json ledger_jsonl].
    split; [split; intros H; discriminate H|].
    intros d' [= <-]. exists d1, s. split; [reflexivity|].
    cbn [metadata_json policy_snapshot_json ledger_jsonl].
    split; [exact Hfile|]. rewrite Hledger, <- app_assoc. reflexivity.
  - split; [split; reflexivity|]. intros d' H. discriminate H.
Qed.

Lemma example_run_trace_witness :
  exists d',
    example_run (lit "R1") (lit "2024-01-01T00:00:00")
      (lit "2024-01-01T00:00:01") (lit "2024-01-01T00:05:00")
      {| docs := Some [Sample.retention]; plans := None |} empty_run
    = Some d'
    /\ length (ledger_jsonl d') = 2.
Proof.
  destruct (example_run (lit "R1") (lit "2024-01-01T00:00:00")
              (lit "2024-01-01T00:00:01") (lit "2024-01-01T00:05:00")
              {| docs := Some [Sample.retention]; plans := None |} empty_run)
    as [d'|] eqn:E; [|vm_compute in E; discriminate E].
  exists d'. split; [reflexivity|].
  destruct (proj2 (example_run_trace (lit "R1") (lit "2024-01-01T00:00:00")
              (lit "2024-01-01T00:00:01") (lit "2024-01-01T00:05:00")
              {| docs := Some [Sample.retention]; plans := None |} empty_run)
              d' E) as (d1 & s & _ & _ & L).
  rewrite L. reflexivity.
Defined.

(** X15.  Finalizing a run a second time succeeds whenever the first did.
    The metadata keeps the same keys in the same order, [end_time] and
    [success] hold the values of the second call, every other member is
    unchanged, and the ledger holds both completion events in the order of
    the calls. *)
Theorem finalize_run_twice :
  forall (rid : str) (s1 s2 : bool) (n1 n2 : str) (d d1 : RunDir),
    finalize_run rid s1 n1 d = Some d1 ->
    exists d2 m1 m2,
      finalize_run rid s2 n2 d1 = Some d2
      /\ metadata_json d1 = Some (JObj m1)
      /\ metadata_json d2 = Some (JObj m2)
      /\ PyDict.keys m2 = PyDict.keys m1
      /\ PyDict.get str_eq_dec (lit "end_time") m2 = Some (JStr (stamp n2))
      /\ PyDict.get str_eq_dec (lit "success") m2 = Some (JBool s2)
      /\ (forall k, k <> lit "end_time" -> k <> lit "success" ->
                    PyDict.get str_eq_dec k m2 = PyDict.get str_eq_dec k m1)
      /\ policy_snapshot_json d2 = policy_snapshot_json d
      /\ ledger_jsonl d2
         = ledger_jsonl d ++ [run_complete rid (stamp n1) s1;
                              run_complete rid (stamp n2) s2].
Proof.
  intros rid s1 s2 n1 n2 d d1. unfold finalize_run at 1.
  destruct (metadata_json d) as [[| | | |m]|]; try (intros H; discriminate H).
  intros [= <-]. unfold finalize_run, append_to_ledger.
  cbn [metadata_json policy_snapshot_json ledger_jsonl].
  set (m1 := PyDict.set str_eq_dec (lit "success") (JBool s1)
               (PyDict.set str_eq_dec (lit "end_time") (JStr (stamp n1)) m)).
  set (m2 := PyDict.set str_eq_dec (lit "success") (JBool s2)
               (PyDict.set str_eq_dec (lit "end_time") (JStr (stamp n2)) m1)).
  eexists _, m1, m2. split; [reflexivity|].
  cbn [metadata_json policy_snapshot_json ledger_jsonl].
  assert (He : PyDict.get str_eq_dec (lit "end_time") m1 <> None).
  { unfold m1. rewrite get_set_other by discriminate.
    rewrite get_set_same. discriminate. }
  assert (Hs : PyDict.get str_eq_dec (lit "success") m1 <> None).
  { unfold m1. rewrite get_set_same. discriminate. }
  split; [reflexivity|]. split; [reflexivity|].
  split.
  { unfold m2. rewrite keys_set_present.
    - now apply keys_set_present.
    - rewrite get_set_other by discriminate. exact Hs. }
  split.
  { unfold m2. rewrite get_set_other by discriminate. apply get_set_same. }
  split; [unfold m2; apply get_set_same|].
  split.
  { intros k K1 K2. unfold m2. now rewrite !get_set_other. }
  split; [reflexivity|]. rewrite <- app_assoc. reflexivity.
Qed.

Lemma finalize_run_twice_witness :
  let d := {| policy_snapshot_json := None; ledger_jsonl := [];
              metadata_json := Some (JObj [(lit "run_id", JStr (lit "R1"))]) |}
  in
  exists d1 d2,
    finalize_run (lit "R1") false (lit "2024-01-01T00:05:00") d = Some d1
    /\ finalize_run (lit "R1") true (lit "2024-01-01T00:06:00") d1 = Some d2.
Proof.
  intros d.
  destruct (finalize_run (lit "R1") false (lit "2024-01-01T00:05:00") d)
    as [d1|] eqn:E; [|vm_compute in E; discriminate E].
  destruct (finalize_run_twice (lit "R1") false true
              (lit "2024-01-01T00:05:00") (lit "2024-01-01T00:06:00") d d1 E)
    as (d2 & m1 & m2 & H & _).
  exists d1, d2. split; [reflexivity | exact H].
Defined.

(** X16.  What [capture_policy_snapshot] writes, [query_historical_policies]
    reads back: after a capture that returns, the query on the same run
    directory returns the captured document (it neither raises nor reports
    a missing snapshot), and that document holds the run identifier, the
    time stamp and the policy count of the snapshot.  The capture leaves the
    ledger and the metadata file as they were, and without a snapshot file
    the query reports that none was found. *)
Theorem captured_snapshot_is_queryable :
  forall (rid now : str) (r : Repo) (d : RunDir),
    (forall d1 s,
        capture_policy_snapshot rid now r d = Some (d1, s) ->
        ledger_jsonl d1 = ledger_jsonl d
        /\ metadata_json d1 = metadata_json d
        /\ exists members,
             query_historical_policies d1 = Runs.Snapshot (JObj members)
             /\ policy_snapshot_json d1 = Some (JObj members)
             /\ PyDict.get str_eq_dec (lit "run_id") members
                = Some (JStr rid)
             /\ PyDict.get str_eq_dec (lit "timestamp") members
                = Some (JStr (stamp now))
             /\ PyDict.get str_eq_dec (lit "policy_count") members
                = Some (JInt (Z.of_nat (policy_count s))))
    /\ (policy_snapshot_json d = None ->
        query_historical_policies d = NotFound).
Proof.
  intros rid now r d. split.
  - intros d1 s C.
    destruct (capture_policy_snapshot_inv _ _ _ _ _ _ C)
      as (Hr & Ht & _ & _ & Hfile & Hsome & Hl & Hm).
    split; [exact Hl|]. split; [exact Hm|].
    unfold query_historical_policies. rewrite Hfile. clear Hfile.
    revert Hsome. unfold snapshot_file.
    destruct (members_sorted (active_policies s)) as [policies|];
      [|intros H; now contradiction H].
    destruct (members_sorted (full_details s)) as [details|];
      [|intros H; now contradiction H].
    intros _. rewrite <- Hr, <- Ht.
    eexists. split; [reflexivity|]. split; [reflexivity|].
    repeat split; reflexivity.
  - intros H. unfold query_historical_policies. now rewrite H.
Qed.

Lemma captured_snapshot_is_queryable_witness :
  exists d1 s,
    capture_policy_snapshot (lit "R1") (lit "2024-01-01T00:00:00")
      {| docs := Some [Sample.retention]; plans := None |} empty_run
    = Some (d1, s)
    /\ ledger_jsonl d1 = [].
Proof.
  destruct (capture_policy_snapshot (lit "R1") (lit "2024-01-01T00:00:00")
              {| docs := Some [Sample.retention]; plans := None |} empty_run)
    as [[d1 s]|] eqn:E; [|vm_compute in E; discriminate E].
  exists d1, s. split; [reflexivity|].
  exact (proj1 (proj1 (captured_snapshot_is_queryable (lit "R1")
                         (lit "2024-01-01T00:00:00")
                         {| docs := Some [Sample.retention]; plans := None |}
                         empty_run) d1 s E)).
Defined.

End PipelineRun.

(* ------------------------------------------------------------------ *)
(** ** The runtime policy capture *)

Module CaptureFacts.
Import PyStr Json PolicyCapture.

Lemma read_policies_none (files : list PolicyFile) :
  forall policies,
    read_policies files policies = None
    <-> exists name e, In (name, inr e) files.
Proof.
  induction files as [|[name [content|e]] files IH]; intros policies;
    cbn [read_policies].
  - split; [intros H; discriminate H | intros (? & ? & [])].
  - rewrite IH. split.
    + intros (n & e & H). exists n, e. now right.
    + intros (n & e & [H|H]); [discriminate H | exists n, e; exact H].
  - split; [|reflexivity]. intros _. exists name, e. now left.
Qed.

Lemma read_policies_distinct (pairs : list (str * str)) :
  forall policies,
    NoDup (PyDict.keys policies ++ map fst pairs) ->
    read_policies (map (fun p => (fst p, inl (snd p))) pairs) policies
    = Some (policies ++ pairs).
Proof.
  induction pairs as [|[name content] pairs IH]; intros policies ND;
    cbn [map read_policies fst snd].
  - now rewrite app_nil_r.
  - assert (Habs : PyDict.get str_eq_dec name policies = None).
    { apply get_none_not_in. intros I.
      cbn [map fst] in ND.
      apply (NoDup_remove_2 _ _ _ ND). apply in_or_app. now left. }
    rewrite (keys_set_absent _ _ str_eq_dec name content policies Habs).
    rewrite IH.
    + now rewrite <- app_assoc.
    + unfold PyDict.keys. rewrite map_app, <- app_assoc. exact ND.
Qed.

End CaptureFacts.

Section PolicyCaptureProperties.
Import PyStr Json PolicyCapture CaptureFacts.

(** X17.  [capture_snapshot] raises, writing nothing, exactly when one of
    the matched policy files cannot be read.  When all can be read and
    their names are distinct, the snapshot lists each file under its name
    with its content, in the order in which the files were matched. *)
Theorem capture_snapshot_outcome :
  forall (run_id now : str),
    (forall files,
        capture_snapshot run_id now files = None
        <-> exists name e, In (name, inr e) files)
    /\ (forall pairs : list (str * str),
          NoDup (map fst pairs) ->
          capture_snapshot run_id now
            (map (fun p => (fst p, inl (snd p))) pairs)
          = Some (render 0 (snapshot run_id now pairs))).
Proof.
  intros run_id now. split.
  - intros files. unfold capture_snapshot.
    rewrite <- (read_policies_none files []).
    destruct (read_policies files []); cbn [option_map];
      split; intros H; try discriminate H; reflexivity.
  - intros pairs ND. unfold capture_snapshot.
    rewrite (read_policies_distinct pairs [] ND). reflexivity.
Qed.

Lemma capture_snapshot_outcome_witness :
  capture_snapshot (lit "local") (lit "2024-01-01T00:00:00")
    (map (fun p => (fst p, inl (snd p)))
       [(lit "retention.yml", lit "keep: 30"); (lit "naming.yml", lit "")])
  = Some (render 0
            (snapshot (lit "local") (lit "2024-01-01T00:00:00")
               [(lit "retention.yml", lit "keep: 30");
                (lit "naming.yml", lit "")])).
Proof.
  apply (proj2 (capture_snapshot_outcome (lit "local")
                  (lit "2024-01-01T00:00:00"))).
  repeat constructor; simpl; intros H;
    repeat (destruct H as [H|H]; try discriminate H); exact H.
Defined.

End PolicyCaptureProperties.

(* ------------------------------------------------------------------ *)
(** ** The registry builder and the version extractor on the same tree *)

Module AgreementFacts.
Import PyStr Tree StrFacts LineFacts ParserFacts MappingFacts ScanFacts
       SemverFacts CountFacts ScanInvariants.

Lemma bareb_true (s : str) : bareb s = true -> bare s.
Proof.
  unfold bareb. rewrite negb_true_iff, !orb_false_iff.
  intros [[[Hd Hs] Hed] Hes] q Hq. split; intros t ->.
  - destruct Hq as [-> | ->]; cbn [startswith] in Hd, Hs;
      rewrite N.eqb_refl in *; discriminate.
  - destruct Hq as [-> | ->]; rewrite endswith_last, N.eqb_refl in *;
      discriminate.
Qed.

Lemma bare_values_plain (content : str) :
  bare_values content = true ->
  forall line v, In line (header_lines content) ->
                 raw_value line = Some v -> plain_quoting v.
Proof.
  unfold bare_values. rewrite forallb_forall. intros H line v Hin Hr.
  specialize (H line Hin). rewrite Hr in H. left. now apply bareb_true.
Qed.

Lemma parse_content_agree (content : str) :
  (forall line v, In line (header_lines content) ->
                  raw_value line = Some v -> plain_quoting v) ->
  Builder.parse_content content = Extractor.parse_content content.
Proof.
  intros H. rewrite builder_content, extractor_content.
  rewrite fold_lines_agree; [reflexivity|].
  intros line Hin. apply parse_line_agree. intros v Hv. now apply (H line v).
Qed.

(** A document that raises no diagnostic is seen alike by both scans. *)
Lemma clean_file (f : File) :
  diagnostics f = [] -> plain_file f ->
  option_map registered (claimant f)
  = option_map extracted (qualifies None f).
Proof.
  unfold diagnostics, plain_file, claimant, qualifies,
    Extractor.extract_frontmatter.
  destruct (read_text f) as [content|e]; [|intros H; discriminate H].
  intros Hd Hp.
  rewrite <- (parse_content_agree content (fun line v => Hp content line v eq_refl)).
  destruct (Builder.parse_content content) as [metadata|]; [|reflexivity].
  change (Extractor.mem (lit "doc_key") metadata)
    with (Builder.mem (lit "doc_key") metadata).
  destruct (Builder.mem (lit "doc_key") metadata); [|reflexivity].
  destruct (validate_frontmatter_cases Builder.init metadata f)
    as [[Ha Hv]|[Ha [e Hv]]]; rewrite Hv in Hd;
    [|destruct (Builder.errors Builder.init); discriminate Hd].
  rewrite Ha. cbn [andb negb Extractor.filtered_out].
  unfold accepts, Builder.validate_frontmatter in Ha.
  destruct (Builder.missing_fields metadata) as [|m ms] eqn:Hm;
    [|discriminate Ha].
  assert (Hall : forallb (fun fld => Extractor.mem fld metadata)
                   Extractor.required = true).
  { apply forallb_forall. intros fld Hin.
    apply (no_missing_field metadata fld Hm).
    unfold Extractor.required, Builder.required_fields in *.
    cbn [map In] in Hin |- *. tauto. }
  rewrite Hall. reflexivity.
Qed.

Lemma clean_files (files : list File) :
  flat_map diagnostics files = [] ->
  (forall f, In f files -> plain_file f) ->
  map registered (claimants files) = map extracted (entries None files).
Proof.
  induction files as [|f files IH]; intros Hd Hp; [reflexivity|].
  cbn [flat_map] in Hd. apply app_eq_nil in Hd. destruct Hd as [Hf Hd].
  unfold claimants, entries. cbn [flat_map]. rewrite !map_app.
  fold (claimants files). fold (entries None files).
  rewrite IH by (auto; intros; apply Hp; now right).
  f_equal. pose proof (clean_file f Hf (Hp f (or_introl eq_refl))) as E.
  destruct (claimant f), (qualifies None f); cbn [option_map] in E;
    try discriminate E; [|reflexivity].
  cbn [map]. congruence.
Qed.

Lemma store_distinct (es : list (option str * Extractor.DocumentVersion)) :
  forall d : Extractor.State,
    NoDup (PyDict.keys d ++ map fst es) -> fold_left store es d = d ++ es.
Proof.
  induction es as [|[k v] es IH]; intros d ND; cbn [fold_left].
  - now rewrite app_nil_r.
  - assert (Habs : PyDict.get optstr_eq_dec k d = None).
    { apply get_none_not_in. intros I. cbn [map fst] in ND.
      apply (NoDup_remove_2 _ _ _ ND). apply in_or_app. now left. }
    unfold store at 2. cbn [fst snd].
    rewrite (keys_set_absent _ _ optstr_eq_dec k v d Habs).
    rewrite IH.
    + now rewrite <- app_assoc.
    + unfold PyDict.keys. rewrite map_app, <- app_assoc. exact ND.
Qed.

End AgreementFacts.

Section Agreement.
Import PyStr Tree ScanFacts CountFacts RegistryFacts ScanInvariants
       AgreementFacts.

(** X20.  On a tree the registry builder accepts (no duplicate, no error)
    and whose headers use plain quoting, the version extractor without a
    status filter sees what the builder registered: the same keys in the
    same order, each with the same [semver], and the same count. *)
Theorem extractor_agrees_with_clean_registry :
  forall r : Repo,
    Builder.report_status (fst (Builder.scan_documents Builder.init r)) = true ->
    (forall f, In f (walk r) -> plain_file f) ->
    Extractor.to_simple_dict
      (fst (Extractor.scan_documents Extractor.init None r))
    = map registered
        (Builder.registry (fst (Builder.scan_documents Builder.init r)))
    /\ snd (Extractor.scan_documents Extractor.init None r)
       = snd (Builder.scan_documents Builder.init r).
Proof.
  intros r Hs Hp.
  destruct (successful_scan_registry r Hs) as [Hreg Hnd].
  assert (He : flat_map diagnostics (walk r) = []).
  { rewrite <- scan_documents_errors.
    now apply (proj1 (report_status_true _)) in Hs. }
  pose proof (clean_files (walk r) He Hp) as Hsame.
  assert (Hkeys : map fst (entries None (walk r))
                  = PyDict.keys (claimants (walk r))).
  { unfold PyDict.keys.
    transitivity (map fst (map extracted (entries None (walk r)))).
    - rewrite map_map. reflexivity.
    - rewrite <- Hsame, map_map. reflexivity. }
  rewrite scan_documents_entries. cbn [fst snd].
  rewrite store_distinct
    by (cbn [PyDict.keys map app]; rewrite Hkeys, <- Hreg; exact Hnd).
  cbn [app]. split.
  - rewrite Hreg, Hsame. reflexivity.
  - rewrite (inv_count (invariant_scan r)), Hreg.
    rewrite <- (length_map extracted), <- Hsame. apply length_map.
Qed.

Lemma extractor_agrees_with_clean_registry_witness :
  let r := {| docs := Some [Sample.retention]; plans := Some [Sample.naming] |}
  in
  Extractor.to_simple_dict
    (fst (Extractor.scan_documents Extractor.init None r))
  = map registered
      (Builder.registry (fst (Builder.scan_documents Builder.init r))).
Proof.
  intros r.
  apply (extractor_agrees_with_clean_registry r).
  - vm_compute. reflexivity.
  - intros f [<-|[<-|[]]] content line v Hr; injection Hr as <-;
      apply bare_values_plain; vm_compute; reflexivity.
Defined.

End Agreement.

(* ------------------------------------------------------------------ *)
(** ** When the registry file is written *)

Module PersistFacts.
Import PyStr Tree Json Builder ScanFacts RegistryFacts SortFacts
       ScanInvariants.

Lemma str_keys_items (V : Type) (d : list (option str * V))
  (l : list (str * V)) :
  str_keys d = Some l -> l = map (fun kv => (key_text (fst kv), snd kv)) d.
Proof.
  revert l. induction d as [|[[k|] v] d IH]; cbn [str_keys map]; intros l H.
  - now injection H as <-.
  - destruct (str_keys d) as [l'|]; [|discriminate H].
    cbn [option_map] in H. injection H as <-.
    now rewrite (IH l' eq_refl).
  - discriminate H.
Qed.

(** The members written under [sort_keys=True] are the items of the
    dictionary, each once. *)
Lemma members_sorted_items (V : Type) (d : list (option str * V))
  (m : list (str * V)) :
  members_sorted d = Some m ->
  Permutation m (map (fun kv => (key_text (fst kv), snd kv)) d).
Proof.
  assert (G : option_map (@sorted_items V) (str_keys d) = Some m ->
              Permutation m (map (fun kv => (key_text (fst kv), snd kv)) d)).
  { destruct (str_keys d) as [l|] eqn:E; [|discriminate].
    cbn [option_map]. intros [= <-].
    rewrite <- (str_keys_items V d l E). apply sorted_items_items. }
  unfold members_sorted. destruct d as [|[k v] [|y t]]; [exact G| |exact G].
  intros [= <-]. reflexivity.
Qed.

Lemma report_status_perm (ra rb : Repo) :
  Permutation (walk ra) (walk rb) ->
  report_status (fst (scan_documents init ra)) = true ->
  report_status (fst (scan_documents init rb)) = true.
Proof.
  intros Hp H. apply report_status_true in H. destruct H as [Hd He].
  apply report_status_true. split.
  - apply no_conflict_iff. apply no_conflict_iff in Hd.
    eapply Permutation_NoDup; [|exact Hd].
    apply Permutation_map. unfold claimants.
    now apply Permutation_flat_map.
  - rewrite scan_documents_errors in He |- *.
    apply Permutation_nil. rewrite <- He. apply Permutation_sym.
    now apply Permutation_flat_map.
Qed.

Lemma save_registry_perm (r1 r2 : Repo) :
  Permutation (walk r1) (walk r2) ->
  report_status (fst (scan_documents init r1)) = true ->
  save_registry (fst (scan_documents init r1))
  = save_registry (fst (scan_documents init r2)).
Proof.
  intros HP H1. pose proof (report_status_perm r1 r2 HP H1) as H2.
  destruct (successful_scan_registry r1 H1) as [R1 N1].
  destruct (successful_scan_registry r2 H2) as [R2 _].
  unfold save_registry, dump_registry, registry_dict.
  rewrite (members_sorted_perm _
             (map (fun kv => (fst kv, asdict (snd kv)))
                (registry (fst (scan_documents init r1))))
             (map (fun kv => (fst kv, asdict (snd kv)))
                (registry (fst (scan_documents init r2))))).
  - reflexivity.
  - apply Permutation_map. rewrite R1, R2. unfold claimants.
    now apply Permutation_flat_map.
  - rewrite map_map. simpl. exact N1.
Qed.

End PersistFacts.

Section Persisted.
Import PyStr Tree Json Builder ScanFacts RegistryFacts SortFacts PersistFacts.

(** X21.  Let two runs meet the same files, in any two traversal orders, let
    the scan of the first succeed, and let its registry not hold a null key
    beside another entry.  Then both runs end with status 0 and have written
    the same text.  The text is the rendering, two spaces per level, of one
    object whose members are in ascending order of their names, and the
    members are the registry's entries, each once: the name is the key and
    the value is the record with its eight fields sorted by name. *)
Theorem clean_registry_is_persisted :
  forall r1 r2 : Repo,
    Permutation (walk r1) (walk r2) ->
    report_status (fst (scan_documents init r1)) = true ->
    ~ (In None (PyDict.keys (registry (fst (scan_documents init r1))))
       /\ 2 <= length (registry (fst (scan_documents init r1)))) ->
    exists members,
      main false r1
      = {| exit_status := 0; output := Saved (render 0 (JObj members)) |}
      /\ main false r2 = main false r1
      /\ Sorted (@key_le json) members
      /\ Permutation members
           (map (fun kv => (key_text (fst kv),
                            of_fields_sorted (asdict (snd kv))))
              (registry (fst (scan_documents init r1)))).
Proof.
  intros r1 r2 HP H1 Hnull.
  pose proof (report_status_perm r1 r2 HP H1) as H2.
  pose proof (save_registry_perm r1 r2 HP H1) as Hsame.
  destruct (save_registry (fst (scan_documents init r1))) as [written|] eqn:Hw;
    [|exfalso; apply Hnull; now apply save_registry_raises].
  assert (Hm : exists m,
             members_sorted (registry_dict (fst (scan_documents init r1)))
             = Some m
             /\ written
                = render 0 (JObj (map (fun kv => (fst kv,
                                                  of_fields_sorted (snd kv)))
                                    m))).
  { revert Hw. unfold save_registry, dump_registry.
    destruct (members_sorted (registry_dict (fst (scan_documents init r1))))
      as [m|]; [|intros H; discriminate H].
    cbn [option_map]. intros H. exists m. split; [reflexivity|]. congruence. }
  destruct Hm as (m & Em & ->).
  exists (map (fun kv => (fst kv, of_fields_sorted (snd kv))) m).
  assert (Hmain : forall r,
            report_status (fst (scan_documents init r)) = true ->
            forall text, save_registry (fst (scan_documents init r)) = Some text ->
            main false r = {| exit_status := 0; output := Saved text |}).
  { intros r Hr text Ht. unfold main.
    destruct (scan_documents init r) as [b n]. cbn [fst] in Hr, Ht.
    rewrite Hr, Ht. reflexivity. }
  split; [exact (Hmain r1 H1 _ Hw)|].
  split; [rewrite (Hmain r1 H1 _ Hw); symmetry in Hsame;
          exact (Hmain r2 H2 _ Hsame)|].
  split.
  - apply Sorted_map_values.
    exact (proj1 (members_sorted_some _ _ _ Em)).
  - pose proof (members_sorted_items _ _ _ Em) as P.
    apply (Permutation_map (fun kv => (fst kv, of_fields_sorted (snd kv))))
      in P.
    unfold registry_dict in P. rewrite !map_map in P. exact P.
Qed.

Lemma clean_registry_is_persisted_witness :
  let r1 := {| docs := Some [Sample.retention; Sample.naming];
               plans := None |} in
  let r2 := {| docs := Some [Sample.naming; Sample.retention];
               plans := None |} in
  exists members,
    main false r1
    = {| exit_status := 0; output := Saved (render 0 (JObj members)) |}
    /\ main false r2 = main false r1
    /\ length members = 2.
Proof.
  intros r1 r2.
  destruct (clean_registry_is_persisted r1 r2) as (members & M1 & M2 & _ & P).
  - apply perm_swap.
  - reflexivity.
  - vm_compute. intros [[H|[H|[]]] _]; discriminate H.
  - exists members. split; [exact M1|]. split; [exact M2|].
    apply Permutation_length in P. rewrite P. reflexivity.
Defined.

End Persisted.
